(** * pkgtailor: tailoring state machine and deletion predicates

    A shallow embedding of [lib/pkgtailor.js] and the properties of its
    persisted tailoring state machine, its environment predicates and its
    command line handling.

    Strings.  A JavaScript string is a sequence of UTF-16 code units; the
    embedding uses [string], one [ascii] per code unit, and so covers the
    strings whose code units are below 256.

    Effects.  A statement of the script is a function from the state (the
    file system, [process.argv], the variables [options] and
    [persistedTailoringState], and the list of what has been printed,
    written and unlinked so far) to a completion and a new state.  A
    completion is a normal return, a thrown exception, or the exit of the
    process.  The calls of [debug] only write to the error stream when the
    environment asks for it; they are left out.

    Layout of the file: regular expressions (the three literals of the
    script are values of a small syntax, run by a derivative matcher), the
    host (paths, file system, console, process), the script function by
    function, the vocabulary of the properties, and then the properties. *)

From Stdlib Require Import String Ascii List ZArith Bool Lia.
Import ListNotations.
Open Scope string_scope.
Open Scope list_scope.

Set Implicit Arguments.

(* ====================================================================== *)
(** ** Regular expressions *)

Module Regex.

(** A character class [[...]] or [[^...]]: its ranges, and whether it is
    negated.  A single character [c] is the range [(c, c)]. *)
Record class := Class { negated : bool; ranges : list (ascii * ascii) }.

Inductive re : Type :=
| Void                          (* matches nothing; only derivatives make it *)
| Eps                           (* the empty pattern *)
| Chr (c : ascii)               (* a literal character *)
| Cls (k : class)               (* a character class *)
| Cat (r1 r2 : re)              (* r1 r2 *)
| Alt (r1 r2 : re)              (* r1|r2 *)
| Star (r : re).                (* r* *)

(** [r+] *)
Definition Plus (r : re) : re := Cat r (Star r).

(** A run of literal characters. *)
Fixpoint Lit (s : string) : re :=
  match s with
  | EmptyString => Eps
  | String c s' => Cat (Chr c) (Lit s')
  end.

Definition in_range (c : ascii) (rg : ascii * ascii) : bool :=
  (N_of_ascii (fst rg) <=? N_of_ascii c)%N && (N_of_ascii c <=? N_of_ascii (snd rg))%N.

Definition in_class (k : class) (c : ascii) : bool :=
  xorb (negated k) (existsb (in_range c) (ranges k)).

Fixpoint nullable (r : re) : bool :=
  match r with
  | Void => false
  | Eps => true
  | Chr _ => false
  | Cls _ => false
  | Cat r1 r2 => nullable r1 && nullable r2
  | Alt r1 r2 => nullable r1 || nullable r2
  | Star _ => true
  end.

Fixpoint deriv (c : ascii) (r : re) : re :=
  match r with
  | Void => Void
  | Eps => Void
  | Chr d => if Ascii.eqb c d then Eps else Void
  | Cls k => if in_class k c then Eps else Void
  | Cat r1 r2 =>
      if nullable r1
      then Alt (Cat (deriv c r1) r2) (deriv c r2)
      else Cat (deriv c r1) r2
  | Alt r1 r2 => Alt (deriv c r1) (deriv c r2)
  | Star r1 => Cat (deriv c r1) (Star r1)
  end.

(** [matches r s]: the whole of [s] is a match of [r]. *)
Fixpoint matches (r : re) (s : string) : bool :=
  match s with
  | EmptyString => nullable r
  | String c s' => matches (deriv c r) s'
  end.

(** [/r$/.test(s)] for a pattern without flags: some match of [r] starts
    anywhere in [s] and ends where [s] ends. *)
Fixpoint test_to_end (r : re) (s : string) : bool :=
  matches r s ||
  match s with
  | EmptyString => false
  | String _ s' => test_to_end r s'
  end.

(** The words of a pattern, as a relation. *)
Inductive Matches : re -> string -> Prop :=
| MEps : Matches Eps ""
| MChr c : Matches (Chr c) (String c "")
| MCls k c : in_class k c = true -> Matches (Cls k) (String c "")
| MCat r1 r2 s1 s2 : Matches r1 s1 -> Matches r2 s2 -> Matches (Cat r1 r2) (s1 ++ s2)
| MAltL r1 r2 s : Matches r1 s -> Matches (Alt r1 r2) s
| MAltR r1 r2 s : Matches r2 s -> Matches (Alt r1 r2) s
| MStar0 r : Matches (Star r) ""
| MStarS r s1 s2 : Matches r s1 -> Matches (Star r) s2 -> Matches (Star r) (s1 ++ s2).

End Regex.

Import Regex.

(* ====================================================================== *)
(** ** String helpers of the JavaScript run time *)

(** [String.prototype.toLowerCase] on one code unit below 256: the letters
    A-Z and the Latin-1 capitals U+00C0-U+00DE (U+00D7, the multiplication
    sign, apart) move up by 32. *)
Definition toLowerCaseChar (c : ascii) : ascii :=
  let n := N_of_ascii c in
  if ((65 <=? n) && (n <=? 90))%N then ascii_of_N (n + 32)
  else if ((192 <=? n) && (n <=? 222) && negb (n =? 215))%N then ascii_of_N (n + 32)
  else c.

Fixpoint toLowerCase (s : string) : string :=
  match s with
  | EmptyString => EmptyString
  | String c s' => String (toLowerCaseChar c) (toLowerCase s')
  end.

(** [s.replace(/\\/g, "/")] *)
Fixpoint replaceBackslashes (s : string) : string :=
  match s with
  | EmptyString => EmptyString
  | String c s' => String (if Ascii.eqb c "\" then "/"%char else c) (replaceBackslashes s')
  end.

Fixpoint repeatString (s : string) (n : nat) : string :=
  match n with
  | O => ""
  | S n' => s ++ repeatString s n'
  end.

(* ====================================================================== *)
(** ** The host: platform, paths, file system, console, process *)

(** [os.platform() === "win32"] or not. *)
Inductive Platform := Posix | Win32.

Module Path.

(** Node's [path.join], on the arguments the script gives it: an absolute
    or relative first argument followed by plain names and [".."].  On
    win32 an absolute path starts with a drive ([C:]); UNC and
    drive-relative paths are outside the model. *)

Definition sep (p : Platform) : string :=
  match p with Posix => "/" | Win32 => "\" end.

Definition isSep (p : Platform) (c : ascii) : bool :=
  match p with
  | Posix => Ascii.eqb c "/"
  | Win32 => Ascii.eqb c "\" || Ascii.eqb c "/"
  end.

Fixpoint segments (p : Platform) (s : string) : list string :=
  match s with
  | EmptyString => [""]
  | String c s' =>
      if isSep p c then "" :: segments p s'
      else match segments p s' with
           | seg :: rest => String c seg :: rest
           | [] => [String c ""]
           end
  end.

(** Drops empty and ["."] segments and resolves [".."]; [stack] is the
    resolved prefix, last segment first.  Above the start of a relative
    path [".."] is kept, above a root it is dropped. *)
Fixpoint resolve (rooted : bool) (stack segs : list string) : list string :=
  match segs with
  | [] => rev stack
  | seg :: rest =>
      if (seg =? "") || (seg =? ".") then resolve rooted stack rest
      else if seg =? ".." then
        match stack with
        | top :: below =>
            if top =? ".." then resolve rooted (seg :: stack) rest
            else resolve rooted below rest
        | [] => if rooted then resolve rooted [] rest
                else resolve rooted [seg] rest
        end
      else resolve rooted (seg :: stack) rest
  end.

Definition isDrive (seg : string) : bool :=
  match seg with
  | String _ (String c EmptyString) => Ascii.eqb c ":"
  | _ => false
  end.

Definition join (p : Platform) (parts : list string) : string :=
  let segs := flat_map (segments p) (filter (fun a => negb (a =? "")) parts) in
  match segs with
  | [] => "."
  | first :: rest =>
      if first =? "" then
        sep p ++ String.concat (sep p) (resolve true [] rest)
      else if match p with Win32 => isDrive first | Posix => false end then
        first ++ sep p ++ String.concat (sep p) (resolve true [] rest)
      else
        match resolve false [] segs with
        | [] => "."
        | l => String.concat (sep p) l
        end
  end.

End Path.

(** The normal form [scanFolder] gives win32 paths (line 185). *)
Definition normalizeWin32 (f : string) : string :=
  toLowerCase (replaceBackslashes f).

(** A directory entry.  [removable] says whether [unlink] of the file
    succeeds (on POSIX a matter of the parent directory, on win32 of the
    file). *)
#[warnings="-register-all"] Inductive Entry : Type :=
| File (name : string) (readable writable removable : bool)
| Dir (name : string) (listable : bool) (entries : list Entry)
| Other (name : string)        (* stat succeeds: neither directory nor file *)
| Dangling (name : string).    (* stat fails, e.g. a broken link *)

Record RegularFile := {
  fileReadable : bool;
  fileWritable : bool;
  fileContent : string
}.

(** The part of the file system the script touches.  The script lives in the
    package's [lib] folder ([__dirname]); the state file is in that folder,
    the two candidate locations of the dependency module are outside it, so
    the state file is an object apart from the enumerated files. *)
Record FileSystem := {
  stateFile : option RegularFile;       (* at cStateFileName; None: missing *)
  nestedModule : option Entry;          (* at the first dependency location *)
  siblingModule : option Entry          (* at the second dependency location *)
}.

Record Host := {
  platform : Platform;
  dirname : string                       (* __dirname, absolute *)
}.

(** What the script does to the outside, in order. *)
Inductive Event :=
| ConsoleLog (line : string)
| FileWritten (path content : string)
| FileUnlinked (path : string).

Inductive Exn :=
| Error (message : string)               (* new Error(message) *)
| TypeError (message : string)           (* property read of undefined *)
| SystemError (code syscall path : string).   (* raised by fs *)

(** The text Node puts after the code of a system error. *)
Definition describe (code : string) : string :=
  if code =? "ENOENT" then "no such file or directory"
  else if code =? "EACCES" then "permission denied"
  else if code =? "ENOTDIR" then "not a directory"
  else "unknown error".

(** [e.message] *)
Definition message (e : Exn) : string :=
  match e with
  | Error m => m
  | TypeError m => m
  | SystemError code syscall path =>
      code ++ ": " ++ describe code ++ ", " ++ syscall ++ " '" ++ path ++ "'"
  end.

(** Two path strings name the same object: win32 compares without case and
    takes both separators. *)
Definition samePath (p : Platform) (a b : string) : bool :=
  match p with
  | Posix => a =? b
  | Win32 => normalizeWin32 a =? normalizeWin32 b
  end.

(** The file at [target] below [folder], if any: its read and write bits. *)
Fixpoint findEntry (p : Platform) (target folder : string) (e : Entry) {struct e}
  : option (bool * bool) :=
  match e with
  | File name r w _ =>
      if samePath p (Path.join p [folder; name]) target then Some (r, w) else None
  | Dir name _ es =>
      (fix go (l : list Entry) : option (bool * bool) :=
         match l with
         | [] => None
         | e' :: l' =>
             match findEntry p target (Path.join p [folder; name]) e' with
             | Some a => Some a
             | None => go l'
             end
         end) es
  | Other _ => None
  | Dangling _ => None
  end.

Fixpoint findEntries (p : Platform) (target folder : string) (l : list Entry)
  : option (bool * bool) :=
  match l with
  | [] => None
  | e :: l' =>
      match findEntry p target folder e with
      | Some a => Some a
      | None => findEntries p target folder l'
      end
  end.

Inductive Unlinked :=
| Absent                            (* no file at the path *)
| Refused                           (* the file is there and stays *)
| Changed (now : list Entry).       (* what is left where the entry was *)

Fixpoint unlinkEntry (p : Platform) (target folder : string) (e : Entry) {struct e}
  : Unlinked :=
  match e with
  | File name _ _ removable =>
      if samePath p (Path.join p [folder; name]) target
      then (if removable then Changed [] else Refused)
      else Absent
  | Dir name listable es =>
      match
        (fix go (l : list Entry) : Unlinked :=
           match l with
           | [] => Absent
           | e' :: l' =>
               match unlinkEntry p target (Path.join p [folder; name]) e' with
               | Changed now => Changed (now ++ l')
               | Refused => Refused
               | Absent =>
                   match go l' with
                   | Changed l'' => Changed (e' :: l'')
                   | other => other
                   end
               end
           end) es
      with
      | Changed es' => Changed [Dir name listable es']
      | other => other
      end
  | Other _ => Absent
  | Dangling _ => Absent
  end.

Fixpoint unlinkEntries (p : Platform) (target folder : string) (l : list Entry)
  : Unlinked :=
  match l with
  | [] => Absent
  | e :: l' =>
      match unlinkEntry p target folder e with
      | Changed now => Changed (now ++ l')
      | Refused => Refused
      | Absent =>
          match unlinkEntries p target folder l' with
          | Changed l'' => Changed (e :: l'')
          | other => other
          end
      end
  end.

(** The children of a module root. *)
Definition rootEntries (root : option Entry) : list Entry :=
  match root with
  | Some (Dir _ _ es) => es
  | _ => []
  end.

Definition withRootEntries (root : option Entry) (es : list Entry) : option Entry :=
  match root with
  | Some (Dir name listable _) => Some (Dir name listable es)
  | other => other
  end.


(* ====================================================================== *)
(** ** The script's data *)

(** [EnvDef]: the two objects of the script carry [name] and
    [deleteFilePredicate]. *)
Record EnvDef := {
  name : string;
  deleteFilePredicate : string -> bool
}.

(** [Options]; [environment] starts out undefined. *)
Record Options := {
  environment : option EnvDef;
  dryRun : bool
}.

(** The script's variables and the world it runs in. *)
Record State := {
  fs : FileSystem;
  argv : list string;                           (* process.argv *)
  options : Options;                            (* const options *)
  persistedTailoringState : option string;      (* None: not assigned yet *)
  events : list Event                           (* oldest first *)
}.

Definition setFs (f : FileSystem) (s : State) : State :=
  {| fs := f; argv := argv s; options := options s;
     persistedTailoringState := persistedTailoringState s; events := events s |}.

Definition setArgv (a : list string) (s : State) : State :=
  {| fs := fs s; argv := a; options := options s;
     persistedTailoringState := persistedTailoringState s; events := events s |}.

Definition setOptions (o : Options) (s : State) : State :=
  {| fs := fs s; argv := argv s; options := o;
     persistedTailoringState := persistedTailoringState s; events := events s |}.

Definition setPersistedTailoringState (v : string) (s : State) : State :=
  {| fs := fs s; argv := argv s; options := options s;
     persistedTailoringState := Some v; events := events s |}.

Definition emit (e : Event) (s : State) : State :=
  {| fs := fs s; argv := argv s; options := options s;
     persistedTailoringState := persistedTailoringState s;
     events := events s ++ [e] |}.

(* ====================================================================== *)
(** ** Statements: state, exceptions and process exit *)

Inductive Completion (A : Type) : Type :=
| Normal (a : A)
| Thrown (e : Exn)
| Exited (code : Z).          (* process.exit(code): no handler runs *)

Arguments Normal {A} a.
Arguments Thrown {A} e.
Arguments Exited {A} code.

Definition Js (A : Type) : Type := State -> Completion A * State.

Definition ret {A : Type} (a : A) : Js A := fun s => (Normal a, s).

Definition bind {A B : Type} (m : Js A) (k : A -> Js B) : Js B :=
  fun s =>
    match m s with
    | (Normal a, s') => k a s'
    | (Thrown e, s') => (Thrown e, s')
    | (Exited c, s') => (Exited c, s')
    end.

Definition throw {A : Type} (e : Exn) : Js A := fun s => (Thrown e, s).

Definition process_exit {A : Type} (code : Z) : Js A := fun s => (Exited code, s).

Definition tryCatch {A : Type} (m : Js A) (handler : Exn -> Js A) : Js A :=
  fun s =>
    match m s with
    | (Thrown e, s') => handler e s'
    | other => other
    end.

Definition gets {A : Type} (f : State -> A) : Js A := fun s => (Normal (f s), s).

Definition modify (f : State -> State) : Js unit := fun s => (Normal tt, f s).

Declare Scope js_scope.
Delimit Scope js_scope with js.
Notation "x <- m ;; k" := (bind m (fun x => k))
  (at level 100, m at next level, right associativity) : js_scope.
Notation "m ;; k" := (bind m (fun _ => k))
  (at level 100, right associativity) : js_scope.
Open Scope js_scope.

(** [l.forEach(f)] *)
Fixpoint forEach {A : Type} (f : A -> Js unit) (l : list A) : Js unit :=
  match l with
  | [] => ret tt
  | a :: l' => f a ;; forEach f l'
  end.

Definition console_log (line : string) : Js unit := modify (emit (ConsoleLog line)).

Definition nl : string := String (ascii_of_nat 10) EmptyString.

(** [fs.constants] (and, on old Node versions, [fs] itself). *)
Definition F_OK : Z := 0.
Definition R_OK : Z := 4.
Definition W_OK : Z := 2.

(* ====================================================================== *)
(** ** Constants of the script (lines 40-85) *)

Definition cStateNotTailored : string := "untailored".
Definition cStateUndefined : string := "undefined".
Definition cStateLambdaWithNode4 : string := "AWS Lambda with Node 4.x".
Definition cStateLambdaWithNode6 : string := "AWS Lambda with Node 6.x".
Definition cStates : list string :=
  [ cStateNotTailored; cStateUndefined; cStateLambdaWithNode4; cStateLambdaWithNode6 ].

(** [/((\/lib)|(\/linux-x86-32))\/[^\/]+$/], without the [$]. *)
Definition c32BitPathPattern : re :=
  Cat (Alt (Lit "/lib") (Lit "/linux-x86-32"))
      (Cat (Chr "/") (Plus (Cls (Class true [("/"%char, "/"%char)])))).

(** [/_(4[^K]|[^4][0-9])\.node$/], without the [$]; [K] is ["6"] in the
    first environment and ["8"] in the second. *)
Definition abiPattern (K : ascii) : re :=
  Cat (Chr "_")
      (Cat (Alt (Cat (Chr "4") (Cls (Class true [(K, K)])))
                (Cat (Cls (Class true [("4"%char, "4"%char)]))
                     (Cls (Class false [("0"%char, "9"%char)]))))
           (Lit ".node")).

Definition cLambdaV4EnvDef : EnvDef := {|
  name := cStateLambdaWithNode4;
  deleteFilePredicate := fun fn =>
    test_to_end (abiPattern "6") fn || test_to_end c32BitPathPattern fn
|}.

Definition cLambdaV6EnvDef : EnvDef := {|
  name := cStateLambdaWithNode6;
  deleteFilePredicate := fun fn =>
    test_to_end (abiPattern "8") fn || test_to_end c32BitPathPattern fn
|}.

(** The handlers of [cCmdLineOptionsDef], by name: the table and
    [printHelpAndExit] refer to each other. *)
Inductive Handler :=
| HandleHelp | HandleDryRun | HandleState | HandleAwsLambdaV4 | HandleAwsLambdaV6.

Record CmdLineDef := {
  optionName : string;
  verbose : string;
  handler : Handler
}.

Definition cCmdLineOptionsDef : list CmdLineDef :=
  [ {| optionName := "--help"; verbose := "Print this help"; handler := HandleHelp |};
    {| optionName := "--dryRun";
       verbose := "Print files which to be deleted and exit.";
       handler := HandleDryRun |};
    {| optionName := "--state";
       verbose := "Print current tailoring state of npm module and exit.";
       handler := HandleState |};
    {| optionName := "--AwsLambdaV4";
       verbose := "Tailor environment for AWS Lambda with Node.js V4.x";
       handler := HandleAwsLambdaV4 |};
    {| optionName := "--AwsLambdaV6";
       verbose := "Tailor environment for AWS Lambda with Node.js V6.x";
       handler := HandleAwsLambdaV6 |} ].

(** The initial value of [options] (lines 128-131). *)
Definition initialOptions : Options := {| environment := None; dryRun := false |}.

(* ====================================================================== *)
(** ** The script, function by function *)

Section Script.

Variable h : Host.

Local Abbreviation p := (platform h).

(** Line 51. *)
Definition cStateFileName : string := Path.join p [dirname h; "pkgtailor-state"].

(** Lines 196-200. *)
Definition innerPath : string := Path.join p ["oneagent-dependency"; "agent"].

Definition nestedLocation : string :=
  Path.join p [dirname h; ".."; "node_modules"; "@dynatrace"; innerPath].

Definition siblingLocation : string :=
  Path.join p [dirname h; ".."; ".."; innerPath].

Definition dependencyLocations : list string := [nestedLocation; siblingLocation].

(** *** File system calls *)

(** The read and write bits of the object at [path]; [None] when there is
    none. *)
Definition lookupPath (f : FileSystem) (path : string) : option (bool * bool) :=
  if samePath p path cStateFileName then
    option_map (fun r => (fileReadable r, fileWritable r)) (stateFile f)
  else if samePath p path nestedLocation then
    option_map (fun _ => (true, true)) (nestedModule f)
  else if samePath p path siblingLocation then
    option_map (fun _ => (true, true)) (siblingModule f)
  else
    match findEntries p path nestedLocation (rootEntries (nestedModule f)) with
    | Some a => Some a
    | None => findEntries p path siblingLocation (rootEntries (siblingModule f))
    end.

(** [fs.accessSync(path, mode)]: the bits [R_OK] and [W_OK] of [mode] are
    checked against the object, [F_OK] asks for nothing more than that it
    exists. *)
Definition accessSync (path : string) (mode : Z) : Js unit :=
  f <- gets fs ;;
  match lookupPath f path with
  | None => throw (SystemError "ENOENT" "access" path)
  | Some (r, w) =>
      if (implb (Z.testbit mode 2) r) && (implb (Z.testbit mode 1) w)
      then ret tt
      else throw (SystemError "EACCES" "access" path)
  end.

(** [fs.readFileSync(path, "utf-8")]; the script reads the state file only. *)
Definition readFileSync (path : string) : Js string :=
  f <- gets fs ;;
  if samePath p path cStateFileName then
    match stateFile f with
    | None => throw (SystemError "ENOENT" "open" path)
    | Some r =>
        if fileReadable r then ret (fileContent r)
        else throw (SystemError "EACCES" "open" path)
    end
  else throw (SystemError "ENOENT" "open" path).

(** [fs.writeFileSync(path, data)]; the script writes the state file only.
    A missing file is created. *)
Definition writeFileSync (path data : string) : Js unit :=
  f <- gets fs ;;
  if samePath p path cStateFileName then
    match stateFile f with
    | Some r =>
        if fileWritable r then
          modify (setFs {| stateFile := Some {| fileReadable := fileReadable r;
                                                fileWritable := true;
                                                fileContent := data |};
                           nestedModule := nestedModule f;
                           siblingModule := siblingModule f |}) ;;
          modify (emit (FileWritten path data))
        else throw (SystemError "EACCES" "open" path)
    | None =>
        modify (setFs {| stateFile := Some {| fileReadable := true;
                                              fileWritable := true;
                                              fileContent := data |};
                         nestedModule := nestedModule f;
                         siblingModule := siblingModule f |}) ;;
        modify (emit (FileWritten path data))
    end
  else throw (SystemError "EACCES" "open" path).

(** [fs.unlinkSync(path)], for a file below one of the module locations. *)
Definition unlinkSync (path : string) : Js unit :=
  f <- gets fs ;;
  match unlinkEntries p path nestedLocation (rootEntries (nestedModule f)) with
  | Changed es =>
      modify (setFs {| stateFile := stateFile f;
                       nestedModule := withRootEntries (nestedModule f) es;
                       siblingModule := siblingModule f |}) ;;
      modify (emit (FileUnlinked path))
  | Refused => throw (SystemError "EACCES" "unlink" path)
  | Absent =>
      match unlinkEntries p path siblingLocation (rootEntries (siblingModule f)) with
      | Changed es =>
          modify (setFs {| stateFile := stateFile f;
                           nestedModule := nestedModule f;
                           siblingModule := withRootEntries (siblingModule f) es |}) ;;
          modify (emit (FileUnlinked path))
      | Refused => throw (SystemError "EACCES" "unlink" path)
      | Absent => throw (SystemError "ENOENT" "unlink" path)
      end
  end.

(** [fs.readdirSync(folderName)] for a module root. *)
Definition readdirSync (folderName : string) : Js (list Entry) :=
  f <- gets fs ;;
  let root :=
    if samePath p folderName nestedLocation then nestedModule f
    else if samePath p folderName siblingLocation then siblingModule f
    else None in
  match root with
  | Some (Dir _ true es) => ret es
  | Some (Dir _ false _) => throw (SystemError "EACCES" "scandir" folderName)
  | Some _ => throw (SystemError "ENOTDIR" "scandir" folderName)
  | None => throw (SystemError "ENOENT" "scandir" folderName)
  end.

(** *** tryReadStateFile (lines 139-154) *)

Definition tryReadStateFile : Js string :=
  tryCatch
    (accessSync cStateFileName (Z.lor (Z.lor F_OK R_OK) W_OK) ;;
     tryCatch
       (readFileSync cStateFileName)
       (fun _ => throw (Error ("failed to read tailoring state from " ++ cStateFileName))))
    (fun _ => throw (Error ("state file " ++ cStateFileName ++ " is not accessable"))).

(** *** writeStateFile (lines 160-162) *)

Definition writeStateFile (state : string) : Js unit :=
  writeFileSync cStateFileName state.

(** *** scanFolder (lines 169-188) *)

(** Lines 183-186. *)
Definition normalizeFiles (files : list string) : list string :=
  match p with
  | Win32 => map normalizeWin32 files
  | Posix => files
  end.

(** What the [forEach] of lines 174-181 pushes for one entry of
    [folderName]; a directory is scanned by the recursive call, whose result
    has gone through lines 183-186. *)
Fixpoint scanEntry (folderName : string) (e : Entry) {struct e} : Exn + list string :=
  match e with
  | File name _ _ _ => inr [Path.join p [folderName; name]]
  | Dir name listable es =>
      let sub := Path.join p [folderName; name] in
      if listable then
        match
          (fix go (l : list Entry) : Exn + list string :=
             match l with
             | [] => inr []
             | e' :: l' =>
                 match scanEntry sub e' with
                 | inl x => inl x
                 | inr files1 =>
                     match go l' with
                     | inl x => inl x
                     | inr files2 => inr (files1 ++ files2)
                     end
                 end
             end) es
        with
        | inl x => inl x
        | inr files => inr (normalizeFiles files)
        end
      else inl (SystemError "EACCES" "scandir" sub)
  | Other _ => inr []
  | Dangling name => inl (SystemError "ENOENT" "stat" (Path.join p [folderName; name]))
  end.

Fixpoint scanEntries (folderName : string) (l : list Entry) : Exn + list string :=
  match l with
  | [] => inr []
  | e :: l' =>
      match scanEntry folderName e with
      | inl x => inl x
      | inr files1 =>
          match scanEntries folderName l' with
          | inl x => inl x
          | inr files2 => inr (files1 ++ files2)
          end
      end
  end.

(** The body of [scanFolder] once [readdirSync] has answered. *)
Definition scanFolderEntries (folderName : string) (entries : list Entry)
  : Exn + list string :=
  match scanEntries folderName entries with
  | inl x => inl x
  | inr files => inr (normalizeFiles files)
  end.

Definition scanFolder (folderName : string) : Js (list string) :=
  entries <- readdirSync folderName ;;
  match scanFolderEntries folderName entries with
  | inl x => throw x
  | inr files => ret files
  end.

(** *** locateDependencyModule (lines 195-221) *)

(** [dependencyLocations.some(...)]: the first location that exists. *)
Fixpoint firstAccessible (locations : list string) : Js (option string) :=
  match locations with
  | [] => ret None
  | loc :: rest =>
      found <- tryCatch (accessSync loc F_OK ;; ret true) (fun _ => ret false) ;;
      if found : bool then ret (Some loc) else firstAccessible rest
  end.

Definition locateDependencyModule : Js string :=
  location <- firstAccessible dependencyLocations ;;
  match location with
  | None => throw (Error "Could not locate 'oneagent-dependency' module")
  | Some l => if l =? "" then throw (Error "Could not locate 'oneagent-dependency' module")
              else ret l
  end.

(** *** tailorModule (lines 226-259) *)

Definition readWriteAccess : Z := Z.lor (Z.lor F_OK R_OK) W_OK.

Definition tailorModule : Js unit :=
  o <- gets options ;;
  match environment o with
  | None => throw (Error "no environment for tailoring specified.")
  | Some env =>
      dependencyLocation <- locateDependencyModule ;;
      allFiles <- scanFolder dependencyLocation ;;
      let filesToDelete := filter (deleteFilePredicate env) allFiles in
      console_log (nl ++ "Tailoring npm module for environment '" ++ name env ++ "'") ;;
      if dryRun o then
        console_log "Dry run - following files will be deleted from npm module" ;;
        forEach (fun fn =>
                   accessSync fn readWriteAccess ;;
                   console_log ("  " ++ fn))
                filesToDelete ;;
        console_log EmptyString
      else
        writeStateFile cStateUndefined ;;
        forEach (fun fn =>
                   console_log ("  deleting file '" ++ fn ++ "'") ;;
                   unlinkSync fn)
                filesToDelete ;;
        writeStateFile (name env)
  end.

(** *** printTailoringStatusAndExit (lines 264-273) *)

(** A variable in a template literal. *)
Definition interpolate (v : option string) : string :=
  match v with
  | Some x => x
  | None => "undefined"
  end.

(** [v === c] for a variable that may be unassigned. *)
Definition strictEquals (v : option string) (c : string) : bool :=
  match v with
  | Some x => x =? c
  | None => false
  end.

Definition printTailoringStatusAndExit : Js unit :=
  v <- gets persistedTailoringState ;;
  let msg :=
    if strictEquals v cStateNotTailored
    then "The npm module has not been tailored for a specific runtime environment."
    else ("The npm module has been tailored for runtime environment: " ++ interpolate v)%string in
  console_log ("TAILORING STATE: " ++ msg) ;;
  process_exit 0.

(** *** printHelpAndExit (lines 280-306) *)

Definition usage : string :=
  "Usage: dt-oneagent-tailor [options]" ++ nl ++ nl ++
  "The  @dynatrace/oneagent npm  module (to be precise, its  dependent module" ++ nl ++
  "@dynatrace/oneagent-dependency)  incorporates binary files for all Node.js" ++ nl ++
  "Node.js versions supported by Dynatrace.  As specific runtime environments" ++ nl ++
  "(e.g. AWS Lambda) do  support very  specific Node.js versions only, binary" ++ nl ++
  "files of unsupported Node.js versions can be  deleted from the npm module." ++ nl ++
  "This will  reduce the deployment  package file size significantly (e.g. to" ++ nl ++
  "overcome the 10MB upload restriction of AWS Lambda)" ++ nl ++ nl ++
  "This  script tailors npm  module content for  a selected  specific runtime" ++ nl ++
  "environments." ++ nl ++ nl ++
  "valid options are:".

(** [exitCode] is [None] when the caller passes nothing.  Line 281 takes
    every falsy value, zero among them, for a missing one. *)
Definition printHelpAndExit (exitCode : option Z) : Js unit :=
  let exitCode :=
    match exitCode with
    | None => 1%Z
    | Some c => if (c =? 0)%Z then 1%Z else c
    end in
  console_log EmptyString ;;
  console_log usage ;;
  forEach (fun def =>
             let spacer := repeatString "." (30 - String.length (optionName def)) in
             console_log ("  " ++ optionName def ++ " " ++ spacer ++ " " ++ verbose def))
          cCmdLineOptionsDef ;;
  console_log EmptyString ;;
  process_exit exitCode.

(** The handlers of lines 94-120. *)
Definition runHandler (k : Handler) : Js unit :=
  match k with
  | HandleHelp => printHelpAndExit (Some 0%Z)
  | HandleDryRun =>
      modify (fun s => setOptions {| environment := environment (options s);
                                     dryRun := true |} s)
  | HandleState => printTailoringStatusAndExit
  | HandleAwsLambdaV4 =>
      modify (fun s => setOptions {| environment := Some cLambdaV4EnvDef;
                                     dryRun := dryRun (options s) |} s)
  | HandleAwsLambdaV6 =>
      modify (fun s => setOptions {| environment := Some cLambdaV6EnvDef;
                                     dryRun := dryRun (options s) |} s)
  end.

(** *** lookupOption (lines 312-314) *)

Definition lookupOption (opt : string) : option CmdLineDef :=
  find (fun def => optionName def =? opt) cCmdLineOptionsDef.

(** *** parseOptions (lines 319-337) *)

Definition processOption (opt : string) : Js unit :=
  match lookupOption opt with
  | None =>
      console_log ("unknown command line option '" ++ opt ++ "'") ;;
      printHelpAndExit None
  | Some def => runHandler (handler def)
  end.

Definition parseOptions : Js unit :=
  a <- gets argv ;;
  (if (length a <? 3)%nat then modify (setArgv (a ++ ["--help"])) else ret tt) ;;
  a' <- gets argv ;;
  forEach processOption (skipn 2 a').

(** *** printResult (lines 343-353) *)

Definition printResult (e : option Exn) : Js unit :=
  match e with
  | Some x => console_log ("Error encountered: '" ++ message x ++ "'")
  | None => ret tt
  end ;;
  o <- gets options ;;
  let env :=
    match environment o with
    | Some d => (" for environment '" ++ name d ++ "'")%string
    | None => EmptyString
    end in
  console_log (nl ++ (if dryRun o then "[DRY RUN] " else EmptyString) ++
               "Tailoring npm module" ++ env ++ ": " ++
               match e with None => "SUCCEEDED" | Some _ => "FAILED" end).

(** *** The top level (lines 359-385) *)

(** [cStates.indexOf(v)] *)
Fixpoint indexOfFrom (i : Z) (l : list string) (v : option string) : Z :=
  match l with
  | [] => (-1)%Z
  | x :: l' => if strictEquals v x then i else indexOfFrom (i + 1)%Z l' v
  end.

Definition indexOf (l : list string) (v : option string) : Z := indexOfFrom 0%Z l v.

(** [options.environment.name]; the message is the one of the V8 versions
    the script names (Node 4.x and 6.x). *)
Definition environmentName : Js string :=
  o <- gets options ;;
  match environment o with
  | Some d => ret (name d)
  | None => throw (TypeError "Cannot read property 'name' of undefined")
  end.

(** Lines 367-381: what the persisted state allows. *)
Definition dispatchState : Js unit :=
  v <- gets persistedTailoringState ;;
  if (indexOf cStates v <? 0)%Z then
    console_log ("ERROR: npm module is in an unknown tailoring state '" ++
                 interpolate v ++ "'")
  else if strictEquals v cStateUndefined then
    console_log ("ERROR: Previous tailoring state left npm module in an undefined state. " ++
                 "Please re-install npm module.")
  else if negb (strictEquals v cStateNotTailored) then
    requested <- environmentName ;;
    if strictEquals v requested then
      console_log ("The npm module has been already tailored for environment '" ++
                   interpolate v ++ "'")
    else
      console_log ("ERROR: The npm module has been already tailored for environment '" ++
                   interpolate v) ;;
      requested' <- environmentName ;;
      console_log ("Please uninstall and re-install @dynatrace/oneagent module " ++
                   "to tailor for environment '" ++ requested' ++ "'")
  else
    tailorModule ;;
    printResult None.

(** Lines 361-385. *)
Definition main : Js unit :=
  tryCatch
    (state <- tryReadStateFile ;;
     modify (setPersistedTailoringState state) ;;
     parseOptions ;;
     dispatchState)
    (fun e => printResult (Some e)).

(** One invocation of the script: the state it starts in, and the exit code
    of the process (0 when the script runs to its end, 1 after an exception
    nobody caught). *)
Definition initialState (f : FileSystem) (args : list string) : State :=
  {| fs := f; argv := args; options := initialOptions;
     persistedTailoringState := None; events := [] |}.

Definition run (f : FileSystem) (args : list string) : Z * State :=
  match main (initialState f args) with
  | (Normal _, s) => (0%Z, s)
  | (Exited code, s) => (code, s)
  | (Thrown _, s) => (1%Z, s)
  end.

End Script.

(* ====================================================================== *)
(** ** Vocabulary of the properties *)

(** The events that change the file system. *)
Definition isMutation (e : Event) : bool :=
  match e with
  | ConsoleLog _ => false
  | FileWritten _ _ => true
  | FileUnlinked _ => true
  end.

Definition mutations (l : list Event) : list Event := filter isMutation l.

(** A file name: not empty, no slash. *)
Definition isFileName (s : string) : bool :=
  negb (s =? "") && forallb (fun c => negb (Ascii.eqb c "/")) (list_ascii_of_string s).

(** The decimal digit [n mod 10]. *)
Definition digit (n : nat) : ascii := ascii_of_nat (48 + n mod 10).

(** The two-digit tag [a b]. *)
Definition tag (a b : nat) : string := String (digit a) (String (digit b) EmptyString).

(** The flags that neither exit nor fail: they only fill [options]. *)
Definition isRunFlag (a : string) : bool :=
  (a =? "--dryRun") || (a =? "--AwsLambdaV4") || (a =? "--AwsLambdaV6").

(** A command line that reaches the state dispatch: at least one flag, run
    flags only. *)
Definition engineArgs (args : list string) : bool :=
  (3 <=? length args)%nat && forallb isRunFlag (skipn 2 args).

Definition applyFlag (o : Options) (a : string) : Options :=
  if a =? "--dryRun" then {| environment := environment o; dryRun := true |}
  else if a =? "--AwsLambdaV4" then
    {| environment := Some cLambdaV4EnvDef; dryRun := dryRun o |}
  else if a =? "--AwsLambdaV6" then
    {| environment := Some cLambdaV6EnvDef; dryRun := dryRun o |}
  else o.

(** The options a command line of run flags leaves behind. *)
Definition requested (args : list string) : Options :=
  fold_left applyFlag (skipn 2 args) initialOptions.

(** The files below [folderName], as [path.join] names them, in the order
    of the scan and before any normalization. *)
Fixpoint rawPathsOf (p : Platform) (folderName : string) (e : Entry) {struct e}
  : list string :=
  match e with
  | File name _ _ _ => [Path.join p [folderName; name]]
  | Dir name _ es =>
      (fix go (l : list Entry) : list string :=
         match l with
         | [] => []
         | e' :: l' => rawPathsOf p (Path.join p [folderName; name]) e' ++ go l'
         end) es
  | Other _ => []
  | Dangling _ => []
  end.

Fixpoint rawPaths (p : Platform) (folderName : string) (l : list Entry) : list string :=
  match l with
  | [] => []
  | e :: l' => rawPathsOf p folderName e ++ rawPaths p folderName l'
  end.

(** The environments a command line can select. *)
Definition environments : list EnvDef := [cLambdaV4EnvDef; cLambdaV6EnvDef].

(** The state file is there and the process may read and write it. *)
Definition stateAccessible (f : FileSystem) : bool :=
  match stateFile f with
  | Some r => fileReadable r && fileWritable r
  | None => false
  end.

(** What the state file holds. *)
Definition persisted (f : FileSystem) : option string :=
  option_map fileContent (stateFile f).

(** The error of [tryReadStateFile] (line 151). *)
Definition notAccessible (h : Host) : Exn :=
  Error ("state file " ++ cStateFileName h ++ " is not accessable").

(** The messages of the dispatch. *)
Definition reinstallMessage : string :=
  "ERROR: Previous tailoring state left npm module in an undefined state. Please re-install npm module.".

Definition alreadyTailoredMessage (e : string) : string :=
  "The npm module has been already tailored for environment '" ++ e ++ "'".

(* ====================================================================== *)
(** ** Sample worlds *)

Definition posixHost : Host :=
  {| platform := Posix; dirname := "/app/node_modules/@dynatrace/oneagent/lib" |}.


(** A dependency module: 64-bit binaries for three ABI versions, a 32-bit
    binary and a text file.  [free57] says whether the version 57 binary
    can be written and unlinked. *)
Definition sampleModule (free57 : bool) : Entry :=
  Dir "agent" true
    [ Dir "bin" true
        [ Dir "linux-x86-64" true
            [ File "addon_46.node" true true true;
              File "addon_48.node" true true true;
              File "addon_57.node" true free57 free57 ];
          Dir "linux-x86-32" true
            [ File "addon_46.node" true true true ] ];
      File "README.md" true true true ].

Definition sampleFs (state : string) (free57 : bool) : FileSystem :=
  {| stateFile := Some {| fileReadable := true; fileWritable := true;
                          fileContent := state |};
     nestedModule := None;
     siblingModule := Some (sampleModule free57) |}.

(** The state [main] hands to the dispatch on [sampleFs] after the flag
    [--AwsLambdaV4]. *)
Definition sampleState (free57 dry : bool) : State :=
  {| fs := sampleFs cStateNotTailored free57;
     argv := ["node"; "pkgtailor.js"; "--AwsLambdaV4"];
     options := {| environment := Some cLambdaV4EnvDef; dryRun := dry |};
     persistedTailoringState := Some cStateNotTailored;
     events := [] |}.

(* ====================================================================== *)
(** ** Vocabulary of the further properties *)

(** The flags of a command line: [process.argv] from index 2 on, after
    line 321 has put [--help] at the end of a command line shorter than
    three words. *)
Definition flagsOf (args : list string) : list string :=
  skipn 2 (if (length args <? 3)%nat then args ++ ["--help"] else args).

(** The first flag that is not a run flag. *)
Fixpoint firstOther (flags : list string) : option string :=
  match flags with
  | [] => None
  | a :: l => if isRunFlag a then firstOther l else Some a
  end.

(** The lines of the help text, in order. *)
Definition helpLines : list string :=
  [EmptyString; usage] ++
  map (fun def =>
         ("  " ++ optionName def ++ " " ++
          repeatString "." (30 - String.length (optionName def)) ++ " " ++
          verbose def)%string)
      cCmdLineOptionsDef ++
  [EmptyString].

(** The line of the status query for the persisted state [v]. *)
Definition statusLine (v : string) : string :=
  ("TAILORING STATE: " ++
   (if v =? cStateNotTailored
    then "The npm module has not been tailored for a specific runtime environment."
    else "The npm module has been tailored for runtime environment: " ++ v))%string.

(** What a flag that is not a run flag prints before the process exits. *)
Definition exitLines (a v : string) : list string :=
  if a =? "--state" then [statusLine v]
  else if a =? "--help" then helpLines
  else ("unknown command line option '" ++ a ++ "'")%string :: helpLines.

(** The exit code such a flag gives. *)
Definition exitCodeOf (a : string) : Z :=
  if a =? "--state" then 0%Z else 1%Z.

(** [Path.join] once its arguments are cut into segments. *)
Definition joinSegments (p : Platform) (segs : list string) : string :=
  match segs with
  | [] => "."
  | first :: rest =>
      if first =? "" then
        Path.sep p ++ String.concat (Path.sep p) (Path.resolve true [] rest)
      else if match p with Win32 => Path.isDrive first | Posix => false end then
        first ++ Path.sep p ++ String.concat (Path.sep p) (Path.resolve true [] rest)
      else
        match Path.resolve false [] segs with
        | [] => "."
        | l => String.concat (Path.sep p) l
        end
  end.

(** The segments of [__dirname]; an empty argument of [path.join] gives
    none. *)
Definition dirnameSegments (h : Host) : list string :=
  if dirname h =? "" then [] else Path.segments (platform h) (dirname h).

(** One [".."] on the stack of [Path.resolve]. *)
Definition upOne (rooted : bool) (stack : list string) : list string :=
  match stack with
  | top :: below => if top =? ".." then ".."%string :: stack else below
  | [] => if rooted then [] else [".."%string]
  end.

(** The length of a list of segments once joined, the separators counted
    in, plus one. *)
Definition joinedLength (l : list string) : nat :=
  list_sum (map (fun x => S (String.length x)) l).

(** A decimal digit. *)
Definition isDigit (c : ascii) : bool :=
  (48 <=? N_of_ascii c)%N && (N_of_ascii c <=? 57)%N.

(** The scan of an entry goes through: every directory below can be
    listed and [stat] answers for every entry. *)
Fixpoint scannable (e : Entry) : bool :=
  match e with
  | File _ _ _ _ => true
  | Dir _ listable es =>
      listable &&
      (fix go (l : list Entry) : bool :=
         match l with
         | [] => true
         | e' :: l' => scannable e' && go l'
         end) es
  | Other _ => true
  | Dangling _ => false
  end.

(** The form in which [scanFolder] returns a path. *)
Definition canonical (p : Platform) (f : string) : string :=
  match p with
  | Win32 => normalizeWin32 f
  | Posix => f
  end.

(** A statement that leaves the script's [options] as they are. *)
Definition keepsOptions {A : Type} (m : Js A) : Prop :=
  forall st, options (snd (m st)) = options st.

(* ====================================================================== *)
(** * Properties *)

Unset Implicit Arguments.

(** ** The matcher agrees with the words of a pattern *)

Module RegexFacts.

Lemma append_eq_empty (a b : string) : (a ++ b)%string = "" -> a = "" /\ b = "".
Proof. destruct a; simpl; intros H; [now split | discriminate]. Qed.

Lemma nullable_sound (r : re) : nullable r = true -> Matches r "".
Proof.
  induction r as [| | c | k | r1 IH1 r2 IH2 | r1 IH1 r2 IH2 | r IH]; simpl; intros H;
    try discriminate.
  - constructor.
  - apply andb_true_iff in H as [H1 H2].
    change EmptyString with ("" ++ "")%string. constructor; auto.
  - apply orb_true_iff in H as [H | H]; [apply MAltL | apply MAltR]; auto.
  - constructor.
Qed.

Lemma nullable_complete (r : re) (s : string) :
  Matches r s -> s = "" -> nullable r = true.
Proof.
  induction 1 as [ | c | k c Hk | r1 r2 s1 s2 H1 IH1 H2 IH2 | r1 r2 s H IH
                 | r1 r2 s H IH | r | r s1 s2 H1 IH1 H2 IH2 ];
    simpl; intros E; try discriminate; auto.
  - apply append_eq_empty in E as [E1 E2]. now rewrite IH1, IH2.
  - now rewrite IH.
  - rewrite IH by assumption. apply orb_true_r.
Qed.

Lemma Matches_deriv (r : re) (w : string) :
  Matches r w -> forall c s, w = String c s -> Matches (deriv c r) s.
Proof.
  induction 1 as [ | d | k d Hk | r1 r2 s1 s2 H1 IH1 H2 IH2 | r1 r2 w H IH
                 | r1 r2 w H IH | r | r s1 s2 H1 IH1 H2 IH2 ];
    intros c s E; simpl.
  - discriminate.
  - injection E as -> <-. rewrite Ascii.eqb_refl. constructor.
  - injection E as -> <-. rewrite Hk. constructor.
  - destruct s1 as [|c1 s1']; simpl in E.
    + rewrite (nullable_complete _ _ H1 eq_refl). apply MAltR. now apply IH2.
    + injection E as -> <-.
      destruct (nullable r1); [apply MAltL|]; constructor; auto.
  - apply MAltL. now apply IH.
  - apply MAltR. now apply IH.
  - discriminate.
  - destruct s1 as [|c1 s1']; simpl in E.
    + now apply IH2.
    + injection E as -> <-. constructor; auto.
Qed.

Lemma deriv_Matches (c : ascii) (r : re) :
  forall s, Matches (deriv c r) s -> Matches r (String c s).
Proof.
  induction r as [| | d | k | r1 IH1 r2 IH2 | r1 IH1 r2 IH2 | r IH]; simpl; intros s H.
  - inversion H.
  - inversion H.
  - destruct (Ascii.eqb c d) eqn:E; inversion H; subst.
    apply Ascii.eqb_eq in E. subst. constructor.
  - destruct (in_class k c) eqn:E; inversion H; subst. now constructor.
  - assert (Hcat : forall t, Matches (Cat (deriv c r1) r2) t -> Matches (Cat r1 r2) (String c t)).
    { intros t Ht. inversion Ht; subst.
      change (String c (s1 ++ s2)) with (String c s1 ++ s2)%string.
      constructor; auto. }
    destruct (nullable r1) eqn:N; [|now apply Hcat].
    inversion H; subst; [now apply Hcat|].
    change (String c s) with ("" ++ String c s)%string.
    constructor; [now apply nullable_sound | now apply IH2].
  - inversion H; subst; [apply MAltL | apply MAltR]; auto.
  - inversion H; subst.
    change (String c (s1 ++ s2)) with (String c s1 ++ s2)%string.
    constructor; auto.
Qed.

Lemma matches_Matches (s : string) : forall r, matches r s = true <-> Matches r s.
Proof.
  induction s as [|c s IH]; intros r; simpl.
  - split; [apply nullable_sound | intros H; exact (nullable_complete _ _ H eq_refl)].
  - rewrite IH. split; [apply deriv_Matches | intros H; exact (Matches_deriv _ _ H _ _ eq_refl)].
Qed.

Lemma test_to_end_here (r : re) (s : string) :
  matches r s = true -> test_to_end r s = true.
Proof. intros H. destruct s; cbn [test_to_end]; rewrite H; reflexivity. Qed.

Lemma test_to_end_intro (r : re) (pre suf : string) :
  Matches r suf -> test_to_end r (pre ++ suf) = true.
Proof.
  intros H. induction pre as [|c pre IH].
  - apply test_to_end_here. now apply matches_Matches.
  - cbn [append test_to_end]. rewrite IH. apply orb_true_r.
Qed.

Lemma test_to_end_elim (r : re) (s : string) :
  test_to_end r s = true -> exists pre suf, s = (pre ++ suf)%string /\ Matches r suf.
Proof.
  induction s as [|c s IH]; cbn [test_to_end]; intros H.
  - rewrite orb_false_r in H. exists "", "". split; [reflexivity|].
    now apply (matches_Matches "").
  - apply orb_true_iff in H as [H | H].
    + exists "", (String c s). split; [reflexivity|].
      now apply (matches_Matches (String c s)).
    + destruct (IH H) as (pre & suf & -> & M).
      exists (String c pre), suf. now split.
Qed.

Lemma Matches_Lit (w s : string) : Matches (Lit w) s <-> s = w.
Proof.
  revert s. induction w as [|c w IH]; simpl; intros s.
  - split; intros H; [now inversion H | subst; constructor].
  - split; intros H.
    + inversion H as [ | | | r1 r2 s1 s2 H1 H2 | | | | ]; subst.
      inversion H1; subst. apply IH in H2. now subst.
    + subst. change (String c w) with (String c "" ++ w)%string.
      constructor; [constructor | now apply IH].
Qed.

Lemma Matches_Chr_inv (c : ascii) (s : string) : Matches (Chr c) s -> s = String c "".
Proof. intros H. now inversion H. Qed.

Lemma Matches_Cls_inv (k : class) (s : string) :
  Matches (Cls k) s -> exists c, s = String c "" /\ in_class k c = true.
Proof. intros H. inversion H; subst. eauto. Qed.

Lemma Matches_Cat_inv (r1 r2 : re) (s : string) :
  Matches (Cat r1 r2) s ->
  exists s1 s2, s = (s1 ++ s2)%string /\ Matches r1 s1 /\ Matches r2 s2.
Proof. intros H. inversion H; subst. eauto. Qed.

Lemma Matches_Alt_inv (r1 r2 : re) (s : string) :
  Matches (Alt r1 r2) s -> Matches r1 s \/ Matches r2 s.
Proof. intros H. inversion H; subst; auto. Qed.

(** One or more characters of a class. *)
Lemma Matches_Plus_class (k : class) (s : string) :
  s <> "" -> forallb (in_class k) (list_ascii_of_string s) = true ->
  Matches (Plus (Cls k)) s.
Proof.
  assert (St : forall t, forallb (in_class k) (list_ascii_of_string t) = true ->
                         Matches (Star (Cls k)) t).
  { induction t as [|c t IH]; simpl; intros H; [constructor|].
    apply andb_true_iff in H as [Hc Ht].
    change (String c t) with (String c "" ++ t)%string.
    constructor; [now constructor | auto]. }
  destruct s as [|c s]; [congruence|]. simpl. intros _ H.
  apply andb_true_iff in H as [Hc Hs].
  change (String c s) with (String c "" ++ s)%string.
  unfold Plus. constructor; [now constructor | auto].
Qed.

End RegexFacts.

(* ====================================================================== *)
(** ** The deletion predicates *)

Module PredicateFacts.

Import RegexFacts.

Lemma length_append (a b : string) :
  String.length (a ++ b) = String.length a + String.length b.
Proof. induction a as [|c a IH]; simpl; [reflexivity | now rewrite IH]. Qed.

(** Two splits of one string with tails of one length are the same split. *)
Lemma append_same_tail (a c b d : string) :
  String.length b = String.length d ->
  (a ++ b)%string = (c ++ d)%string -> a = c /\ b = d.
Proof.
  revert c. induction a as [|x a IH]; intros [|y c] L E; simpl in E.
  - now split.
  - subst b. simpl in L. rewrite length_append in L. lia.
  - subst d. simpl in L. rewrite length_append in L. lia.
  - injection E as -> E. destruct (IH c L E) as [-> ->]. now split.
Qed.

Lemma forallb_pointwise (A : Type) (f g : A -> bool) (l : list A) :
  (forall a, f a = g a) -> forallb f l = forallb g l.
Proof. intros E. induction l as [|a l IH]; simpl; [reflexivity | now rewrite E, IH]. Qed.

(** [[^d]] *)
Lemma in_class_other (d c : ascii) :
  in_class (Class true [(d, d)]) c = negb (Ascii.eqb c d).
Proof.
  unfold in_class, in_range; simpl. rewrite orb_false_r.
  destruct (Ascii.eqb c d) eqn:E.
  - apply Ascii.eqb_eq in E. subst. now rewrite N.leb_refl.
  - destruct ((N_of_ascii d <=? N_of_ascii c)%N && (N_of_ascii c <=? N_of_ascii d)%N) eqn:A;
      [|reflexivity].
    apply andb_true_iff in A as [A1 A2]. apply N.leb_le in A1, A2.
    assert (N : N_of_ascii d = N_of_ascii c) by lia.
    apply (f_equal ascii_of_N) in N. rewrite !ascii_N_embedding in N.
    subst. now rewrite Ascii.eqb_refl in E.
Qed.

(** [[0-9]] takes every digit. *)
Lemma in_class_digit (n : nat) :
  in_class (Class false [("0"%char, "9"%char)]) (digit n) = true.
Proof.
  unfold digit. assert (B : n mod 10 < 10) by (apply Nat.mod_upper_bound; lia).
  destruct (n mod 10) as [|[|[|[|[|[|[|[|[|[|m]]]]]]]]]]; try reflexivity. lia.
Qed.

(** The words of the 32-bit path pattern. *)
Lemma c32BitPathPattern_lib (nm : string) :
  isFileName nm = true -> Matches c32BitPathPattern ("/lib/" ++ nm).
Proof.
  unfold isFileName. intros H. apply andb_true_iff in H as [Hne Hns].
  change ("/lib/" ++ nm)%string with ("/lib" ++ ("/" ++ nm))%string.
  unfold c32BitPathPattern. constructor.
  - apply MAltL. now apply Matches_Lit.
  - change ("/" ++ nm)%string with (String "/" "" ++ nm)%string.
    constructor; [constructor|]. apply Matches_Plus_class.
    + intros ->. discriminate.
    + erewrite forallb_pointwise; [exact Hns|]. intros c. apply in_class_other.
Qed.

Lemma c32BitPathPattern_linux32 (nm : string) :
  isFileName nm = true -> Matches c32BitPathPattern ("/linux-x86-32/" ++ nm).
Proof.
  unfold isFileName. intros H. apply andb_true_iff in H as [Hne Hns].
  change ("/linux-x86-32/" ++ nm)%string with ("/linux-x86-32" ++ ("/" ++ nm))%string.
  unfold c32BitPathPattern. constructor.
  - apply MAltR. now apply Matches_Lit.
  - change ("/" ++ nm)%string with (String "/" "" ++ nm)%string.
    constructor; [constructor|]. apply Matches_Plus_class.
    + intros ->. discriminate.
    + erewrite forallb_pointwise; [exact Hns|]. intros c. apply in_class_other.
Qed.

(** The words of the tag pattern: an underscore, two characters that are
    not the kept tag, and [.node]. *)
Lemma abiPattern_words (K : ascii) (s : string) :
  Matches (abiPattern K) s <->
  exists c1 c2,
    s = String "_" (String c1 (String c2 ".node")) /\
    ((c1 = "4"%char /\ c2 <> K) \/
     (c1 <> "4"%char /\ in_class (Class false [("0"%char, "9"%char)]) c2 = true)).
Proof.
  unfold abiPattern. split.
  - intros H.
    apply Matches_Cat_inv in H as (s1 & s2 & -> & H1 & H2).
    apply Matches_Chr_inv in H1 as ->.
    apply Matches_Cat_inv in H2 as (t1 & t2 & -> & H2 & H3).
    apply Matches_Lit in H3 as ->.
    apply Matches_Alt_inv in H2 as [H2 | H2];
      apply Matches_Cat_inv in H2 as (u1 & u2 & -> & Hu1 & Hu2).
    + apply Matches_Chr_inv in Hu1 as ->.
      apply Matches_Cls_inv in Hu2 as (c2 & -> & Hc2).
      rewrite in_class_other in Hc2.
      exists "4"%char, c2. split; [reflexivity|]. left. split; [reflexivity|].
      intros ->. now rewrite Ascii.eqb_refl in Hc2.
    + apply Matches_Cls_inv in Hu1 as (c1 & -> & Hc1).
      apply Matches_Cls_inv in Hu2 as (c2 & -> & Hc2).
      rewrite in_class_other in Hc1.
      exists c1, c2. split; [reflexivity|]. right. split; [|assumption].
      intros ->. now rewrite Ascii.eqb_refl in Hc1.
  - intros (c1 & c2 & -> & H).
    change (String "_" (String c1 (String c2 ".node")))
      with (String "_" "" ++ ((String c1 "" ++ String c2 "") ++ ".node"))%string.
    constructor; [constructor|]. constructor; [|now apply Matches_Lit].
    destruct H as [[-> Hc2] | [Hc1 Hc2]].
    + apply MAltL. constructor; [constructor|]. constructor.
      rewrite in_class_other. destruct (Ascii.eqb c2 K) eqn:E; [|reflexivity].
      apply Ascii.eqb_eq in E. contradiction.
    + apply MAltR. constructor; constructor; [|assumption].
      rewrite in_class_other. destruct (Ascii.eqb c1 "4") eqn:E; [|reflexivity].
      apply Ascii.eqb_eq in E. contradiction.
Qed.

(** A two-digit tag other than the kept one fires the tag rule. *)
Lemma abiPattern_other_tag (K : ascii) (stem : string) (a b : nat) :
  tag a b <> String "4" (String K "") ->
  test_to_end (abiPattern K) (stem ++ "_" ++ tag a b ++ ".node") = true.
Proof.
  intros Hne. apply test_to_end_intro. apply abiPattern_words.
  exists (digit a), (digit b). split; [reflexivity|].
  destruct (Ascii.eqb (digit a) "4") eqn:E.
  - apply Ascii.eqb_eq in E. left. split; [assumption|].
    intros Hb. apply Hne. unfold tag. now rewrite E, Hb.
  - right. split; [|apply in_class_digit].
    intros Ha. rewrite Ha in E. discriminate.
Qed.

(** The kept tag never fires the tag rule. *)
Lemma abiPattern_kept_tag (K : ascii) (pre : string) :
  test_to_end (abiPattern K) (pre ++ String "_" (String "4" (String K ".node"))) = false.
Proof.
  destruct (test_to_end (abiPattern K) _) eqn:T; [|reflexivity]. exfalso.
  apply test_to_end_elim in T as (pre' & suf & E & M).
  apply abiPattern_words in M as (c1 & c2 & -> & H).
  apply append_same_tail in E as [_ E]; [|reflexivity].
  injection E as <- <-.
  destruct H as [[_ H] | [H _]]; now apply H.
Qed.

Lemma cLambdaV4EnvDef_predicate (fn : string) :
  deleteFilePredicate cLambdaV4EnvDef fn =
  test_to_end (abiPattern "6") fn || test_to_end c32BitPathPattern fn.
Proof. reflexivity. Qed.

Lemma cLambdaV6EnvDef_predicate (fn : string) :
  deleteFilePredicate cLambdaV6EnvDef fn =
  test_to_end (abiPattern "8") fn || test_to_end c32BitPathPattern fn.
Proof. reflexivity. Qed.

End PredicateFacts.

(* ====================================================================== *)
(** ** The scan *)

Module ScanFacts.

(** Induction over a directory tree. *)
Lemma Entry_tree_ind (P : Entry -> Prop) :
  (forall nm r w rm, P (File nm r w rm)) ->
  (forall nm listable es, Forall P es -> P (Dir nm listable es)) ->
  (forall nm, P (Other nm)) ->
  (forall nm, P (Dangling nm)) ->
  forall e, P e.
Proof.
  intros HF HD HO HG. fix IH 1. intros [nm r w rm | nm listable es | nm | nm].
  - apply HF.
  - apply HD. induction es as [|e es IHes]; constructor; [apply IH | exact IHes].
  - apply HO.
  - apply HG.
Qed.

Lemma toLowerCaseChar_idem (c : ascii) :
  toLowerCaseChar (toLowerCaseChar c) = toLowerCaseChar c.
Proof. destruct c as [[] [] [] [] [] [] [] []]; reflexivity. Qed.

Lemma toLowerCaseChar_slash (c : ascii) :
  Ascii.eqb (toLowerCaseChar c) "\" = Ascii.eqb c "\".
Proof. destruct c as [[] [] [] [] [] [] [] []]; reflexivity. Qed.

Lemma normalizeWin32_idem (f : string) :
  normalizeWin32 (normalizeWin32 f) = normalizeWin32 f.
Proof.
  unfold normalizeWin32. induction f as [|c f IH]; simpl; [reflexivity|].
  rewrite IH. f_equal.
  destruct (Ascii.eqb c "\") eqn:E.
  - reflexivity.
  - rewrite toLowerCaseChar_slash, E. apply toLowerCaseChar_idem.
Qed.


Section Win32.

Variable h : Host.
Hypothesis onWin32 : platform h = Win32.





End Win32.

End ScanFacts.

(* ====================================================================== *)
(** ** Statements, one at a time *)

Module StepFacts.

Lemma bind_inv (A B : Type) (m : Js A) (k : A -> Js B) (st st' : State) (c : Completion B) :
  bind m k st = (c, st') ->
  (exists a s1, m st = (Normal a, s1) /\ k a s1 = (c, st')) \/
  (exists e, m st = (Thrown e, st') /\ c = Thrown e) \/
  (exists code, m st = (Exited code, st') /\ c = Exited code).
Proof.
  unfold bind. destruct (m st) as [[a | e | code] s1]; intros H.
  - left. eauto.
  - right. left. injection H as <- <-. eauto.
  - right. right. injection H as <- <-. eauto.
Qed.

(** One statement of a sequence: it returns, throws or exits. *)
Tactic Notation "step" hyp(H) "as" ident(a) ident(s) ident(H1) :=
  apply bind_inv in H as [(a & s & H1 & H) | [(?e & H1 & ->) | (?code & H1 & ->)]].

Lemma samePath_refl (p : Platform) (a : string) : samePath p a a = true.
Proof. destruct p; simpl; apply String.eqb_refl. Qed.

Lemma mutations_app (a b : list Event) : mutations (a ++ b) = mutations a ++ mutations b.
Proof. apply filter_app. Qed.

Lemma mutations_logs (lines : list string) : mutations (map ConsoleLog lines) = [].
Proof. induction lines as [|l lines IH]; simpl; auto. Qed.

End StepFacts.

(* ====================================================================== *)
(** ** Reading the state file *)

Module StateFileFacts.

Import StepFacts.

Section Facts.

Variable h : Host.

(** *** The file system calls, as equations *)

Lemma accessSync_eq (path : string) (mode : Z) (st : State) :
  accessSync h path mode st =
  match lookupPath h (fs st) path with
  | None => (Thrown (SystemError "ENOENT" "access" path), st)
  | Some (r, w) =>
      if (implb (Z.testbit mode 2) r) && (implb (Z.testbit mode 1) w)
      then (Normal tt, st)
      else (Thrown (SystemError "EACCES" "access" path), st)
  end.
Proof.
  unfold accessSync, bind, gets. cbv beta iota.
  destruct (lookupPath h (fs st) path) as [[r w]|]; [|reflexivity].
  destruct (implb (Z.testbit mode 2) r && implb (Z.testbit mode 1) w); reflexivity.
Qed.

Lemma accessSync_readonly (path : string) (mode : Z) (st st' : State) (c : Completion unit) :
  accessSync h path mode st = (c, st') ->
  st' = st /\ (c = Normal tt \/ exists e, c = Thrown e).
Proof.
  rewrite accessSync_eq.
  destruct (lookupPath h (fs st) path) as [[r w]|];
    [destruct (implb (Z.testbit mode 2) r && implb (Z.testbit mode 1) w)|];
    intros H; injection H as <- <-; eauto.
Qed.

Lemma lookupPath_stateFile (f : FileSystem) :
  lookupPath h f (cStateFileName h) =
  option_map (fun r => (fileReadable r, fileWritable r)) (stateFile f).
Proof. unfold lookupPath. now rewrite samePath_refl. Qed.

Lemma readFileSync_stateFile (st : State) :
  readFileSync h (cStateFileName h) st =
  match stateFile (fs st) with
  | None => (Thrown (SystemError "ENOENT" "open" (cStateFileName h)), st)
  | Some r =>
      if fileReadable r then (Normal (fileContent r), st)
      else (Thrown (SystemError "EACCES" "open" (cStateFileName h)), st)
  end.
Proof.
  unfold readFileSync, bind, gets. cbv beta iota. rewrite samePath_refl.
  destruct (stateFile (fs st)) as [r|]; [destruct (fileReadable r)|]; reflexivity.
Qed.

(** *** tryReadStateFile *)

Lemma tryReadStateFile_ok (st : State) (r : RegularFile) :
  stateFile (fs st) = Some r -> fileReadable r = true -> fileWritable r = true ->
  tryReadStateFile h st = (Normal (fileContent r), st).
Proof.
  intros S R W. unfold tryReadStateFile, tryCatch, bind.
  rewrite accessSync_eq, lookupPath_stateFile, S. simpl. rewrite R, W. simpl.
  rewrite readFileSync_stateFile, S, R. reflexivity.
Qed.

Lemma tryReadStateFile_fails (st : State) :
  stateAccessible (fs st) = false ->
  tryReadStateFile h st = (Thrown (notAccessible h), st).
Proof.
  unfold stateAccessible. intros S. unfold tryReadStateFile, tryCatch, bind.
  rewrite accessSync_eq, lookupPath_stateFile.
  destruct (stateFile (fs st)) as [r|]; simpl; [|reflexivity].
  destruct (fileReadable r), (fileWritable r); simpl in *; try discriminate; reflexivity.
Qed.

Lemma stateAccessible_inv (f : FileSystem) :
  stateAccessible f = true ->
  exists r, stateFile f = Some r /\ fileReadable r = true /\ fileWritable r = true.
Proof.
  unfold stateAccessible. destruct (stateFile f) as [r|]; [|discriminate].
  intros H. apply andb_true_iff in H. eauto.
Qed.

End Facts.

End StateFileFacts.

(* ====================================================================== *)
(** ** The command line *)

Module ParseFacts.

Lemma processOption_flag (a : string) (st : State) :
  isRunFlag a = true ->
  processOption a st = (Normal tt, setOptions (applyFlag (options st) a) st).
Proof.
  unfold isRunFlag. intros H.
  apply orb_true_iff in H as [H | H]; [apply orb_true_iff in H as [H | H]|];
    apply String.eqb_eq in H; subst; reflexivity.
Qed.

Lemma forEach_flags (l : list string) :
  forallb isRunFlag l = true ->
  forall st, exists st',
    forEach processOption l st = (Normal tt, st') /\
    fs st' = fs st /\ argv st' = argv st /\
    persistedTailoringState st' = persistedTailoringState st /\
    events st' = events st /\
    options st' = fold_left applyFlag l (options st).
Proof.
  induction l as [|a l IH]; simpl; intros F st.
  - exists st. repeat split; reflexivity.
  - apply andb_true_iff in F as [Fa Fl].
    destruct (IH Fl (setOptions (applyFlag (options st) a) st))
      as (st' & E & Hfs & Hargv & Hp & Hev & Ho).
    exists st'. unfold bind. rewrite (processOption_flag a st Fa), E.
    repeat split; assumption.
Qed.

Lemma parseOptions_engine (st : State) :
  engineArgs (argv st) = true ->
  exists st',
    parseOptions st = (Normal tt, st') /\
    fs st' = fs st /\
    persistedTailoringState st' = persistedTailoringState st /\
    events st' = events st /\
    options st' = fold_left applyFlag (skipn 2 (argv st)) (options st).
Proof.
  unfold engineArgs. intros H. apply andb_true_iff in H as [L F].
  destruct (forEach_flags _ F st) as (st' & E & Hfs & Hargv & Hp & Hev & Ho).
  exists st'. unfold parseOptions, bind, gets. cbv beta iota.
  assert (Lt : (length (argv st) <? 3)%nat = false).
  { apply Nat.ltb_ge. now apply Nat.leb_le in L. }
  rewrite Lt. unfold ret. cbv beta iota. rewrite E. repeat split; assumption.
Qed.

(** A command line selects one of the two environments or none. *)
Lemma requested_environment (args : list string) (env : EnvDef) :
  environment (requested args) = Some env -> In env environments.
Proof.
  unfold requested.
  assert (G : forall l o,
             (forall e, environment o = Some e -> In e environments) ->
             forall e, environment (fold_left applyFlag l o) = Some e -> In e environments).
  { induction l as [|a l IH]; simpl; intros o Ho; [exact Ho|].
    apply IH. unfold applyFlag.
    destruct (a =? "--dryRun"); [exact Ho|].
    destruct (a =? "--AwsLambdaV4");
      [simpl; intros e E; injection E as <-; simpl; auto|].
    destruct (a =? "--AwsLambdaV6");
      [simpl; intros e E; injection E as <-; simpl; auto|].
    exact Ho. }
  apply G. simpl. discriminate.
Qed.

End ParseFacts.

(* ====================================================================== *)
(** ** The dispatch on the persisted state *)

Module DispatchFacts.

Import StateFileFacts ParseFacts.

Section Facts.

Variable h : Host.

(** With an accessible state file and run flags only, [main] comes to the
    dispatch with the file's content and the requested options. *)
Lemma main_reaches_dispatch (f : FileSystem) (args : list string) (r : RegularFile) :
  stateFile f = Some r -> fileReadable r = true -> fileWritable r = true ->
  engineArgs args = true ->
  exists st1,
    main h (initialState f args) =
      tryCatch (dispatchState h) (fun e => printResult (Some e)) st1 /\
    fs st1 = f /\ events st1 = [] /\
    persistedTailoringState st1 = Some (fileContent r) /\
    options st1 = requested args.
Proof.
  intros S R W A.
  destruct (parseOptions_engine
              (setPersistedTailoringState (fileContent r) (initialState f args)) A)
    as (st1 & E & Hfs & Hp & Hev & Ho).
  exists st1. split; [|repeat split; assumption].
  unfold main, tryCatch, bind.
  rewrite (tryReadStateFile_ok h (initialState f args) r S R W).
  unfold modify. rewrite E. reflexivity.
Qed.

Lemma dispatch_undefined (st : State) :
  persistedTailoringState st = Some cStateUndefined ->
  dispatchState h st = (Normal tt, emit (ConsoleLog reinstallMessage) st).
Proof.
  intros P. unfold dispatchState, bind, gets. cbv beta iota. rewrite P. reflexivity.
Qed.

Lemma dispatch_same (st : State) (env : EnvDef) :
  In env environments ->
  persistedTailoringState st = Some (name env) ->
  environment (options st) = Some env ->
  dispatchState h st =
    (Normal tt, emit (ConsoleLog (alreadyTailoredMessage (name env))) st).
Proof.
  intros I P O. unfold dispatchState, environmentName, bind, gets. cbv beta iota.
  rewrite P.
  destruct I as [<- | [<- | []]]; simpl; rewrite O; reflexivity.
Qed.

(** An invocation on the state Undefined. *)
Lemma run_undefined (f : FileSystem) (args : list string) (r : RegularFile) :
  stateFile f = Some r -> fileReadable r = true -> fileWritable r = true ->
  fileContent r = cStateUndefined ->
  engineArgs args = true ->
  exists st3,
    run h f args = (0%Z, st3) /\
    events st3 = [ConsoleLog reinstallMessage] /\ fs st3 = f.
Proof.
  intros S R W C A.
  destruct (main_reaches_dispatch f args r S R W A) as (st1 & M & Hfs & Hev & Hp & Ho).
  rewrite C in Hp.
  exists (emit (ConsoleLog reinstallMessage) st1).
  unfold run. rewrite M. unfold tryCatch. rewrite (dispatch_undefined st1 Hp).
  simpl. rewrite Hev. repeat split; auto.
Qed.

(** An invocation on the state TailoredFor(E) that requests E. *)
Lemma run_same (f : FileSystem) (args : list string) (r : RegularFile) (env : EnvDef) :
  stateFile f = Some r -> fileReadable r = true -> fileWritable r = true ->
  fileContent r = name env ->
  engineArgs args = true ->
  environment (requested args) = Some env ->
  exists st3,
    run h f args = (0%Z, st3) /\
    events st3 = [ConsoleLog (alreadyTailoredMessage (name env))] /\ fs st3 = f.
Proof.
  intros S R W C A Q.
  destruct (main_reaches_dispatch f args r S R W A) as (st1 & M & Hfs & Hev & Hp & Ho).
  assert (I : In env environments) by exact (requested_environment args env Q).
  rewrite C in Hp. rewrite <- Ho in Q.
  exists (emit (ConsoleLog (alreadyTailoredMessage (name env))) st1).
  unfold run. rewrite M. unfold tryCatch.
  rewrite (dispatch_same st1 env I Hp Q).
  simpl. rewrite Hev. repeat split; auto.
Qed.

End Facts.

End DispatchFacts.

(* ====================================================================== *)
(** ** The tailoring run *)

Module EngineFacts.

Import StepFacts StateFileFacts DispatchFacts.

Section Facts.

Variable h : Host.

(** *** Calls that only look *)

Lemma readdirSync_readonly (folder : string) (st st' : State) (c : Completion (list Entry)) :
  readdirSync h folder st = (c, st') ->
  st' = st /\ forall code, c <> Exited code.
Proof.
  unfold readdirSync, bind, gets. cbv beta iota.
  match goal with
  | |- match ?root with _ => _ end _ = _ -> _ => destruct root as [[ | nm [] es | | ]|]
  end; intros H; injection H as <- <-; split; try reflexivity; discriminate.
Qed.

Lemma scanFolder_readonly (folder : string) (st st' : State) (c : Completion (list string)) :
  scanFolder h folder st = (c, st') ->
  st' = st /\ forall code, c <> Exited code.
Proof.
  unfold scanFolder. intros H.
  apply bind_inv in H as [(es & s1 & H1 & H2) | [(e & H1 & ->) | (code & H1 & ->)]];
    apply readdirSync_readonly in H1 as [-> N].
  - destruct (scanFolderEntries h folder es); injection H2 as <- <-;
      split; try reflexivity; discriminate.
  - split; [reflexivity | discriminate].
  - now destruct (N code).
Qed.

Lemma firstAccessible_readonly (l : list string) :
  forall st st' c,
    firstAccessible h l st = (c, st') ->
    st' = st /\ forall code, c <> Exited code.
Proof.
  induction l as [|loc l IH]; simpl; intros st st' c H.
  - injection H as <- <-. split; [reflexivity | discriminate].
  - unfold bind at 1, tryCatch, bind in H. rewrite accessSync_eq in H.
    destruct (lookupPath h (fs st) loc) as [[r w]|]; simpl in H.
    + injection H as <- <-. split; [reflexivity | discriminate].
    + now apply IH.
Qed.

Lemma locateDependencyModule_readonly (st st' : State) (c : Completion string) :
  locateDependencyModule h st = (c, st') ->
  st' = st /\ forall code, c <> Exited code.
Proof.
  unfold locateDependencyModule. intros H.
  apply bind_inv in H as [(o & s1 & H1 & H2) | [(e & H1 & ->) | (code & H1 & ->)]];
    apply firstAccessible_readonly in H1 as [-> N].
  - destruct o as [l|]; [destruct (l =? "")|]; injection H2 as <- <-;
      split; try reflexivity; discriminate.
  - split; [reflexivity | discriminate].
  - now destruct (N code).
Qed.

(** *** Calls that change the file system *)

Lemma writeStateFile_writable (v : string) (st : State) (r : RegularFile) :
  stateFile (fs st) = Some r -> fileWritable r = true ->
  writeStateFile h v st =
    (Normal tt,
     emit (FileWritten (cStateFileName h) v)
          (setFs {| stateFile := Some {| fileReadable := fileReadable r;
                                         fileWritable := true;
                                         fileContent := v |};
                    nestedModule := nestedModule (fs st);
                    siblingModule := siblingModule (fs st) |} st)).
Proof.
  intros S W. unfold writeStateFile, writeFileSync, bind, gets, modify. cbv beta iota.
  rewrite samePath_refl, S, W. reflexivity.
Qed.

Lemma unlinkSync_cases (path : string) (st st' : State) (c : Completion unit) :
  unlinkSync h path st = (c, st') ->
  (c = Normal tt /\ stateFile (fs st') = stateFile (fs st) /\
   events st' = events st ++ [FileUnlinked path]) \/
  ((exists e, c = Thrown e) /\ st' = st).
Proof.
  unfold unlinkSync, bind, gets, modify. cbv beta iota.
  destruct (unlinkEntries (platform h) path (nestedLocation h)
              (rootEntries (nestedModule (fs st)))) as [ | | es].
  - destruct (unlinkEntries (platform h) path (siblingLocation h)
                (rootEntries (siblingModule (fs st)))) as [ | | es];
      intros H; injection H as <- <-.
    + right. eauto.
    + right. eauto.
    + left. repeat split.
  - intros H; injection H as <- <-. right. eauto.
  - intros H; injection H as <- <-. left. repeat split.
Qed.

(** *** The two loops of [tailorModule] *)

(** The dry-run listing (lines 243-247) only prints. *)
Lemma listing_loop (l : list string) :
  forall st st' c,
    forEach (fun fn => accessSync h fn readWriteAccess ;; console_log ("  " ++ fn)) l st
      = (c, st') ->
    fs st' = fs st /\
    (exists lines, events st' = events st ++ map ConsoleLog lines) /\
    (c = Normal tt \/ exists e, c = Thrown e).
Proof.
  induction l as [|fn l IH]; simpl; intros st st' c H.
  - injection H as <- <-. split; [reflexivity|]. split; [|now left].
    exists []. simpl. now rewrite app_nil_r.
  - apply bind_inv in H as [([] & s1 & H1 & H2) | [(e & H1 & ->) | (code & H1 & ->)]].
    + apply bind_inv in H1 as [([] & s0 & H0 & H1) | [(e & H0 & E) | (code & H0 & E)]];
        try discriminate.
      apply accessSync_readonly in H0 as [-> _].
      injection H1 as <-.
      destruct (IH _ _ _ H2) as (Hfs & (lines & Hev) & Hc).
      split; [exact Hfs|]. split; [|exact Hc].
      exists (("  " ++ fn)%string :: lines). rewrite Hev. simpl.
      now rewrite <- app_assoc.
    + apply bind_inv in H1 as [([] & s0 & H0 & H1) | [(e' & H0 & E) | (code & H0 & E)]];
        try discriminate.
      apply accessSync_readonly in H0 as [-> _].
      split; [reflexivity|]. split; [|right; eauto].
      exists []. simpl. now rewrite app_nil_r.
    + apply bind_inv in H1 as [([] & s0 & H0 & H1) | [(e' & H0 & E) | (code' & H0 & E)]];
        try discriminate.
      apply accessSync_readonly in H0 as [_ [C | [e C]]]; discriminate.
Qed.

(** The deletions (lines 253-256): the files are unlinked in order, up to the
    first one that fails; the state file is not among them. *)
Lemma deleting_loop (l : list string) :
  forall st st' c,
    forEach (fun fn => console_log ("  deleting file '" ++ fn ++ "'") ;; unlinkSync h fn) l st
      = (c, st') ->
    stateFile (fs st') = stateFile (fs st) /\
    exists evs, events st' = events st ++ evs /\
      ((c = Normal tt /\ mutations evs = map FileUnlinked l) \/
       (exists e done failed rest,
           c = Thrown e /\ l = done ++ failed :: rest /\
           mutations evs = map FileUnlinked done)).
Proof.
  induction l as [|fn l IH]; simpl; intros st st' c H.
  - injection H as <- <-. split; [reflexivity|].
    exists []. rewrite app_nil_r. split; [reflexivity|]. now left.
  - apply bind_inv in H as [([] & s1 & H1 & H2) | [(e & H1 & ->) | (code & H1 & ->)]];
      (apply bind_inv in H1 as [([] & s0 & H0 & H1) | [(e' & H0 & E) | (code' & H0 & E)]];
       try discriminate);
      injection H0 as <-;
      apply unlinkSync_cases in H1 as [(C & Hsf & Hev) | ((e1 & C) & ->)];
      try discriminate.
    + destruct (IH _ _ _ H2) as (Hsf' & evs & Hev' & Hc).
      split; [now rewrite Hsf', Hsf|].
      exists (ConsoleLog ("  deleting file '" ++ fn ++ "'") :: FileUnlinked fn :: evs).
      split.
      * rewrite Hev', Hev. simpl. now rewrite <- !app_assoc.
      * destruct Hc as [[-> M] | (e & done & failed & rest & -> & -> & M)].
        -- left. split; [reflexivity|]. simpl. now rewrite M.
        -- right. exists e, (fn :: done), failed, rest.
           repeat split. simpl. now rewrite M.
    + split; [reflexivity|].
      exists [ConsoleLog ("  deleting file '" ++ fn ++ "'")].
      split; [reflexivity|].
      right. exists e, [], fn, l. repeat split.
Qed.

(** *** The run as a whole *)

(** The run threw before it changed anything. *)
Ltac stops_early :=
  exists []; rewrite app_nil_r; split; [reflexivity|]; left;
  split; [reflexivity|]; split; [reflexivity|]; eauto.

(** A dry run only prints. *)
Lemma tailorModule_dry (st st' : State) (c : Completion unit) :
  dryRun (options st) = true ->
  tailorModule h st = (c, st') ->
  fs st' = fs st /\
  (exists lines, events st' = events st ++ map ConsoleLog lines) /\
  (c = Normal tt \/ exists e, c = Thrown e).
Proof.
  intros D H. unfold tailorModule in H.
  assert (Stay : fs st = fs st /\
                 (exists lines, events st = events st ++ map ConsoleLog lines))
    by (split; [reflexivity | exists []; simpl; now rewrite app_nil_r]).
  step H as o s0 H0; try discriminate. injection H0 as <- <-.
  destruct (environment (options st)) as [env|];
    [|injection H as <- <-; destruct Stay; repeat split; eauto].
  step H as loc s1 H1; apply locateDependencyModule_readonly in H1 as [-> N];
    [| destruct Stay; repeat split; eauto | now destruct (N code)].
  step H as allFiles s1 H1; apply scanFolder_readonly in H1 as [-> N'];
    [| destruct Stay; repeat split; eauto | now destruct (N' code)].
  cbv zeta in H. rewrite D in H.
  step H as u1 s1 H1; try discriminate. injection H1 as <- <-.
  step H as u2 s2 H2; try discriminate. injection H2 as <- <-.
  step H as u3 s3 H3; apply listing_loop in H3 as (Hfs & (lines & Hev) & Hc).
  - injection H as <- <-. simpl. split; [exact Hfs|]. split; [|now left].
    exists ((nl ++ "Tailoring npm module for environment '" ++ name env ++ "'")%string
              :: "Dry run - following files will be deleted from npm module"%string
              :: lines ++ [EmptyString]).
    rewrite Hev. simpl. rewrite map_app. simpl.
    now rewrite <- !app_assoc.
  - split; [exact Hfs|]. split; [|right; eauto].
    exists ((nl ++ "Tailoring npm module for environment '" ++ name env ++ "'")%string
              :: "Dry run - following files will be deleted from npm module"%string
              :: lines).
    rewrite Hev. simpl. now rewrite <- !app_assoc.
  - destruct Hc as [Hc | [e Hc]]; discriminate.
Qed.

(** A run that is not dry: either it stops before the first write, or it
    writes Undefined, unlinks the candidates in order and, when every
    unlink went through, writes the name of the environment. *)
Lemma tailorModule_not_dry (st st' : State) (c : Completion unit)
      (env : EnvDef) (r : RegularFile) :
  environment (options st) = Some env ->
  dryRun (options st) = false ->
  stateFile (fs st) = Some r -> fileWritable r = true ->
  tailorModule h st = (c, st') ->
  exists evs,
    events st' = events st ++ evs /\
    ((mutations evs = [] /\ fs st' = fs st /\ exists e, c = Thrown e) \/
     exists loc allFiles,
       locateDependencyModule h st = (Normal loc, st) /\
       scanFolder h loc st = (Normal allFiles, st) /\
       ((c = Normal tt /\
         mutations evs =
           FileWritten (cStateFileName h) cStateUndefined
             :: map FileUnlinked (filter (deleteFilePredicate env) allFiles)
             ++ [FileWritten (cStateFileName h) (name env)] /\
         stateFile (fs st') =
           Some {| fileReadable := fileReadable r; fileWritable := true;
                   fileContent := name env |}) \/
        (exists e done failed rest,
            c = Thrown e /\
            filter (deleteFilePredicate env) allFiles = done ++ failed :: rest /\
            mutations evs =
              FileWritten (cStateFileName h) cStateUndefined :: map FileUnlinked done /\
            stateFile (fs st') =
              Some {| fileReadable := fileReadable r; fileWritable := true;
                      fileContent := cStateUndefined |}))).
Proof.
  intros O D S W H. unfold tailorModule in H.
  step H as o s0 H0; try discriminate. injection H0 as <- <-.
  rewrite O in H.
  step H as loc s1 H1;
    pose proof (locateDependencyModule_readonly _ _ _ H1) as [-> N];
    [| stops_early | now destruct (N code)].
  step H as allFiles s2 H2;
    pose proof (scanFolder_readonly _ _ _ _ H2) as [-> N'];
    [| stops_early | now destruct (N' code)].
  cbv zeta in H. rewrite D in H.
  step H as u1 s1 H3; try discriminate. injection H3 as <- <-.
  step H as u2 s2 H4;
    match type of H4 with
    | writeStateFile _ _ ?s = _ =>
        rewrite (writeStateFile_writable cStateUndefined s r S W) in H4
    end;
    try discriminate.
  injection H4 as <- <-.
  step H as u3 s3 H5; apply deleting_loop in H5 as (Hsf & evs & Hev & Hc).
  - destruct Hc as [[_ M] | (e & done & failed & rest & C & _)]; [|discriminate].
    rewrite (writeStateFile_writable (name env) s3
               {| fileReadable := fileReadable r; fileWritable := true;
                  fileContent := cStateUndefined |}) in H;
      [| exact Hsf | reflexivity].
    injection H as <- <-.
    exists ([ConsoleLog (nl ++ "Tailoring npm module for environment '" ++ name env ++ "'");
             FileWritten (cStateFileName h) cStateUndefined]
              ++ evs ++ [FileWritten (cStateFileName h) (name env)]).
    split.
    + simpl. rewrite Hev. simpl. now rewrite <- !app_assoc.
    + right. exists loc, allFiles. split; [exact H1|]. split; [exact H2|].
      left. split; [reflexivity|]. split; [|reflexivity].
      rewrite !mutations_app, M. reflexivity.
  - destruct Hc as [[C _] | (e0 & done & failed & rest & C & L & M)]; [discriminate|].
    exists ([ConsoleLog (nl ++ "Tailoring npm module for environment '" ++ name env ++ "'");
             FileWritten (cStateFileName h) cStateUndefined] ++ evs).
    split.
    + rewrite Hev. simpl. now rewrite <- !app_assoc.
    + right. exists loc, allFiles. split; [exact H1|]. split; [exact H2|].
      right. exists e0, done, failed, rest.
      split; [exact C|]. split; [exact L|]. split; [|exact Hsf].
      rewrite mutations_app, M. reflexivity.
  - destruct Hc as [[C _] | (e0 & done & failed & rest & C & _)]; discriminate.
Qed.

(** [unlinkSync] reads nothing but the file system. *)
Lemma unlinkSync_fs (path : string) (s t : State) :
  fs s = fs t ->
  fst (unlinkSync h path s) = fst (unlinkSync h path t) /\
  fs (snd (unlinkSync h path s)) = fs (snd (unlinkSync h path t)).
Proof.
  intros E. unfold unlinkSync, bind, gets, modify, throw. cbv beta iota. rewrite E.
  destruct (unlinkEntries (platform h) path (nestedLocation h)
              (rootEntries (nestedModule (fs t)))) as [ | | es];
    [destruct (unlinkEntries (platform h) path (siblingLocation h)
                 (rootEntries (siblingModule (fs t)))) as [ | | es] | |];
    cbn [fst snd fs setFs emit]; auto.
Qed.

(** What the deletions leave in the list of changes. *)
Lemma mutations_deletions (l : list string) :
  mutations (flat_map (fun fn => [ConsoleLog ("  deleting file '" ++ fn ++ "'");
                                  FileUnlinked fn]) l) = map FileUnlinked l.
Proof.
  induction l as [|fn l IH]; [reflexivity|].
  cbn [flat_map map app]. unfold mutations in *. cbn [filter isMutation]. now rewrite IH.
Qed.

(** The deletions: each file is announced and then unlinked, up to the
    first unlink that throws; that file has been announced too.  The
    unlinks go through or throw as [unlinkSync] does, one after the other,
    on any state with the same file system. *)
Lemma deleting_loop_tied (l : list string) :
  forall st t st' c,
    fs t = fs st ->
    forEach (fun fn => console_log ("  deleting file '" ++ fn ++ "'") ;; unlinkSync h fn) l st
      = (c, st') ->
    exists done rest,
      l = done ++ rest /\
      stateFile (fs st') = stateFile (fs st) /\
      events st' =
        events st ++
        flat_map (fun fn => [ConsoleLog ("  deleting file '" ++ fn ++ "'"); FileUnlinked fn])
                 done ++
        match rest with
        | [] => []
        | fn :: _ => [ConsoleLog ("  deleting file '" ++ fn ++ "'")]
        end /\
      fst (forEach (unlinkSync h) done t) = Normal tt /\
      fs st' = fs (snd (forEach (unlinkSync h) done t)) /\
      match rest with
      | [] => c = Normal tt
      | fn :: _ =>
          exists e, c = Thrown e /\
                    fst (unlinkSync h fn (snd (forEach (unlinkSync h) done t))) = Thrown e
      end.
Proof.
  induction l as [|fn l IH]; intros st t st' c F H.
  - cbn [forEach] in H. injection H as <- <-. exists [], [].
    cbn [app flat_map forEach]. rewrite app_nil_r. repeat split; auto.
  - cbn [forEach] in H.
    apply bind_inv in H as [([] & s1 & H1 & H) | [(e & H1 & ->) | (code & H1 & ->)]];
      (apply bind_inv in H1 as [([] & s0 & H0 & H1) | [(e' & H0 & E) | (code' & H0 & E)]];
       try discriminate);
      injection H0 as <-;
      match type of H1 with
      | unlinkSync _ _ ?s = _ =>
          destruct (unlinkSync_fs fn s t (eq_sym F)) as [T1 T2]
      end;
      rewrite H1 in T1, T2;
      cbn [fst snd] in T1, T2;
      apply unlinkSync_cases in H1 as [(C & Hsf & Hev) | ((e1 & C) & ->)];
      try discriminate.
    + destruct (IH s1 (snd (unlinkSync h fn t)) st' c (eq_sym T2) H)
        as (done & rest & -> & Hsf' & Hev' & Hn & Hfs & Hc).
      assert (U : forEach (unlinkSync h) (fn :: done) t =
                  forEach (unlinkSync h) done (snd (unlinkSync h fn t))).
      { cbn [forEach]. unfold bind. destruct (unlinkSync h fn t) as [c0 t0].
        cbn [fst snd] in *. now subst c0. }
      exists (fn :: done), rest. split; [reflexivity|].
      split; [now rewrite Hsf', Hsf|]. rewrite U.
      split; [|split; [exact Hn|split; [exact Hfs | exact Hc]]].
      rewrite Hev', Hev. cbn [events emit flat_map app]. now rewrite <- !app_assoc.
    + exists [], (fn :: l). cbn [app flat_map forEach ret snd].
      split; [reflexivity|]. split; [reflexivity|]. split; [reflexivity|].
      split; [reflexivity|]. split; [symmetry; exact F|].
      exists e. split; [reflexivity|]. now rewrite <- T1.
Qed.
(** A run that is not dry, with the module located and scanned: what it
    does follows the unlinks, one candidate after the other in the file
    system as the write of Undefined and the earlier unlinks have left
    it. *)
Lemma tailorModule_not_dry_tied
      (st st' : State) (c : Completion unit) (env : EnvDef) (r : RegularFile)
      (loc : string) (allFiles : list string) :
  environment (options st) = Some env ->
  dryRun (options st) = false ->
  stateFile (fs st) = Some r -> fileWritable r = true ->
  locateDependencyModule h st = (Normal loc, st) ->
  scanFolder h loc st = (Normal allFiles, st) ->
  tailorModule h st = (c, st') ->
  exists done rest,
    filter (deleteFilePredicate env) allFiles = done ++ rest /\
    events st' =
      events st ++
      [ ConsoleLog (nl ++ "Tailoring npm module for environment '" ++ name env ++ "'");
        FileWritten (cStateFileName h) cStateUndefined ] ++
      flat_map (fun fn => [ConsoleLog ("  deleting file '" ++ fn ++ "'"); FileUnlinked fn])
               done ++
      match rest with
      | [] => [FileWritten (cStateFileName h) (name env)]
      | fn :: _ => [ConsoleLog ("  deleting file '" ++ fn ++ "'")]
      end /\
    fst (forEach (unlinkSync h) done (snd (writeStateFile h cStateUndefined st))) = Normal tt /\
    match rest with
    | [] =>
        c = Normal tt /\
        fs st' =
          fs (snd (writeStateFile h (name env)
                     (snd (forEach (unlinkSync h) done
                             (snd (writeStateFile h cStateUndefined st)))))) /\
        stateFile (fs st') =
          Some {| fileReadable := fileReadable r; fileWritable := true;
                  fileContent := name env |}
    | fn :: _ =>
        exists e,
          c = Thrown e /\
          fst (unlinkSync h fn
                 (snd (forEach (unlinkSync h) done
                         (snd (writeStateFile h cStateUndefined st))))) = Thrown e /\
          fs st' =
            fs (snd (forEach (unlinkSync h) done
                       (snd (writeStateFile h cStateUndefined st)))) /\
          stateFile (fs st') =
            Some {| fileReadable := fileReadable r; fileWritable := true;
                    fileContent := cStateUndefined |}
    end.
Proof.
  intros O D S W L Sc H. unfold tailorModule in H.
  step H as o s0 H0; try discriminate. injection H0 as <- <-.
  rewrite O in H.
  step H as loc' s1 H1; rewrite L in H1; try discriminate. injection H1 as <- <-.
  step H as files s2 H2; rewrite Sc in H2; try discriminate. injection H2 as <- <-.
  cbv zeta in H. rewrite D in H.
  step H as u1 s1 H3; try discriminate. injection H3 as <- <-.
  step H as u2 s2 H4;
    match type of H4 with
    | writeStateFile _ _ ?s = _ =>
        rewrite (writeStateFile_writable cStateUndefined s r S W) in H4
    end;
    try discriminate.
  injection H4 as <- <-. revert H.
  rewrite (writeStateFile_writable cStateUndefined st r S W). cbn [snd].
  set (t := emit (FileWritten (cStateFileName h) cStateUndefined)
              (setFs {| stateFile := Some {| fileReadable := fileReadable r;
                                             fileWritable := true;
                                             fileContent := cStateUndefined |};
                        nestedModule := nestedModule (fs st);
                        siblingModule := siblingModule (fs st) |} st)).
  intros H.
  step H as u3 s3 H5;
    apply (deleting_loop_tied _ _ t) in H5
      as (done & rest & E & Hsf & Hev & Hn & Hfs & Hc);
    try reflexivity;
    exists done, rest; (split; [exact E|]).
  - destruct rest as [|fn rest]; [|destruct Hc as (e & C & _); discriminate].
    assert (Sf2 : stateFile (fs (snd (forEach (unlinkSync h) done t))) =
                  Some {| fileReadable := fileReadable r; fileWritable := true;
                          fileContent := cStateUndefined |})
      by (rewrite <- Hfs; exact Hsf).
    rewrite (writeStateFile_writable (name env) s3
               {| fileReadable := fileReadable r; fileWritable := true;
                  fileContent := cStateUndefined |}) in H;
      [| exact Hsf | reflexivity].
    rewrite (writeStateFile_writable (name env) (snd (forEach (unlinkSync h) done t))
               {| fileReadable := fileReadable r; fileWritable := true;
                  fileContent := cStateUndefined |} Sf2 eq_refl).
    injection H as <- <-.
    split; [|split; [exact Hn|split; [reflexivity|split]]].
    + cbn [events emit setFs]. rewrite Hev. cbn [events emit setFs]. rewrite app_nil_r.
      now rewrite <- !app_assoc.
    + cbn [fs snd emit setFs]. now rewrite Hfs.
    + reflexivity.
  - destruct rest as [|fn rest]; [discriminate|].
    destruct Hc as (e' & C & U). injection C as <-.
    split; [|split; [exact Hn|]].
    + rewrite Hev. cbn [events emit setFs]. now rewrite <- !app_assoc.
    + exists e. split; [reflexivity|]. split; [exact U|]. split; [exact Hfs | exact Hsf].
  - destruct rest as [|fn rest]; [discriminate | destruct Hc as (e & C & _); discriminate].
Qed.

(** Without the module, or without its listing, nothing is done. *)
Lemma tailorModule_stops_at_locate (st : State) (env : EnvDef) (e : Exn) :
  environment (options st) = Some env ->
  locateDependencyModule h st = (Thrown e, st) ->
  tailorModule h st = (Thrown e, st).
Proof.
  intros O L. unfold tailorModule, bind at 1, gets. cbv beta iota. rewrite O.
  unfold bind at 1. now rewrite L.
Qed.

Lemma tailorModule_stops_at_scan (st : State) (env : EnvDef) (loc : string) (e : Exn) :
  environment (options st) = Some env ->
  locateDependencyModule h st = (Normal loc, st) ->
  scanFolder h loc st = (Thrown e, st) ->
  tailorModule h st = (Thrown e, st).
Proof.
  intros O L Sc. unfold tailorModule, bind at 1, gets. cbv beta iota. rewrite O.
  unfold bind at 1. rewrite L. unfold bind at 1. now rewrite Sc.
Qed.

End Facts.

End EngineFacts.

(* ====================================================================== *)
(** ** One invocation *)

Module InvocationFacts.

Import StepFacts StateFileFacts ParseFacts DispatchFacts EngineFacts.

Section Facts.

Variable h : Host.

Lemma tailorModule_without_environment (st : State) :
  environment (options st) = None ->
  tailorModule h st = (Thrown (Error "no environment for tailoring specified."), st).
Proof.
  intros O. unfold tailorModule, bind, gets. cbv beta iota. now rewrite O.
Qed.

Lemma printResult_returns (e : option Exn) (st : State) :
  exists st', printResult e st = (Normal tt, st') /\ fs st' = fs st.
Proof.
  unfold printResult, bind, gets, console_log, modify, ret.
  destruct e; cbv beta iota; eexists; split; reflexivity.
Qed.

(** The decision table of lines 367-381, for an accessible state file that
    holds [v] and a command line of run flags.  The file system can change
    in the last row only. *)
Lemma decision_table (f : FileSystem) (args : list string) (r : RegularFile) :
  stateFile f = Some r -> fileReadable r = true -> fileWritable r = true ->
  engineArgs args = true ->
  exists st1,
    fs st1 = f /\ events st1 = [] /\ options st1 = requested args /\
    main h (initialState f args) =
      if (indexOf cStates (Some (fileContent r)) <? 0)%Z then
        (Normal tt,
         emit (ConsoleLog ("ERROR: npm module is in an unknown tailoring state '" ++
                           fileContent r ++ "'")) st1)
      else if fileContent r =? cStateUndefined then
        (Normal tt, emit (ConsoleLog reinstallMessage) st1)
      else if negb (fileContent r =? cStateNotTailored) then
        match environment (requested args) with
        | None =>
            printResult (Some (TypeError "Cannot read property 'name' of undefined")) st1
        | Some env =>
            if fileContent r =? name env then
              (Normal tt, emit (ConsoleLog (alreadyTailoredMessage (fileContent r))) st1)
            else
              (Normal tt,
               emit (ConsoleLog ("Please uninstall and re-install @dynatrace/oneagent module " ++
                                 "to tailor for environment '" ++ name env ++ "'"))
                 (emit (ConsoleLog ("ERROR: The npm module has been already tailored " ++
                                    "for environment '" ++ fileContent r)) st1))
        end
      else
        match environment (requested args) with
        | None =>
            printResult (Some (Error "no environment for tailoring specified.")) st1
        | Some _ =>
            tryCatch (tailorModule h ;; printResult None)
                     (fun e => printResult (Some e)) st1
        end.
Proof.
  intros S R W A.
  destruct (main_reaches_dispatch h f args r S R W A) as (st1 & M & Hfs & Hev & Hp & Ho).
  exists st1. split; [exact Hfs|]. split; [exact Hev|]. split; [exact Ho|].
  rewrite M. unfold tryCatch, dispatchState, bind at 1, gets. cbv beta iota.
  rewrite Hp. cbn [strictEquals interpolate].
  destruct (indexOf cStates (Some (fileContent r)) <? 0)%Z; [reflexivity|].
  destruct (fileContent r =? cStateUndefined); [reflexivity|].
  rewrite <- Ho.
  destruct (fileContent r =? cStateNotTailored); cbn [negb].
  - destruct (environment (options st1)) as [env|] eqn:O.
    + reflexivity.
    + unfold bind. now rewrite (tailorModule_without_environment st1 O).
  - unfold environmentName, bind, gets, ret, console_log, modify. cbv beta iota.
    cbn [options emit].
    destruct (environment (options st1)) as [env|] eqn:O; [|reflexivity].
    cbv beta iota. cbn [strictEquals].
    destruct (fileContent r =? name env); [reflexivity|].
    cbn [options emit]. rewrite O. reflexivity.
Qed.

(** With the state file in place, [tailorModule] returns or throws. *)
Lemma tailorModule_never_exits (st st' : State) (c : Completion unit) (r : RegularFile) :
  stateFile (fs st) = Some r -> fileWritable r = true ->
  tailorModule h st = (c, st') ->
  forall code, c <> Exited code.
Proof.
  intros S W H code.
  destruct (environment (options st)) as [env|] eqn:O.
  - destruct (dryRun (options st)) eqn:D.
    + destruct (tailorModule_dry h st st' c D H) as (_ & _ & [-> | [e ->]]); discriminate.
    + destruct (tailorModule_not_dry h st st' c env r O D S W H)
        as (evs & _ & [(_ & _ & e & ->) | (loc & allFiles & _ & _ & [Ok | Failed])]).
      * discriminate.
      * destruct Ok as (-> & _). discriminate.
      * destruct Failed as (e & done & failed & rest & -> & _). discriminate.
  - rewrite (tailorModule_without_environment st O) in H.
    injection H as <- <-. discriminate.
Qed.

(** Every outcome of the dispatch ends the process with code 0. *)
Lemma engine_exit_code (f : FileSystem) (args : list string) :
  stateAccessible f = true ->
  engineArgs args = true ->
  fst (run h f args) = 0%Z.
Proof.
  intros Acc A.
  destruct (stateAccessible_inv f Acc) as (r & S & R & W).
  destruct (decision_table f args r S R W A) as (st1 & Hfs & _ & _ & M).
  assert (P : forall e st, fst (let '(c, s) := printResult e st in
                                match c with
                                | Normal _ => (0%Z, s)
                                | Exited code => (code, s)
                                | Thrown _ => (1%Z, s)
                                end) = 0%Z).
  { intros e st. destruct (printResult_returns e st) as (st' & -> & _). reflexivity. }
  unfold run. rewrite M.
  destruct (indexOf cStates (Some (fileContent r)) <? 0)%Z; [reflexivity|].
  destruct (fileContent r =? cStateUndefined); [reflexivity|].
  destruct (negb (fileContent r =? cStateNotTailored)).
  - destruct (environment (requested args)) as [env|]; [|apply P].
    destruct (fileContent r =? name env); reflexivity.
  - destruct (environment (requested args)) as [env|]; [|apply P].
    unfold tryCatch, bind.
    destruct (tailorModule h st1) as [[[] | e | code] s1] eqn:T.
    + destruct (printResult_returns None s1) as (s2 & -> & _). reflexivity.
    + apply P.
    + rewrite <- Hfs in S.
      now destruct (tailorModule_never_exits st1 s1 (Exited code) r S W T code).
Qed.

(** [--dryRun] anywhere among run flags sets [options.dryRun]. *)
Lemma requested_dryRun (args : list string) :
  In "--dryRun"%string (skipn 2 args) -> dryRun (requested args) = true.
Proof.
  unfold requested.
  assert (Keep : forall l o, dryRun o = true -> dryRun (fold_left applyFlag l o) = true).
  { induction l as [|a l IH]; simpl; intros o D; [exact D|].
    apply IH. unfold applyFlag.
    destruct (a =? "--dryRun"); [reflexivity|].
    destruct (a =? "--AwsLambdaV4"); [exact D|].
    destruct (a =? "--AwsLambdaV6"); exact D. }
  generalize initialOptions.
  induction (skipn 2 args) as [|a l IH]; simpl; intros o I; [contradiction|].
  destruct I as [-> | I]; [|now apply IH].
  apply Keep. reflexivity.
Qed.

(** An invocation with [--dryRun] among its run flags leaves the file
    system as it found it, whatever the persisted state. *)
Lemma dry_invocation_changes_nothing (f : FileSystem) (args : list string) :
  stateAccessible f = true ->
  engineArgs args = true ->
  In "--dryRun"%string (skipn 2 args) ->
  fs (snd (run h f args)) = f.
Proof.
  intros Acc A I.
  destruct (stateAccessible_inv f Acc) as (r & S & R & W).
  destruct (decision_table f args r S R W A) as (st1 & Hfs & _ & Ho & M).
  assert (P : forall e st, fs st = f ->
                fs (snd (let '(c, s) := printResult e st in
                         match c with
                         | Normal _ => (0%Z, s)
                         | Exited code => (code, s)
                         | Thrown _ => (1%Z, s)
                         end)) = f).
  { intros e st E. destruct (printResult_returns e st) as (st' & -> & Hst'). simpl. congruence. }
  unfold run. rewrite M.
  destruct (indexOf cStates (Some (fileContent r)) <? 0)%Z; [exact Hfs|].
  destruct (fileContent r =? cStateUndefined); [exact Hfs|].
  destruct (negb (fileContent r =? cStateNotTailored)).
  - destruct (environment (requested args)) as [env|]; [|now apply P].
    destruct (fileContent r =? name env); exact Hfs.
  - destruct (environment (requested args)) as [env|]; [|now apply P].
    assert (D : dryRun (options st1) = true) by (rewrite Ho; now apply requested_dryRun).
    unfold tryCatch, bind.
    destruct (tailorModule h st1) as [c s1] eqn:T.
    destruct (tailorModule_dry h st1 s1 c D T) as (Hs1 & _ & [-> | [e ->]]).
    + destruct (printResult_returns None s1) as (s2 & -> & Hs2). simpl. congruence.
    + apply P. congruence.
Qed.

End Facts.

End InvocationFacts.

(* ====================================================================== *)
(** * The properties of the specification *)

Import RegexFacts PredicateFacts ScanFacts StepFacts StateFileFacts ParseFacts
       DispatchFacts EngineFacts.

(** C1.  The cell of the decision table the script gets wrong: the state
    file names an environment and the command line requests none.  The
    comparison of line 372 reads [options.environment.name] with
    [options.environment] undefined, so instead of the conflict report
    the invocation ends in the report of a TypeError.  Nothing is changed
    on disk and the exit code is 0. *)
Theorem tailored_state_without_environment
  (h : Host) (f : FileSystem) (args : list string) (r : RegularFile) (env : EnvDef) :
  stateFile f = Some r -> fileReadable r = true -> fileWritable r = true ->
  In env environments -> fileContent r = name env ->
  engineArgs args = true ->
  environment (requested args) = None ->
  exists st2,
    run h f args = (0%Z, st2) /\
    fs st2 = f /\
    events st2 =
      [ ConsoleLog "Error encountered: 'Cannot read property 'name' of undefined'";
        ConsoleLog (nl ++ (if dryRun (requested args) then "[DRY RUN] " else EmptyString)
                       ++ "Tailoring npm module: FAILED") ].
Proof.
  intros S R W I C A Q.
  destruct (main_reaches_dispatch h f args r S R W A) as (st1 & M & Hfs & Hev & Hp & Ho).
  rewrite C in Hp. rewrite <- Ho in Q.
  assert (D : dispatchState h st1 =
              (Thrown (TypeError "Cannot read property 'name' of undefined"), st1)).
  { unfold dispatchState, environmentName, bind, gets. cbv beta iota. rewrite Hp.
    destruct I as [<- | [<- | []]]; simpl; rewrite Q; reflexivity. }
  unfold run. rewrite M. unfold tryCatch. rewrite D.
  unfold printResult, bind, gets, console_log, modify. cbv beta iota.
  cbn [options emit]. rewrite Q, Ho. eexists. split; [reflexivity|].
  cbn [fs events emit]. split; [exact Hfs|]. rewrite Hev. reflexivity.
Qed.

Lemma tailored_state_without_environment_witness :
  exists st2,
    run posixHost (sampleFs cStateLambdaWithNode4 true) ["node"; "pkgtailor.js"; "--dryRun"]
      = (0%Z, st2) /\
    fs st2 = sampleFs cStateLambdaWithNode4 true /\
    events st2 =
      [ ConsoleLog "Error encountered: 'Cannot read property 'name' of undefined'";
        ConsoleLog (nl ++ "[DRY RUN] " ++ "Tailoring npm module: FAILED") ].
Proof.
  apply (tailored_state_without_environment posixHost
           (sampleFs cStateLambdaWithNode4 true)
           ["node"; "pkgtailor.js"; "--dryRun"]
           {| fileReadable := true; fileWritable := true;
              fileContent := cStateLambdaWithNode4 |}
           cLambdaV4EnvDef).
  - reflexivity.
  - reflexivity.
  - reflexivity.
  - simpl. auto.
  - reflexivity.
  - reflexivity.
  - reflexivity.
Defined.

(** C2.  A run of [tailorModule] that is not dry, started with the state
    file in place.  When the module is not found or cannot be listed, the
    run throws that error and has changed nothing.  Otherwise it writes
    Undefined to the state file and unlinks the candidates (the files the
    predicate of the environment selects) one after the other, each in the
    file system as the earlier unlinks have left it.  When every unlink
    goes through, the run returns after writing the name of the
    environment: these are then its two writes, with all the unlinks in
    between.  When an unlink throws, the run throws that error at once:
    the files before it are unlinked, no later one is touched, the name is
    not written, the state file holds Undefined, and every later
    invocation with run flags, whatever environment they request, prints
    the reinstall error and changes nothing. *)
Theorem state_writes_bracket_deletions
  (h : Host) (st st' : State) (c : Completion unit) (env : EnvDef) (r : RegularFile) :
  environment (options st) = Some env ->
  dryRun (options st) = false ->
  stateFile (fs st) = Some r -> fileReadable r = true -> fileWritable r = true ->
  tailorModule h st = (c, st') ->
  exists evs,
    events st' = events st ++ evs /\
    match fst (locateDependencyModule h st) with
    | Thrown e => c = Thrown e /\ mutations evs = [] /\ fs st' = fs st
    | Exited _ => False
    | Normal loc =>
        match fst (scanFolder h loc st) with
        | Thrown e => c = Thrown e /\ mutations evs = [] /\ fs st' = fs st
        | Exited _ => False
        | Normal allFiles =>
            exists done rest,
              filter (deleteFilePredicate env) allFiles = done ++ rest /\
              fst (forEach (unlinkSync h) done
                     (snd (writeStateFile h cStateUndefined st))) = Normal tt /\
              match rest with
              | [] =>
                  c = Normal tt /\
                  mutations evs =
                    FileWritten (cStateFileName h) cStateUndefined
                      :: map FileUnlinked done
                      ++ [FileWritten (cStateFileName h) (name env)] /\
                  persisted (fs st') = Some (name env)
              | failed :: _ =>
                  exists e,
                    fst (unlinkSync h failed
                           (snd (forEach (unlinkSync h) done
                                   (snd (writeStateFile h cStateUndefined st))))) =
                      Thrown e /\
                    c = Thrown e /\
                    mutations evs =
                      FileWritten (cStateFileName h) cStateUndefined
                        :: map FileUnlinked done /\
                    persisted (fs st') = Some cStateUndefined /\
                    forall args,
                      engineArgs args = true ->
                      exists st3,
                        run h (fs st') args = (0%Z, st3) /\
                        events st3 = [ConsoleLog reinstallMessage] /\
                        fs st3 = fs st'
              end
        end
    end.
Proof.
  intros O D S R W H.
  destruct (locateDependencyModule h st) as [cl sl] eqn:L.
  destruct (locateDependencyModule_readonly h _ _ _ L) as [-> Nl]. cbn [fst].
  destruct cl as [loc | e | code]; [| | destruct (Nl code eq_refl)].
  2: { rewrite (tailorModule_stops_at_locate h st env e O L) in H. injection H as <- <-.
       exists []. rewrite app_nil_r. repeat split. }
  destruct (scanFolder h loc st) as [cs ss] eqn:Sc.
  destruct (scanFolder_readonly h _ _ _ _ Sc) as [-> Ns]. cbn [fst].
  destruct cs as [allFiles | e | code]; [| | destruct (Ns code eq_refl)].
  2: { rewrite (tailorModule_stops_at_scan h st env loc e O L Sc) in H. injection H as <- <-.
       exists []. rewrite app_nil_r. repeat split. }
  destruct (tailorModule_not_dry_tied h st st' c env r loc allFiles O D S W L Sc H)
    as (done & rest & E & Hev & Hn & Hc).
  eexists. split; [exact Hev|]. exists done, rest. split; [exact E|]. split; [exact Hn|].
  destruct rest as [|failed rest].
  - destruct Hc as (C & _ & Sf). split; [exact C|]. split.
    + rewrite !mutations_app, mutations_deletions. reflexivity.
    + unfold persisted. now rewrite Sf.
  - destruct Hc as (e & C & U & _ & Sf). exists e.
    split; [exact U|]. split; [exact C|]. split.
    + rewrite !mutations_app, mutations_deletions. cbn [app]. 
      unfold mutations. cbn [filter isMutation app]. now rewrite app_nil_r.
    + split; [unfold persisted; now rewrite Sf|].
      intros args A.
      exact (run_undefined h (fs st') args _ Sf R eq_refl eq_refl A).
Qed.

(** The witness is a run in which the second of three unlinks fails. *)
Lemma state_writes_bracket_deletions_witness :
  persisted (fs (snd (tailorModule posixHost (sampleState false false)))) =
    Some cStateUndefined /\
  exists evs,
    events (snd (tailorModule posixHost (sampleState false false))) =
      events (sampleState false false) ++ evs /\
    exists done rest,
      filter (deleteFilePredicate cLambdaV4EnvDef)
        (map (canonical Posix)
           (rawPaths Posix (siblingLocation posixHost)
              (rootEntries (Some (sampleModule false))))) = done ++ rest /\
      fst (forEach (unlinkSync posixHost) done
             (snd (writeStateFile posixHost cStateUndefined (sampleState false false)))) =
        Normal tt /\
      match rest with
      | [] =>
          fst (tailorModule posixHost (sampleState false false)) = Normal tt /\
          mutations evs =
            FileWritten (cStateFileName posixHost) cStateUndefined
              :: map FileUnlinked done
              ++ [FileWritten (cStateFileName posixHost) (name cLambdaV4EnvDef)] /\
          persisted (fs (snd (tailorModule posixHost (sampleState false false)))) =
            Some (name cLambdaV4EnvDef)
      | failed :: _ =>
          exists e,
            fst (unlinkSync posixHost failed
                   (snd (forEach (unlinkSync posixHost) done
                           (snd (writeStateFile posixHost cStateUndefined
                                   (sampleState false false)))))) = Thrown e /\
            fst (tailorModule posixHost (sampleState false false)) = Thrown e /\
            mutations evs =
              FileWritten (cStateFileName posixHost) cStateUndefined
                :: map FileUnlinked done /\
            persisted (fs (snd (tailorModule posixHost (sampleState false false)))) =
              Some cStateUndefined /\
            forall args,
              engineArgs args = true ->
              exists st3,
                run posixHost (fs (snd (tailorModule posixHost (sampleState false false)))) args
                  = (0%Z, st3) /\
                events st3 = [ConsoleLog reinstallMessage] /\
                fs st3 = fs (snd (tailorModule posixHost (sampleState false false)))
      end.
Proof.
  split; [reflexivity|].
  apply (state_writes_bracket_deletions posixHost (sampleState false false)
           (snd (tailorModule posixHost (sampleState false false)))
           (fst (tailorModule posixHost (sampleState false false)))
           cLambdaV4EnvDef
           {| fileReadable := true; fileWritable := true;
              fileContent := cStateNotTailored |}).
  - reflexivity.
  - reflexivity.
  - reflexivity.
  - reflexivity.
  - reflexivity.
  - apply surjective_pairing.
Defined.

(** C3.  The first environment keeps [addon_46.node] and deletes
    [addon_44.node], [addon_48.node] and [addon_99.node]; the second keeps
    [addon_48.node] and deletes the others.  More generally, in either
    environment a name [stem_NN.node] with a two-digit tag other than the
    kept one is deleted whatever the stem, and on a name that ends in the
    kept tag the tag rule is silent: only the 32-bit path rule can still
    delete it. *)
Theorem abi_tag_rule :
  (deleteFilePredicate cLambdaV4EnvDef "addon_46.node" = false /\
   deleteFilePredicate cLambdaV4EnvDef "addon_44.node" = true /\
   deleteFilePredicate cLambdaV4EnvDef "addon_48.node" = true /\
   deleteFilePredicate cLambdaV4EnvDef "addon_99.node" = true) /\
  (deleteFilePredicate cLambdaV6EnvDef "addon_48.node" = false /\
   deleteFilePredicate cLambdaV6EnvDef "addon_44.node" = true /\
   deleteFilePredicate cLambdaV6EnvDef "addon_46.node" = true /\
   deleteFilePredicate cLambdaV6EnvDef "addon_99.node" = true) /\
  (forall stem a b,
      tag a b <> "46" ->
      deleteFilePredicate cLambdaV4EnvDef (stem ++ "_" ++ tag a b ++ ".node") = true) /\
  (forall stem a b,
      tag a b <> "48" ->
      deleteFilePredicate cLambdaV6EnvDef (stem ++ "_" ++ tag a b ++ ".node") = true) /\
  (forall pre,
      deleteFilePredicate cLambdaV4EnvDef (pre ++ "_46.node") =
      test_to_end c32BitPathPattern (pre ++ "_46.node")) /\
  (forall pre,
      deleteFilePredicate cLambdaV6EnvDef (pre ++ "_48.node") =
      test_to_end c32BitPathPattern (pre ++ "_48.node")).
Proof.
  split; [repeat split; vm_compute; reflexivity|].
  split; [repeat split; vm_compute; reflexivity|].
  split; [|split; [|split]].
  - intros stem a b H.
    now rewrite cLambdaV4EnvDef_predicate, (abiPattern_other_tag "6" stem a b H).
  - intros stem a b H.
    now rewrite cLambdaV6EnvDef_predicate, (abiPattern_other_tag "8" stem a b H).
  - intros pre. rewrite cLambdaV4EnvDef_predicate.
    now rewrite (abiPattern_kept_tag "6" pre).
  - intros pre. rewrite cLambdaV6EnvDef_predicate.
    now rewrite (abiPattern_kept_tag "8" pre).
Qed.

Lemma abi_tag_rule_witness :
  deleteFilePredicate cLambdaV6EnvDef ("bin/addon" ++ "_" ++ tag 5 7 ++ ".node") = true.
Proof.
  apply (proj1 (proj2 (proj2 (proj2 abi_tag_rule))) "bin/addon" 5 7).
  vm_compute. discriminate.
Defined.

(** C4.  A path that ends in [/lib/<name>] or [/linux-x86-32/<name>], with
    [<name>] a file name, is deleted in every environment, whatever the
    name and whatever comes before. *)
Theorem lib_paths_deleted (env : EnvDef) (pre nm : string) :
  In env environments ->
  isFileName nm = true ->
  deleteFilePredicate env (pre ++ "/lib/" ++ nm) = true /\
  deleteFilePredicate env (pre ++ "/linux-x86-32/" ++ nm) = true.
Proof.
  intros I N.
  assert (L : test_to_end c32BitPathPattern (pre ++ "/lib/" ++ nm) = true)
    by (apply test_to_end_intro; now apply c32BitPathPattern_lib).
  assert (X : test_to_end c32BitPathPattern (pre ++ "/linux-x86-32/" ++ nm) = true)
    by (apply test_to_end_intro; now apply c32BitPathPattern_linux32).
  destruct I as [<- | [<- | []]];
    rewrite ?cLambdaV4EnvDef_predicate, ?cLambdaV6EnvDef_predicate, L, X, !orb_true_r;
    now split.
Qed.

Lemma lib_paths_deleted_witness :
  deleteFilePredicate cLambdaV4EnvDef ("/agent/bin" ++ "/lib/" ++ "addon_46.node") = true /\
  deleteFilePredicate cLambdaV4EnvDef ("/agent/bin" ++ "/linux-x86-32/" ++ "addon_46.node") = true.
Proof.
  apply (lib_paths_deleted cLambdaV4EnvDef "/agent/bin" "addon_46.node").
  - simpl. auto.
  - vm_compute. reflexivity.
Defined.

(** C5.  A dry run of [tailorModule] leaves the file system as it was (the
    state file and every file below the module) and adds nothing but
    console lines to what the script has done, for any environment, any
    set of candidates, and also when the access check of a candidate
    throws in the middle of the listing. *)
Theorem dry_run_only_prints (h : Host) (st st' : State) (c : Completion unit) :
  dryRun (options st) = true ->
  tailorModule h st = (c, st') ->
  fs st' = fs st /\
  (exists lines, events st' = events st ++ map ConsoleLog lines) /\
  mutations (events st') = mutations (events st).
Proof.
  intros D H.
  destruct (tailorModule_dry h st st' c D H) as (Hfs & (lines & Hev) & _).
  split; [exact Hfs|]. split; [now exists lines|].
  rewrite Hev, mutations_app, mutations_logs. apply app_nil_r.
Qed.

(** The witness is a dry run whose listing breaks off at a file that may
    not be written. *)
Lemma dry_run_only_prints_witness :
  fs (snd (tailorModule posixHost (sampleState false true))) =
    fs (sampleState false true) /\
  (exists lines,
      events (snd (tailorModule posixHost (sampleState false true))) =
        events (sampleState false true) ++ map ConsoleLog lines) /\
  mutations (events (snd (tailorModule posixHost (sampleState false true)))) =
    mutations (events (sampleState false true)).
Proof.
  apply (dry_run_only_prints posixHost (sampleState false true)
           (snd (tailorModule posixHost (sampleState false true)))
           (fst (tailorModule posixHost (sampleState false true)))).
  - reflexivity.
  - apply surjective_pairing.
Defined.

(** C6.  After a run of [tailorModule] that is not dry and returns, an
    invocation that requests the same environment prints that the module
    is already tailored for it, exits with code 0, and changes nothing:
    no unlink, no write, and the state file still names the environment. *)
Theorem second_run_is_a_no_op
  (h : Host) (st st1 : State) (env : EnvDef) (r : RegularFile) (args : list string) :
  environment (options st) = Some env ->
  dryRun (options st) = false ->
  stateFile (fs st) = Some r -> fileReadable r = true -> fileWritable r = true ->
  tailorModule h st = (Normal tt, st1) ->
  engineArgs args = true ->
  environment (requested args) = Some env ->
  persisted (fs st1) = Some (name env) /\
  exists st2,
    run h (fs st1) args = (0%Z, st2) /\
    events st2 = [ConsoleLog (alreadyTailoredMessage (name env))] /\
    mutations (events st2) = [] /\
    fs st2 = fs st1.
Proof.
  intros O D S R W H A Q.
  destruct (tailorModule_not_dry h st st1 (Normal tt) env r O D S W H)
    as (evs & Hev & [(_ & _ & e & C) | (loc & allFiles & _ & _ & [Ok | Failed])]).
  - discriminate.
  - destruct Ok as (_ & _ & Sf).
    split; [unfold persisted; now rewrite Sf|].
    destruct (run_same h (fs st1) args _ env Sf R eq_refl eq_refl A Q)
      as (st2 & Hrun & Hevs & Hfs).
    exists st2. split; [exact Hrun|]. split; [exact Hevs|]. split; [|exact Hfs].
    now rewrite Hevs.
  - destruct Failed as (e & done & failed & rest & C & _). discriminate.
Qed.

Lemma second_run_is_a_no_op_witness :
  persisted (fs (snd (tailorModule posixHost (sampleState true false)))) =
    Some (name cLambdaV4EnvDef) /\
  exists st2,
    run posixHost (fs (snd (tailorModule posixHost (sampleState true false))))
        ["node"; "pkgtailor.js"; "--dryRun"; "--AwsLambdaV4"] = (0%Z, st2) /\
    events st2 = [ConsoleLog (alreadyTailoredMessage (name cLambdaV4EnvDef))] /\
    mutations (events st2) = [] /\
    fs st2 = fs (snd (tailorModule posixHost (sampleState true false))).
Proof.
  apply (second_run_is_a_no_op posixHost (sampleState true false)
           (snd (tailorModule posixHost (sampleState true false)))
           cLambdaV4EnvDef
           {| fileReadable := true; fileWritable := true;
              fileContent := cStateNotTailored |}
           ["node"; "pkgtailor.js"; "--dryRun"; "--AwsLambdaV4"]).
  - reflexivity.
  - reflexivity.
  - reflexivity.
  - reflexivity.
  - reflexivity.
  - vm_compute. reflexivity.
  - reflexivity.
  - reflexivity.
Defined.

(** C7.  [tryReadStateFile] returns the content of the state file when the
    file is there and the process may both read and write it, and throws
    in every other case: when the file is missing, when it may not be
    read, and when it may not be written.  A missing file never reads as
    a state. *)
Theorem read_needs_read_and_write_access (h : Host) (st : State) :
  match stateFile (fs st) with
  | None => tryReadStateFile h st = (Thrown (notAccessible h), st)
  | Some r =>
      if fileReadable r && fileWritable r
      then tryReadStateFile h st = (Normal (fileContent r), st)
      else tryReadStateFile h st = (Thrown (notAccessible h), st)
  end.
Proof.
  destruct (stateFile (fs st)) as [r|] eqn:S.
  - destruct (fileReadable r && fileWritable r) eqn:A.
    + apply andb_true_iff in A as [R W]. now apply tryReadStateFile_ok.
    + apply tryReadStateFile_fails. unfold stateAccessible. now rewrite S.
  - apply tryReadStateFile_fails. unfold stateAccessible. now rewrite S.
Qed.

(** C8.  The exit codes next to the help request.  With the state file in
    place, [--help] ends the process with code 1, not 0: its handler
    passes 0 to [printHelpAndExit], whose line 281 takes 0 for a missing
    argument and puts the default 1 in its place.  A command line without
    flags is turned into [--help] and ends with 1 as well, as does an
    unknown flag; [--state] ends with 0. *)
Theorem help_exits_with_code_one
  (h : Host) (f : FileSystem) (r : RegularFile) (node script : string) :
  stateFile f = Some r -> fileReadable r = true -> fileWritable r = true ->
  fst (run h f [node; script; "--help"]) = 1%Z /\
  fst (run h f [node; script]) = 1%Z /\
  fst (run h f [node; script; "--no-such-flag"]) = 1%Z /\
  fst (run h f [node; script; "--state"]) = 0%Z.
Proof.
  intros S R W.
  repeat split; unfold run, main, tryCatch, bind;
    match goal with
    | |- context [tryReadStateFile h ?s] => rewrite (tryReadStateFile_ok h s r S R W)
    end; reflexivity.
Qed.

Lemma help_exits_with_code_one_witness :
  fst (run posixHost (sampleFs cStateNotTailored true) ["node"; "pkgtailor.js"; "--help"]) = 1%Z /\
  fst (run posixHost (sampleFs cStateNotTailored true) ["node"; "pkgtailor.js"]) = 1%Z /\
  fst (run posixHost (sampleFs cStateNotTailored true)
         ["node"; "pkgtailor.js"; "--no-such-flag"]) = 1%Z /\
  fst (run posixHost (sampleFs cStateNotTailored true) ["node"; "pkgtailor.js"; "--state"]) = 0%Z.
Proof.
  apply (help_exits_with_code_one posixHost (sampleFs cStateNotTailored true)
           {| fileReadable := true; fileWritable := true;
              fileContent := cStateNotTailored |}
           "node" "pkgtailor.js"); reflexivity.
Defined.



(** C10.  The state file is read before the command line is looked at:
    when it is missing or may not be read and written, every command line,
    [--help] and [--state] included, ends in the report of the access
    error, with exit code 0 and nothing else printed or changed. *)
Theorem state_file_is_read_first (h : Host) (f : FileSystem) (args : list string) :
  stateAccessible f = false ->
  run h f args =
    (0%Z,
     {| fs := f; argv := args; options := initialOptions;
        persistedTailoringState := None;
        events := [ ConsoleLog ("Error encountered: '" ++ message (notAccessible h) ++ "'");
                    ConsoleLog (nl ++ "Tailoring npm module: FAILED") ] |}).
Proof.
  intros A. unfold run, main, tryCatch, bind.
  rewrite (tryReadStateFile_fails h (initialState f args) A). reflexivity.
Qed.

Lemma state_file_is_read_first_witness :
  run posixHost {| stateFile := None; nestedModule := None;
                   siblingModule := Some (sampleModule true) |}
      ["node"; "pkgtailor.js"; "--help"] =
    (0%Z,
     {| fs := {| stateFile := None; nestedModule := None;
                 siblingModule := Some (sampleModule true) |};
        argv := ["node"; "pkgtailor.js"; "--help"];
        options := initialOptions;
        persistedTailoringState := None;
        events := [ ConsoleLog ("Error encountered: '" ++ message (notAccessible posixHost) ++ "'");
                    ConsoleLog (nl ++ "Tailoring npm module: FAILED") ] |}).
Proof.
  apply (state_file_is_read_first posixHost
           {| stateFile := None; nestedModule := None;
              siblingModule := Some (sampleModule true) |}
           ["node"; "pkgtailor.js"; "--help"]).
  reflexivity.
Defined.

(* ====================================================================== *)
(** * Further properties *)

(** ** The command line, flag by flag *)

Module CommandLineFacts.

Import StepFacts StateFileFacts ParseFacts DispatchFacts EngineFacts InvocationFacts.

Lemma printHelpAndExit_exits (code : option Z) (st : State) :
  exists st',
    printHelpAndExit code st =
      (Exited (match code with
               | None => 1%Z
               | Some c => if (c =? 0)%Z then 1%Z else c
               end), st') /\
    fs st' = fs st /\
    events st' = events st ++ map ConsoleLog helpLines.
Proof.
  unfold printHelpAndExit, bind, console_log, modify, process_exit. simpl.
  eexists. split; [reflexivity|]. split; [reflexivity|].
  simpl. rewrite <- !app_assoc. reflexivity.
Qed.

Lemma printTailoringStatusAndExit_exits (st : State) (v : string) :
  persistedTailoringState st = Some v ->
  printTailoringStatusAndExit st =
    (Exited 0%Z, emit (ConsoleLog (statusLine v)) st).
Proof.
  intros P. unfold printTailoringStatusAndExit, bind, gets, console_log, modify, process_exit.
  cbv beta iota. rewrite P. reflexivity.
Qed.

(** A flag that is not a run flag ends the process. *)
Lemma processOption_other (a : string) (st : State) (v : string) :
  isRunFlag a = false ->
  persistedTailoringState st = Some v ->
  exists st',
    processOption a st = (Exited (exitCodeOf a), st') /\
    fs st' = fs st /\
    events st' = events st ++ map ConsoleLog (exitLines a v).
Proof.
  unfold isRunFlag. intros F P.
  apply orb_false_iff in F as [F F6]. apply orb_false_iff in F as [Fd F4].
  unfold processOption, lookupOption, exitLines, exitCodeOf, cCmdLineOptionsDef.
  cbn [find optionName handler].
  rewrite (String.eqb_sym "--dryRun" a), Fd.
  rewrite (String.eqb_sym "--AwsLambdaV4" a), F4.
  rewrite (String.eqb_sym "--AwsLambdaV6" a), F6.
  rewrite (String.eqb_sym "--help" a), (String.eqb_sym "--state" a).
  destruct (a =? "--help") eqn:Eh.
  - apply String.eqb_eq in Eh. subst a. cbn [handler runHandler].
    apply (printHelpAndExit_exits (Some 0%Z) st).
  - destruct (a =? "--state") eqn:Es.
    + cbn [handler runHandler]. rewrite (printTailoringStatusAndExit_exits st v P).
      eexists. split; [reflexivity|]. split; reflexivity.
    + unfold bind, console_log, modify. cbv beta iota.
      destruct (printHelpAndExit_exits None
                  (emit (ConsoleLog ("unknown command line option '" ++ a ++ "'")) st))
        as (st' & E & Hfs & Hev).
      exists st'. split; [exact E|]. split; [exact Hfs|].
      rewrite Hev. simpl. now rewrite <- app_assoc.
Qed.

(** The flags are handled in order up to the first one that is not a run
    flag. *)
Lemma forEach_processOption (l : list string) :
  forall (st : State) (v : string),
    persistedTailoringState st = Some v ->
    match firstOther l with
    | None =>
        exists st',
          forEach processOption l st = (Normal tt, st') /\
          fs st' = fs st /\
          persistedTailoringState st' = Some v /\
          events st' = events st /\
          options st' = fold_left applyFlag l (options st)
    | Some a =>
        exists st',
          forEach processOption l st = (Exited (exitCodeOf a), st') /\
          fs st' = fs st /\
          events st' = events st ++ map ConsoleLog (exitLines a v)
    end.
Proof.
  induction l as [|a l IH]; intros st v P; simpl.
  - exists st. repeat split; auto.
  - destruct (isRunFlag a) eqn:F.
    + specialize (IH (setOptions (applyFlag (options st) a) st) v P).
      unfold bind. rewrite (processOption_flag a st F).
      destruct (firstOther l) as [b|]; exact IH.
    + destruct (processOption_other a st v F P) as (st' & E & Hfs & Hev).
      exists st'. unfold bind. rewrite E. repeat split; assumption.
Qed.

Lemma parseOptions_flags (st : State) (v : string) :
  persistedTailoringState st = Some v ->
  match firstOther (flagsOf (argv st)) with
  | None =>
      exists st',
        parseOptions st = (Normal tt, st') /\
        fs st' = fs st /\
        persistedTailoringState st' = Some v /\
        events st' = events st /\
        options st' = fold_left applyFlag (flagsOf (argv st)) (options st)
  | Some a =>
      exists st',
        parseOptions st = (Exited (exitCodeOf a), st') /\
        fs st' = fs st /\
        events st' = events st ++ map ConsoleLog (exitLines a v)
  end.
Proof.
  intros P. unfold parseOptions, flagsOf, bind, gets, modify, ret. cbv beta iota.
  destruct (length (argv st) <? 3)%nat; cbv beta iota; cbn [argv setArgv].
  - apply (forEach_processOption (skipn 2 (argv st ++ ["--help"]))
             (setArgv (argv st ++ ["--help"]) st) v P).
  - apply (forEach_processOption (skipn 2 (argv st)) st v P).
Qed.

Section Run.

Variable h : Host.

(** An invocation with the state file in place, up to the end of
    [parseOptions]. *)
Lemma main_after_parse (f : FileSystem) (args : list string) (r : RegularFile) :
  stateFile f = Some r -> fileReadable r = true -> fileWritable r = true ->
  match firstOther (flagsOf args) with
  | None =>
      exists st1,
        main h (initialState f args) =
          tryCatch (dispatchState h) (fun e => printResult (Some e)) st1 /\
        fs st1 = f /\ events st1 = [] /\
        persistedTailoringState st1 = Some (fileContent r) /\
        options st1 = fold_left applyFlag (flagsOf args) initialOptions
  | Some a =>
      exists st',
        main h (initialState f args) = (Exited (exitCodeOf a), st') /\
        fs st' = f /\
        events st' = map ConsoleLog (exitLines a (fileContent r))
  end.
Proof.
  intros S R W.
  pose proof (parseOptions_flags
                (setPersistedTailoringState (fileContent r) (initialState f args))
                (fileContent r) eq_refl) as P.
  cbn [argv setPersistedTailoringState initialState] in P.
  unfold main, tryCatch, bind.
  rewrite (tryReadStateFile_ok h (initialState f args) r S R W).
  unfold modify.
  destruct (firstOther (flagsOf args)) as [a|].
  - destruct P as (st' & E & Hfs & Hev). exists st'. rewrite E.
    split; [reflexivity|]. split; [exact Hfs|]. exact Hev.
  - destruct P as (st1 & E & Hfs & Hp & Hev & Ho). exists st1. rewrite E.
    split; [reflexivity|]. repeat split; assumption.
Qed.

Lemma dispatchState_never_exits (st st' : State) (c : Completion unit) (r : RegularFile) :
  stateFile (fs st) = Some r -> fileWritable r = true ->
  dispatchState h st = (c, st') ->
  forall code, c <> Exited code.
Proof.
  intros S W H code. unfold dispatchState in H.
  step H as v s0 H0; try discriminate. injection H0 as <- <-.
  destruct (indexOf cStates (persistedTailoringState st) <? 0)%Z;
    [injection H as <- <-; discriminate|].
  destruct (strictEquals (persistedTailoringState st) cStateUndefined);
    [injection H as <- <-; discriminate|].
  destruct (negb (strictEquals (persistedTailoringState st) cStateNotTailored)).
  - assert (N : forall s s' (c' : Completion string),
               environmentName s = (c', s') -> forall k, c' <> Exited k).
    { intros s s' c' E k. unfold environmentName, bind, gets in E. cbv beta iota in E.
      destruct (environment (options s)); injection E as <- <-; discriminate. }
    step H as req s1 H1; [| discriminate | destruct (N _ _ _ H1 code0 eq_refl)].
    destruct (strictEquals (persistedTailoringState st) req);
      [injection H as <- <-; discriminate|].
    step H as u1 s2 H2; try discriminate.
    step H as req' s3 H3; [| discriminate | destruct (N _ _ _ H3 code0 eq_refl)].
    injection H as <- <-. discriminate.
  - step H as u s1 H1.
    + destruct (printResult_returns None s1) as (s2 & E & _).
      rewrite E in H. injection H as <- <-. discriminate.
    + discriminate.
    + destruct (tailorModule_never_exits h st st' (Exited code0) r S W H1 code0 eq_refl).
Qed.

End Run.

Lemma firstOther_None (l : list string) :
  firstOther l = None -> forallb isRunFlag l = true.
Proof.
  induction l as [|a l IH]; cbn [firstOther forallb]; [reflexivity|].
  destruct (isRunFlag a); [exact IH | discriminate].
Qed.

(** A command line with a flag and nothing but run flags reaches the
    dispatch. *)
Lemma flagsOf_engineArgs (args : list string) :
  skipn 2 args <> [] ->
  firstOther (flagsOf args) = None -> engineArgs args = true.
Proof.
  unfold flagsOf, engineArgs.
  destruct args as [|a [|b [|c l]]]; intros N; try (now destruct N).
  apply firstOther_None.
Qed.

End CommandLineFacts.

(** ** The words of the two patterns *)

Module PatternFacts.

Import RegexFacts PredicateFacts.

Lemma Matches_Star_class (k : class) (r : re) (s : string) :
  Matches r s -> r = Star (Cls k) ->
  forallb (in_class k) (list_ascii_of_string s) = true.
Proof.
  induction 1 as [ | c | k' c Hk | r1 r2 s1 s2 H1 IH1 H2 IH2 | r1 r2 s H IH
                 | r1 r2 s H IH | r | r s1 s2 H1 IH1 H2 IH2 ];
    intros E; try discriminate.
  - reflexivity.
  - injection E as ->. apply Matches_Cls_inv in H1 as (c & -> & Hc). simpl.
    now rewrite Hc, (IH2 eq_refl).
Qed.

Lemma Matches_Plus_class_inv (k : class) (s : string) :
  Matches (Plus (Cls k)) s ->
  s <> EmptyString /\ forallb (in_class k) (list_ascii_of_string s) = true.
Proof.
  unfold Plus. intros H.
  apply Matches_Cat_inv in H as (s1 & s2 & -> & H1 & H2).
  apply Matches_Cls_inv in H1 as (c & -> & Hc).
  split; [discriminate|]. simpl. rewrite Hc.
  exact (Matches_Star_class k _ _ H2 eq_refl).
Qed.

(** The words of the 32-bit path pattern: [/lib/] or [/linux-x86-32/] and
    a file name. *)
Lemma c32BitPathPattern_words (s : string) :
  Matches c32BitPathPattern s <->
  exists nm, isFileName nm = true /\
             (s = ("/lib/" ++ nm)%string \/ s = ("/linux-x86-32/" ++ nm)%string).
Proof.
  split.
  - unfold c32BitPathPattern. intros H.
    apply Matches_Cat_inv in H as (s1 & s2 & -> & H1 & H2).
    apply Matches_Cat_inv in H2 as (t1 & nm & -> & H2 & H3).
    apply Matches_Chr_inv in H2 as ->.
    apply Matches_Plus_class_inv in H3 as [Ne Ns].
    exists nm. split.
    + unfold isFileName. apply andb_true_iff. split.
      * destruct nm; [congruence | reflexivity].
      * rewrite (forallb_pointwise _ _
                   (in_class (Class true [("/"%char, "/"%char)])) _
                   (fun c => eq_sym (in_class_other "/" c))).
        exact Ns.
    + apply Matches_Alt_inv in H1 as [H1 | H1]; apply Matches_Lit in H1 as ->; auto.
  - intros (nm & N & [-> | ->]);
      [now apply c32BitPathPattern_lib | now apply c32BitPathPattern_linux32].
Qed.

Lemma in_class_digits (c : ascii) :
  in_class (Class false [("0"%char, "9"%char)]) c = isDigit c.
Proof. unfold in_class, in_range, isDigit. simpl. now rewrite orb_false_r. Qed.

(** A string has one split at its last slash. *)
Lemma split_at_last_slash (a b n m : string) :
  forallb (fun c => negb (Ascii.eqb c "/")) (list_ascii_of_string n) = true ->
  forallb (fun c => negb (Ascii.eqb c "/")) (list_ascii_of_string m) = true ->
  (a ++ String "/" n)%string = (b ++ String "/" m)%string ->
  a = b /\ n = m.
Proof.
  intros Hn Hm.
  assert (Slash : forall x y,
             forallb (fun c => negb (Ascii.eqb c "/"))
                     (list_ascii_of_string (x ++ String "/" y)) = false).
  { induction x as [|c x IH]; intros y; simpl; [reflexivity|].
    rewrite IH. apply andb_false_r. }
  revert b. induction a as [|c a IH]; intros [|c' b] E; simpl in E.
  - injection E as ->. now split.
  - injection E as <- ->. now rewrite Slash in Hn.
  - injection E as -> <-. now rewrite Slash in Hm.
  - injection E as -> E. destruct (IH b E) as [-> ->]. now split.
Qed.

Lemma append_assoc (a b c : string) :
  ((a ++ b) ++ c)%string = (a ++ (b ++ c))%string.
Proof. induction a as [|x a IH]; simpl; [reflexivity | now rewrite IH]. Qed.

Lemma bool_eq_iff (a b : bool) : (a = true <-> b = true) -> a = b.
Proof.
  destruct a, b; intros [H1 H2]; try reflexivity.
  - symmetry. now apply H1.
  - now apply H2.
Qed.

Lemma test_to_end_iff (r : re) (s : string) :
  test_to_end r s = true <->
  exists pre suf, s = (pre ++ suf)%string /\ Matches r suf.
Proof.
  split; [apply test_to_end_elim|].
  intros (pre & suf & -> & M). now apply test_to_end_intro.
Qed.

End PatternFacts.

(** ** The paths of the script *)

Module PathFacts.

Import PredicateFacts PatternFacts.

Lemma join_joinSegments (p : Platform) (parts : list string) :
  Path.join p parts =
  joinSegments p (flat_map (Path.segments p) (filter (fun a => negb (a =? "")) parts)).
Proof. reflexivity. Qed.

Lemma resolve_app (b : bool) (l1 l2 : list string) :
  forall stack,
    Path.resolve b stack (l1 ++ l2) =
    Path.resolve b (rev (Path.resolve b stack l1)) l2.
Proof.
  induction l1 as [|seg l1 IH]; intros stack; cbn [app Path.resolve].
  - now rewrite rev_involutive.
  - destruct ((seg =? "") || (seg =? ".")); [apply IH|].
    destruct (seg =? ".."); [|apply IH].
    destruct stack as [|top below]; [destruct b; apply IH|].
    destruct (top =? ".."); apply IH.
Qed.

Lemma resolve_up (b : bool) (stack l : list string) :
  Path.resolve b stack (".."%string :: l) = Path.resolve b (upOne b stack) l.
Proof.
  cbn [Path.resolve]. change ((".." =? "") || (".." =? "."))%string with false.
  change (".." =? "..")%string with true. cbv iota. unfold upOne.
  destruct stack as [|top below]; [now destruct b|]. now destruct (top =? "..").
Qed.

Lemma joinedLength_app (a b : list string) :
  joinedLength (a ++ b) = joinedLength a + joinedLength b.
Proof. unfold joinedLength. now rewrite map_app, list_sum_app. Qed.

Lemma joinedLength_rev (l : list string) : joinedLength (rev l) = joinedLength l.
Proof.
  induction l as [|x l IH]; [reflexivity|].
  cbn [rev]. rewrite joinedLength_app, IH. unfold joinedLength. simpl. lia.
Qed.

Lemma length_concat (sep : string) (l : list string) :
  String.length sep = 1 -> l <> [] ->
  S (String.length (String.concat sep l)) = joinedLength l.
Proof.
  intros Hs. induction l as [|x l IH]; [congruence|]. intros _.
  destruct l as [|y l].
  - unfold joinedLength. simpl. lia.
  - change (String.concat sep (x :: y :: l))
      with (x ++ sep ++ String.concat sep (y :: l))%string.
    rewrite !length_append, Hs.
    change (joinedLength (x :: y :: l))
      with (S (String.length x) + joinedLength (y :: l)).
    rewrite <- IH by discriminate. lia.
Qed.

Lemma upOne_length (b : bool) (stack : list string) :
  joinedLength (upOne b stack) <= joinedLength stack + 3.
Proof.
  unfold upOne. destruct stack as [|top below].
  - destruct b; unfold joinedLength; simpl; lia.
  - destruct (top =? ".."); unfold joinedLength; simpl; lia.
Qed.

Lemma length_toLowerCase (s : string) : String.length (toLowerCase s) = String.length s.
Proof. induction s as [|c s IH]; simpl; [reflexivity | now rewrite IH]. Qed.

Lemma length_replaceBackslashes (s : string) :
  String.length (replaceBackslashes s) = String.length s.
Proof. induction s as [|c s IH]; simpl; [reflexivity | now rewrite IH]. Qed.

Lemma length_normalizeWin32 (s : string) :
  String.length (normalizeWin32 s) = String.length s.
Proof. unfold normalizeWin32. now rewrite length_toLowerCase, length_replaceBackslashes. Qed.

Lemma normalizeWin32_app (a b : string) :
  normalizeWin32 (a ++ b) = (normalizeWin32 a ++ normalizeWin32 b)%string.
Proof.
  unfold normalizeWin32. induction a as [|c a IH]; simpl; [reflexivity | now rewrite IH].
Qed.

(** Two strings with different last characters. *)
Lemma last_character (a b : string) (c d : ascii) :
  (a ++ String c "")%string = (b ++ String d "")%string -> c = d.
Proof.
  revert b. induction a as [|x a IH]; intros [|y b] E; simpl in E.
  - now injection E.
  - injection E as _ E. destruct b; discriminate.
  - injection E as _ E. destruct a; discriminate.
  - injection E as _ E. now apply (IH b).
Qed.

(** Two paths that differ in length, or in their last character, are not
    the same path on any platform. *)
Lemma samePath_lengths (p : Platform) (a b : string) :
  String.length a <> String.length b -> samePath p a b = false.
Proof.
  intros N. destruct p; simpl; apply String.eqb_neq; intros E; apply N.
  - now rewrite E.
  - rewrite <- (length_normalizeWin32 a), <- (length_normalizeWin32 b). now rewrite E.
Qed.

Lemma samePath_last (p : Platform) (a b : string) (c d : ascii) :
  toLowerCaseChar (if Ascii.eqb c "\" then "/"%char else c) <>
  toLowerCaseChar (if Ascii.eqb d "\" then "/"%char else d) ->
  c <> d ->
  samePath p (a ++ String c "") (b ++ String d "") = false.
Proof.
  intros Nn N. destruct p; simpl; apply String.eqb_neq; intros E.
  - now apply last_character in E.
  - rewrite !normalizeWin32_app in E. unfold normalizeWin32 at 2 4 in E. simpl in E.
    now apply last_character in E.
Qed.

Lemma concat_snoc (sep n : string) (l : list string) :
  exists X, String.concat sep (l ++ [n]) = (X ++ n)%string.
Proof.
  exists (match l with
          | [] => EmptyString
          | _ => (String.concat sep l ++ sep)%string
          end).
  induction l as [|x l IH]; [reflexivity|].
  destruct l as [|y l].
  - simpl. now rewrite append_assoc.
  - change (String.concat sep ((x :: y :: l) ++ [n]))
      with (x ++ sep ++ String.concat sep ((y :: l) ++ [n]))%string.
    rewrite IH.
    change (String.concat sep (x :: y :: l))
      with (x ++ sep ++ String.concat sep (y :: l))%string.
    now rewrite !append_assoc.
Qed.

(** A joined path is a prefix and the resolved segments; the prefix and
    the way [".."] is resolved depend on the first segments only. *)
Lemma joinSegments_shape (p : Platform) (D : list string) :
  exists (P : string) (b : bool) (D' : list string),
    forall tail,
      match tail with
      | t :: _ => (t =? "") = false /\ Path.isDrive t = false
      | [] => False
      end ->
      Path.resolve b [] (D' ++ tail) <> [] ->
      joinSegments p (D ++ tail) =
      (P ++ String.concat (Path.sep p) (Path.resolve b [] (D' ++ tail)))%string.
Proof.
  destruct D as [|first D1].
  - exists EmptyString, false, []. intros [|t tl] Ht Ne; [contradiction|].
    destruct Ht as [Ht Hd]. cbn [app] in *. unfold joinSegments. rewrite Ht, Hd.
    replace (match p with Win32 => false | Posix => false end) with false
      by now destruct p.
    destruct (Path.resolve false [] (t :: tl)); [congruence | reflexivity].
  - destruct (first =? "") eqn:E1.
    + exists (Path.sep p), true, D1. intros tail _ _.
      cbn [app]. unfold joinSegments. now rewrite E1.
    + destruct (match p with Win32 => Path.isDrive first | Posix => false end) eqn:E2.
      * exists (first ++ Path.sep p)%string, true, D1. intros tail _ _.
        cbn [app]. unfold joinSegments. rewrite E1, E2. now rewrite append_assoc.
      * exists EmptyString, false, (first :: D1). intros tail _ Ne.
        cbn [app] in *. unfold joinSegments. rewrite E1, E2.
        destruct (Path.resolve false [] (first :: D1 ++ tail)); [congruence | reflexivity].
Qed.

Section Host.

Variable h : Host.

Lemma cStateFileName_segments :
  cStateFileName h =
  joinSegments (platform h) (dirnameSegments h ++ ["pkgtailor-state"%string]).
Proof.
  unfold cStateFileName, dirnameSegments. rewrite join_joinSegments. cbn [filter].
  destruct (dirname h =? ""); cbn [negb flat_map app];
    destruct (platform h); now rewrite ?app_nil_r.
Qed.

Lemma nestedLocation_segments :
  nestedLocation h =
  joinSegments (platform h)
    (dirnameSegments h ++
     [".."; "node_modules"; "@dynatrace"; "oneagent-dependency"; "agent"]%string).
Proof.
  unfold nestedLocation, innerPath, dirnameSegments. rewrite join_joinSegments.
  cbn [filter].
  destruct (dirname h =? ""); destruct (platform h); cbn [negb]; reflexivity.
Qed.

Lemma siblingLocation_segments :
  siblingLocation h =
  joinSegments (platform h)
    (dirnameSegments h ++ [".."; ".."; "oneagent-dependency"; "agent"]%string).
Proof.
  unfold siblingLocation, innerPath, dirnameSegments. rewrite join_joinSegments.
  cbn [filter].
  destruct (dirname h =? ""); destruct (platform h); cbn [negb]; reflexivity.
Qed.

(** The three paths of the script, over one prefix and one stack of
    resolved segments of [__dirname]. *)
Lemma paths_shape :
  exists (P : string) (b : bool) (T : list string),
    cStateFileName h =
      (P ++ String.concat (Path.sep (platform h))
              (rev ("pkgtailor-state"%string :: T)))%string /\
    nestedLocation h =
      (P ++ String.concat (Path.sep (platform h))
              (rev ("agent" :: "oneagent-dependency" :: "@dynatrace" :: "node_modules"
                      :: upOne b T)%string))%string /\
    siblingLocation h =
      (P ++ String.concat (Path.sep (platform h))
              (rev ("agent" :: "oneagent-dependency" :: upOne b (upOne b T))%string))%string.
Proof.
  destruct (joinSegments_shape (platform h) (dirnameSegments h)) as (P & b & D' & J).
  exists P, b, (rev (Path.resolve b [] D')).
  assert (Ne : forall (l : list string) (x : string), rev (x :: l) <> []).
  { intros l x E. apply (f_equal (@length string)) in E.
    rewrite length_rev in E. discriminate. }
  rewrite cStateFileName_segments, nestedLocation_segments, siblingLocation_segments.
  split; [|split].
  - assert (R : Path.resolve b [] (D' ++ ["pkgtailor-state"%string]) =
                rev ("pkgtailor-state"%string :: rev (Path.resolve b [] D')))
      by (rewrite resolve_app; reflexivity).
    rewrite J; [now rewrite R | split; reflexivity | rewrite R; apply Ne].
  - assert (R : Path.resolve b []
                  (D' ++ [".."; "node_modules"; "@dynatrace"; "oneagent-dependency"; "agent"]%string) =
                rev ("agent" :: "oneagent-dependency" :: "@dynatrace" :: "node_modules"
                       :: upOne b (rev (Path.resolve b [] D')))%string)
      by (rewrite resolve_app, resolve_up; reflexivity).
    rewrite J; [now rewrite R | split; reflexivity | rewrite R; apply Ne].
  - assert (R : Path.resolve b []
                  (D' ++ [".."; ".."; "oneagent-dependency"; "agent"]%string) =
                rev ("agent" :: "oneagent-dependency"
                       :: upOne b (upOne b (rev (Path.resolve b [] D'))))%string)
      by (rewrite resolve_app, !resolve_up; reflexivity).
    rewrite J; [now rewrite R | split; reflexivity | rewrite R; apply Ne].
Qed.

Lemma sep_length : String.length (Path.sep (platform h)) = 1.
Proof. now destruct (platform h). Qed.

(** Neither module location is the state file. *)
Lemma locations_not_stateFile :
  samePath (platform h) (nestedLocation h) (cStateFileName h) = false /\
  samePath (platform h) (siblingLocation h) (cStateFileName h) = false.
Proof.
  destruct paths_shape as (P & b & T & -> & -> & ->).
  cbn [rev].
  destruct (concat_snoc (Path.sep (platform h)) "pkgtailor-state" (rev T)) as (X & ->).
  split.
  - rewrite <- app_assoc. cbn [app].
    destruct (concat_snoc (Path.sep (platform h)) "agent"
                (rev (upOne b T) ++ ["node_modules"; "@dynatrace"; "oneagent-dependency"]%string))
      as (Y & E).
    rewrite <- !app_assoc in E. cbn [app] in E. rewrite <- !app_assoc. cbn [app]. rewrite E.
    change (P ++ Y ++ "agent")%string with (P ++ Y ++ "agen" ++ "t")%string.
    change (P ++ X ++ "pkgtailor-state")%string
      with (P ++ X ++ "pkgtailor-stat" ++ "e")%string.
    rewrite <- !append_assoc. apply samePath_last; discriminate.
  - destruct (concat_snoc (Path.sep (platform h)) "agent"
                (rev (upOne b (upOne b T)) ++ ["oneagent-dependency"]%string))
      as (Y & E).
    rewrite <- !app_assoc in E. cbn [app] in E. rewrite <- !app_assoc. cbn [app]. rewrite E.
    change (P ++ Y ++ "agent")%string with (P ++ Y ++ "agen" ++ "t")%string.
    change (P ++ X ++ "pkgtailor-state")%string
      with (P ++ X ++ "pkgtailor-stat" ++ "e")%string.
    rewrite <- !append_assoc. apply samePath_last; discriminate.
Qed.

(** The two module locations are two paths. *)
Lemma siblingLocation_not_nestedLocation :
  samePath (platform h) (siblingLocation h) (nestedLocation h) = false.
Proof.
  destruct paths_shape as (P & b & T & _ & -> & ->).
  apply samePath_lengths. rewrite !length_append.
  assert (Ne : forall (l : list string) (x : string), rev (x :: l) <> []).
  { intros l x E. apply (f_equal (@length string)) in E.
    rewrite length_rev in E. discriminate. }
  pose proof (length_concat (Path.sep (platform h)) _ sep_length
                (Ne ("oneagent-dependency" :: upOne b (upOne b T))%string "agent"%string)) as L1.
  pose proof (length_concat (Path.sep (platform h)) _ sep_length
                (Ne ("oneagent-dependency" :: "@dynatrace" :: "node_modules" :: upOne b T)%string
                    "agent"%string)) as L2.
  rewrite joinedLength_rev in L1, L2.
  pose proof (upOne_length b (upOne b T)) as U.
  assert (C : forall x l, joinedLength (x :: l) = S (String.length x) + joinedLength l)
    by reflexivity.
  repeat rewrite C in L1. repeat rewrite C in L2.
  cbn [String.length] in L1, L2. lia.
Qed.

Lemma locations_not_empty :
  (nestedLocation h =? "") = false /\ (siblingLocation h =? "") = false.
Proof.
  destruct paths_shape as (P & b & T & _ & -> & ->). cbn [rev].
  destruct (concat_snoc (Path.sep (platform h)) "agent"
              (rev (upOne b T) ++ ["node_modules"; "@dynatrace"; "oneagent-dependency"]%string))
    as (Y & E).
  destruct (concat_snoc (Path.sep (platform h)) "agent"
              (rev (upOne b (upOne b T)) ++ ["oneagent-dependency"]%string))
    as (Z & E').
  rewrite <- !app_assoc in E, E'. cbn [app] in E, E'.
  rewrite <- !app_assoc. cbn [app]. rewrite E, E'.
  assert (N : forall A : string, ((A ++ "agent") =? "")%string = false).
  { intros A. apply String.eqb_neq. intros H0.
    apply (f_equal String.length) in H0. rewrite length_append in H0. simpl in H0. lia. }
  rewrite <- !append_assoc. now rewrite !N.
Qed.

End Host.

End PathFacts.

(** ** Where the dependency module is *)

Module LocateFacts.

Import StepFacts StateFileFacts PathFacts.

Section Host.

Variable h : Host.

Lemma lookupPath_nestedLocation (f : FileSystem) :
  lookupPath h f (nestedLocation h) =
  option_map (fun _ => (true, true)) (nestedModule f).
Proof.
  unfold lookupPath.
  destruct (locations_not_stateFile h) as [-> _]. now rewrite samePath_refl.
Qed.

Lemma lookupPath_siblingLocation (f : FileSystem) :
  lookupPath h f (siblingLocation h) =
  option_map (fun _ => (true, true)) (siblingModule f).
Proof.
  unfold lookupPath.
  destruct (locations_not_stateFile h) as [_ ->].
  now rewrite siblingLocation_not_nestedLocation, samePath_refl.
Qed.

Lemma firstAccessible_cons (loc : string) (rest : list string) (st : State) :
  firstAccessible h (loc :: rest) st =
  match lookupPath h (fs st) loc with
  | Some _ => (Normal (Some loc), st)
  | None => firstAccessible h rest st
  end.
Proof.
  cbn [firstAccessible]. unfold bind at 1, tryCatch, bind. rewrite accessSync_eq.
  destruct (lookupPath h (fs st) loc) as [[r w]|]; reflexivity.
Qed.

Lemma locateDependencyModule_eq (st : State) :
  locateDependencyModule h st =
  match nestedModule (fs st), siblingModule (fs st) with
  | Some _, _ => (Normal (nestedLocation h), st)
  | None, Some _ => (Normal (siblingLocation h), st)
  | None, None => (Thrown (Error "Could not locate 'oneagent-dependency' module"), st)
  end.
Proof.
  unfold locateDependencyModule, dependencyLocations, bind.
  rewrite firstAccessible_cons, lookupPath_nestedLocation.
  destruct (locations_not_empty h) as [N S].
  destruct (nestedModule (fs st)) as [n|]; cbn [option_map].
  - now rewrite N.
  - rewrite firstAccessible_cons, lookupPath_siblingLocation.
    destruct (siblingModule (fs st)) as [m|]; cbn [option_map firstAccessible];
      [now rewrite S | reflexivity].
Qed.

End Host.

End LocateFacts.

(** ** The scan of a folder *)

Module FolderFacts.

Import ScanFacts.

Lemma canonical_idem (p : Platform) (f : string) :
  canonical p (canonical p f) = canonical p f.
Proof. destruct p; simpl; [reflexivity | apply normalizeWin32_idem]. Qed.

Lemma rawPathsOf_Dir (p : Platform) (folder nm : string) (l : bool) (es : list Entry) :
  rawPathsOf p folder (Dir nm l es) = rawPaths p (Path.join p [folder; nm]) es.
Proof.
  cbn [rawPathsOf]. induction es as [|e es IH]; [reflexivity|].
  cbn [rawPaths]. now rewrite IH.
Qed.

Lemma scannable_Dir (nm : string) (l : bool) (es : list Entry) :
  scannable (Dir nm l es) = l && forallb scannable es.
Proof.
  reflexivity.
Qed.

Section Scan.

Variable h : Host.

Lemma normalizeFiles_canonical (files : list string) :
  normalizeFiles h files = map (canonical (platform h)) files.
Proof.
  unfold normalizeFiles, canonical. destruct (platform h); [|reflexivity].
  symmetry. apply map_id.
Qed.

Lemma scanEntry_Dir (folder nm : string) (l : bool) (es : list Entry) :
  scanEntry h folder (Dir nm l es) =
  if l then
    match scanEntries h (Path.join (platform h) [folder; nm]) es with
    | inl x => inl x
    | inr files => inr (normalizeFiles h files)
    end
  else inl (SystemError "EACCES" "scandir" (Path.join (platform h) [folder; nm])).
Proof.
  cbn [scanEntry]. destruct l; [|reflexivity].
  match goal with
  | |- match ?a with _ => _ end = match ?b with _ => _ end =>
      assert (E : a = b); [|now rewrite E]
  end.
  induction es as [|e es IH]; [reflexivity|].
  cbn [scanEntries]. now rewrite IH.
Qed.

(** The scan of one entry: it goes through exactly on the entries that are
    [scannable], and then gives the files below the entry, in their order. *)
Lemma scanEntry_result (e : Entry) :
  forall folder,
    if scannable e then
      exists files,
        scanEntry h folder e = inr files /\
        map (canonical (platform h)) files =
        map (canonical (platform h)) (rawPathsOf (platform h) folder e)
    else exists x, scanEntry h folder e = inl x.
Proof.
  induction e as [nm r w rm | nm listable es IH | nm | nm] using Entry_tree_ind;
    intros folder.
  - cbn [scannable scanEntry rawPathsOf]. eauto.
  - rewrite scannable_Dir, scanEntry_Dir, rawPathsOf_Dir.
    destruct listable; cbn [andb]; [|eauto].
    set (sub := Path.join (platform h) [folder; nm]).
    assert (L : if forallb scannable es then
                  exists files,
                    scanEntries h sub es = inr files /\
                    map (canonical (platform h)) files =
                    map (canonical (platform h)) (rawPaths (platform h) sub es)
                else exists x, scanEntries h sub es = inl x).
    { clear - IH. induction IH as [|e es He Hes IHes]; cbn [forallb scanEntries rawPaths].
      - exists []. split; reflexivity.
      - specialize (He sub). destruct (scannable e); cbn [andb].
        + destruct He as (fs1 & -> & M1).
          destruct (forallb scannable es).
          * destruct IHes as (fs2 & -> & M2). exists (fs1 ++ fs2).
            split; [reflexivity|]. now rewrite !map_app, M1, M2.
          * destruct IHes as (x & ->). eauto.
        + destruct He as (x & ->). eauto. }
    destruct (forallb scannable es).
    + destruct L as (files & -> & M). exists (normalizeFiles h files).
      split; [reflexivity|].
      rewrite normalizeFiles_canonical, map_map.
      rewrite <- M. apply map_ext. intros f. apply canonical_idem.
    + destruct L as (x & ->). eauto.
  - cbn [scannable scanEntry rawPathsOf]. eauto.
  - cbn [scannable scanEntry]. eauto.
Qed.

Lemma scanEntries_result (es : list Entry) (folder : string) :
  if forallb scannable es then
    exists files,
      scanEntries h folder es = inr files /\
      map (canonical (platform h)) files =
      map (canonical (platform h)) (rawPaths (platform h) folder es)
  else exists x, scanEntries h folder es = inl x.
Proof.
  induction es as [|e es IH]; cbn [forallb scanEntries rawPaths].
  - exists []. split; reflexivity.
  - pose proof (scanEntry_result e folder) as He.
    destruct (scannable e); cbn [andb].
    + destruct He as (fs1 & -> & M1).
      destruct (forallb scannable es).
      * destruct IH as (fs2 & -> & M2). exists (fs1 ++ fs2).
        split; [reflexivity|]. now rewrite !map_app, M1, M2.
      * destruct IH as (x & ->). eauto.
    + destruct He as (x & ->). eauto.
Qed.

End Scan.

End FolderFacts.

(** ** What a tailoring run prints *)

Module TraceFacts.

Lemma pair_of_fst (A B : Type) (p : A * B) (a : A) : fst p = a -> p = (a, snd p).
Proof. destruct p. cbn. intros ->. reflexivity. Qed.

Import StepFacts StateFileFacts EngineFacts LocateFacts.

Section Host.

Variable h : Host.

Lemma accessSync_fs (path : string) (mode : Z) (s st : State) :
  fs s = fs st ->
  accessSync h path mode s =
  (fst (accessSync h path mode st), s).
Proof.
  intros E. rewrite !accessSync_eq, E.
  destruct (lookupPath h (fs st) path) as [[r w]|]; [|reflexivity].
  destruct (implb (Z.testbit mode 2) r && implb (Z.testbit mode 1) w); reflexivity.
Qed.

Lemma scanFolder_fs (folder : string) (s st : State) :
  fs s = fs st ->
  scanFolder h folder s = (fst (scanFolder h folder st), s).
Proof.
  intros E. unfold scanFolder, readdirSync, bind, gets. cbv beta iota. rewrite E.
  match goal with
  | |- context [match ?root with Some _ => _ | None => _ end] =>
      destruct root as [[ | nm [] es | | ]|]
  end; try reflexivity.
  cbv beta iota. unfold ret. destruct (scanFolderEntries h folder es); reflexivity.
Qed.

(** The listing of a dry run: one line for each candidate whose access
    check passes, up to the first one whose check throws. *)
Lemma listing_loop_exact (l : list string) :
  forall st0 st st' c,
    fs st = fs st0 ->
    forEach (fun fn => accessSync h fn readWriteAccess ;; console_log ("  " ++ fn)) l st
      = (c, st') ->
    exists listed rest,
      l = listed ++ rest /\
      fs st' = fs st0 /\
      events st' = events st ++ map (fun fn => ConsoleLog ("  " ++ fn)) listed /\
      Forall (fun fn => fst (accessSync h fn readWriteAccess st0) = Normal tt) listed /\
      match rest with
      | [] => c = Normal tt
      | fn :: _ =>
          exists e, c = Thrown e /\
                    fst (accessSync h fn readWriteAccess st0) = Thrown e
      end.
Proof.
  induction l as [|fn l IH]; intros st0 st st' c F H.
  - cbn [forEach] in H. injection H as <- <-. exists [], [].
    cbn [app map]. rewrite app_nil_r. repeat split; auto.
  - cbn [forEach] in H. unfold bind at 1 2 in H.
    rewrite (accessSync_fs fn readWriteAccess st st0 F) in H.
    destruct (fst (accessSync h fn readWriteAccess st0)) as [[] | e | code] eqn:A.
    + unfold console_log, modify in H.
      destruct (IH st0 (emit (ConsoleLog ("  " ++ fn)) st) st' c F H)
        as (listed & rest & -> & Hfs & Hev & Hok & Hc).
      exists (fn :: listed), rest. split; [reflexivity|]. split; [exact Hfs|].
      split; [|split; [constructor; [exact A | exact Hok] | exact Hc]].
      rewrite Hev. cbn [events emit map]. now rewrite <- app_assoc.
    + injection H as <- <-. exists [], (fn :: l).
      cbn [app map]. rewrite app_nil_r. repeat split; eauto.
    + exfalso. destruct (accessSync h fn readWriteAccess st0) as [c0 s0] eqn:A0.
      cbn [fst] in A. subst c0.
      apply accessSync_readonly in A0 as [_ [C | [e C]]]; discriminate.
Qed.

(** A dry run with the module located and scanned. *)
Lemma tailorModule_dry_exact
      (st st' : State) (c : Completion unit) (env : EnvDef)
      (loc : string) (allFiles : list string) :
  environment (options st) = Some env ->
  dryRun (options st) = true ->
  locateDependencyModule h st = (Normal loc, st) ->
  scanFolder h loc st = (Normal allFiles, st) ->
  tailorModule h st = (c, st') ->
  exists listed rest,
    filter (deleteFilePredicate env) allFiles = listed ++ rest /\
    fs st' = fs st /\
    events st' =
      events st ++
      [ ConsoleLog (nl ++ "Tailoring npm module for environment '" ++ name env ++ "'");
        ConsoleLog "Dry run - following files will be deleted from npm module" ] ++
      map (fun fn => ConsoleLog ("  " ++ fn)) listed ++
      match rest with
      | [] => [ConsoleLog EmptyString]
      | _ :: _ => []
      end /\
    Forall (fun fn => fst (accessSync h fn readWriteAccess st) = Normal tt) listed /\
    match rest with
    | [] => c = Normal tt
    | fn :: _ =>
        exists e, c = Thrown e /\
                  fst (accessSync h fn readWriteAccess st) = Thrown e
    end.
Proof.
  intros O D L Sc H. unfold tailorModule in H.
  step H as o s0 H0; try discriminate. injection H0 as <- <-.
  rewrite O in H.
  step H as loc' s1 H1; rewrite L in H1; try discriminate. injection H1 as <- <-.
  step H as files s2 H2; rewrite Sc in H2; try discriminate. injection H2 as <- <-.
  cbv zeta in H. rewrite D in H.
  step H as u1 s1 H1; try discriminate. injection H1 as <- <-.
  step H as u2 s2 H2; try discriminate. injection H2 as <- <-.
  step H as u3 s3 H3;
    apply (listing_loop_exact _ st) in H3 as (listed & rest & E & Hfs & Hev & Hok & Hc);
    try reflexivity;
    exists listed, rest; (split; [exact E|]).
  - injection H as <- <-. destruct rest as [|fn rest]; [|destruct Hc as (e & C & _); discriminate].
    split; [exact Hfs|]. split; [|split; [exact Hok | reflexivity]].
    cbn [events emit]. rewrite Hev. cbn [events emit]. now rewrite <- !app_assoc.
  - destruct rest as [|fn rest]; [discriminate|].
    split; [exact Hfs|]. split; [|split; [exact Hok | exact Hc]].
    rewrite Hev. cbn [events emit]. rewrite app_nil_r. now rewrite <- !app_assoc.
  - destruct rest as [|fn rest]; [discriminate | destruct Hc as (e & C & _); discriminate].
Qed.

End Host.

End TraceFacts.

(** ** What [tailorModule] leaves alone *)

Module FrameFacts.

Lemma keeps_ret (A : Type) (a : A) : keepsOptions (ret a).
Proof. intros st. reflexivity. Qed.

Lemma keeps_throw (A : Type) (e : Exn) : keepsOptions (@throw A e).
Proof. intros st. reflexivity. Qed.

Lemma keeps_gets (A : Type) (f : State -> A) : keepsOptions (gets f).
Proof. intros st. reflexivity. Qed.

Lemma keeps_emit (e : Event) : keepsOptions (modify (emit e)).
Proof. intros st. reflexivity. Qed.

Lemma keeps_setFs (f : FileSystem) : keepsOptions (modify (setFs f)).
Proof. intros st. reflexivity. Qed.

Lemma keeps_bind (A B : Type) (m : Js A) (k : A -> Js B) :
  keepsOptions m -> (forall a, keepsOptions (k a)) -> keepsOptions (bind m k).
Proof.
  intros Hm Hk st. unfold bind. specialize (Hm st).
  destruct (m st) as [[a | e | code] s']; cbn [snd] in *; [rewrite Hk|..]; exact Hm.
Qed.

Lemma keeps_tryCatch (A : Type) (m : Js A) (handler : Exn -> Js A) :
  keepsOptions m -> (forall e, keepsOptions (handler e)) -> keepsOptions (tryCatch m handler).
Proof.
  intros Hm Hk st. unfold tryCatch. specialize (Hm st).
  destruct (m st) as [[a | e | code] s']; cbn [snd] in *; [|rewrite Hk|]; exact Hm.
Qed.

Lemma keeps_forEach (A : Type) (f : A -> Js unit) (l : list A) :
  (forall a, keepsOptions (f a)) -> keepsOptions (forEach f l).
Proof.
  intros Hf. induction l as [|a l IH]; cbn [forEach].
  - apply keeps_ret.
  - apply keeps_bind; [apply Hf | intros _; exact IH].
Qed.

Ltac keeps :=
  repeat first
    [ apply keeps_ret | apply keeps_throw | apply keeps_gets | apply keeps_emit
    | apply keeps_setFs | apply keeps_bind | apply keeps_tryCatch | apply keeps_forEach
    | match goal with
      | |- forall _, _ => intro
      | |- keepsOptions (match ?x with _ => _ end) => destruct x
      | |- keepsOptions (if ?x then _ else _) => destruct x
      end ].

Section Host.

Variable h : Host.

Lemma keeps_accessSync (path : string) (mode : Z) : keepsOptions (accessSync h path mode).
Proof. unfold accessSync. keeps. Qed.

Lemma keeps_writeFileSync (path data : string) : keepsOptions (writeFileSync h path data).
Proof. unfold writeFileSync. keeps. Qed.

Lemma keeps_unlinkSync (path : string) : keepsOptions (unlinkSync h path).
Proof. unfold unlinkSync. keeps. Qed.

Lemma keeps_scanFolder (folder : string) : keepsOptions (scanFolder h folder).
Proof. unfold scanFolder, readdirSync. cbv zeta. keeps. Qed.

Lemma keeps_firstAccessible (l : list string) : keepsOptions (firstAccessible h l).
Proof.
  induction l as [|loc l IH]; cbn [firstAccessible]; [apply keeps_ret|].
  apply keeps_bind.
  - apply keeps_tryCatch; [|intros e; apply keeps_ret].
    apply keeps_bind; [apply keeps_accessSync | intros _; apply keeps_ret].
  - intros [|]; [apply keeps_ret | exact IH].
Qed.

Lemma keeps_tailorModule : keepsOptions (tailorModule h).
Proof.
  unfold tailorModule. apply keeps_bind; [apply keeps_gets|]. intros o.
  destruct (environment o) as [env|]; [|apply keeps_throw].
  apply keeps_bind.
  { unfold locateDependencyModule. apply keeps_bind; [apply keeps_firstAccessible|]. keeps. }
  intros loc. apply keeps_bind; [apply keeps_scanFolder|]. intros allFiles. cbv zeta.
  apply keeps_bind; [apply keeps_emit|]. intros _.
  destruct (dryRun o).
  - apply keeps_bind; [apply keeps_emit|]. intros _.
    apply keeps_bind; [|intros _; apply keeps_emit].
    apply keeps_forEach. intros fn.
    apply keeps_bind; [apply keeps_accessSync | intros _; apply keeps_emit].
  - unfold writeStateFile.
    apply keeps_bind; [apply keeps_writeFileSync|]. intros _.
    apply keeps_bind; [|intros _; apply keeps_writeFileSync].
    apply keeps_forEach. intros fn.
    apply keeps_bind; [apply keeps_emit | intros _; apply keeps_unlinkSync].
Qed.

End Host.

End FrameFacts.

(* ====================================================================== *)
(** * Further properties of the script *)

Import RegexFacts PredicateFacts ScanFacts StepFacts StateFileFacts ParseFacts
       DispatchFacts EngineFacts InvocationFacts CommandLineFacts PatternFacts
       PathFacts LocateFacts FolderFacts TraceFacts FrameFacts.

(** X1.  The exit code of every invocation.  When the state file is
    missing or may not be read and written the code is 0, whatever the
    command line.  Otherwise the first flag that is not one of [--dryRun],
    [--AwsLambdaV4] and [--AwsLambdaV6] decides: [--state] gives 0, every
    other such flag ([--help] among them) gives 1; a command line of such
    run flags only gives 0, whatever the dispatch does. *)
Theorem exit_code_of_every_invocation (h : Host) (f : FileSystem) (args : list string) :
  fst (run h f args) =
    if stateAccessible f then
      match firstOther (flagsOf args) with
      | Some a => exitCodeOf a
      | None => 0%Z
      end
    else 0%Z.
Proof.
  destruct (stateAccessible f) eqn:Acc.
  - destruct (stateAccessible_inv f Acc) as (r & S & R & W).
    pose proof (main_after_parse h f args r S R W) as M.
    unfold run. destruct (firstOther (flagsOf args)) as [a|].
    + destruct M as (st' & -> & _). reflexivity.
    + destruct M as (st1 & -> & Hfs & _). unfold tryCatch.
      destruct (dispatchState h st1) as [[[] | e | code] s1] eqn:D.
      * reflexivity.
      * destruct (printResult_returns (Some e) s1) as (s2 & -> & _). reflexivity.
      * rewrite <- Hfs in S.
        destruct (dispatchState_never_exits h st1 s1 (Exited code) r S W D code eq_refl).
  - unfold run, main, tryCatch, bind.
    rewrite (tryReadStateFile_fails h (initialState f args) Acc). reflexivity.
Qed.

(** X2.  The status query.  With the state file in place, a command line
    whose first flag other than the run flags is [--state] prints one
    line, the status of the token the file holds (the token itself unless
    it is [untailored]), exits with code 0 and changes nothing; the flags
    after [--state] are not looked at. *)
Theorem status_query_prints_the_state
  (h : Host) (f : FileSystem) (args : list string) (r : RegularFile) :
  stateFile f = Some r -> fileReadable r = true -> fileWritable r = true ->
  firstOther (flagsOf args) = Some "--state"%string ->
  exists st',
    run h f args = (0%Z, st') /\
    fs st' = f /\
    events st' = [ConsoleLog (statusLine (fileContent r))].
Proof.
  intros S R W F.
  pose proof (main_after_parse h f args r S R W) as M. rewrite F in M.
  destruct M as (st' & E & Hfs & Hev).
  exists st'. unfold run. rewrite E. repeat split; assumption.
Qed.

Lemma status_query_prints_the_state_witness :
  exists st',
    run posixHost (sampleFs cStateUndefined true)
        ["node"; "pkgtailor.js"; "--dryRun"; "--state"; "--no-such-flag"] = (0%Z, st') /\
    fs st' = sampleFs cStateUndefined true /\
    events st' =
      [ConsoleLog (statusLine (fileContent {| fileReadable := true; fileWritable := true;
                                              fileContent := cStateUndefined |}))].
Proof.
  apply (status_query_prints_the_state posixHost (sampleFs cStateUndefined true)
           ["node"; "pkgtailor.js"; "--dryRun"; "--state"; "--no-such-flag"]
           {| fileReadable := true; fileWritable := true;
              fileContent := cStateUndefined |}); reflexivity.
Defined.

(** X3.  Help and unknown flags.  With the state file in place, a command
    line whose first flag other than the run flags is not [--state] ends
    with exit code 1 after printing the help text, preceded by the line
    [unknown command line option '<flag>'] unless the flag is [--help];
    nothing is changed and the flags after it are not looked at.  A
    command line of two words counts as [--help]. *)
Theorem help_and_unknown_flags
  (h : Host) (f : FileSystem) (args : list string) (r : RegularFile) (a : string) :
  stateFile f = Some r -> fileReadable r = true -> fileWritable r = true ->
  firstOther (flagsOf args) = Some a ->
  a <> "--state"%string ->
  exists st',
    run h f args = (1%Z, st') /\
    fs st' = f /\
    events st' =
      map ConsoleLog
        ((if a =? "--help" then []
          else [("unknown command line option '" ++ a ++ "'")%string]) ++ helpLines).
Proof.
  intros S R W F N.
  pose proof (main_after_parse h f args r S R W) as M. rewrite F in M.
  destruct M as (st' & E & Hfs & Hev).
  assert (Ns : (a =? "--state") = false) by now apply String.eqb_neq.
  exists st'. unfold run. rewrite E. unfold exitCodeOf, exitLines in *. rewrite Ns in *.
  split; [reflexivity|]. split; [exact Hfs|].
  rewrite Hev. now destruct (a =? "--help").
Qed.

Lemma help_and_unknown_flags_witness :
  exists st',
    run posixHost (sampleFs cStateNotTailored true)
        ["node"; "pkgtailor.js"; "--AwsLambdaV4"; "--awslambdav6"; "--state"] = (1%Z, st') /\
    fs st' = sampleFs cStateNotTailored true /\
    events st' =
      map ConsoleLog
        ((if "--awslambdav6" =? "--help" then []
          else [("unknown command line option '" ++ "--awslambdav6" ++ "'")%string])
           ++ helpLines).
Proof.
  apply (help_and_unknown_flags posixHost (sampleFs cStateNotTailored true)
           ["node"; "pkgtailor.js"; "--AwsLambdaV4"; "--awslambdav6"; "--state"]
           {| fileReadable := true; fileWritable := true;
              fileContent := cStateNotTailored |}
           "--awslambdav6"); try reflexivity.
  discriminate.
Defined.

(** X4.  The environment of a command line.  On a command line of run
    flags [parseOptions] returns with [options.environment] set by the
    last environment flag, earlier ones being overwritten, and with
    [options.dryRun] set as soon as [--dryRun] occurs anywhere; it prints
    nothing and leaves the file system alone. *)
Theorem last_environment_flag_wins
  (st : State) (node script flag : string) (pre post : list string) (env : EnvDef) :
  argv st = node :: script :: pre ++ flag :: post ->
  forallb isRunFlag pre = true ->
  (flag = "--AwsLambdaV4"%string /\ env = cLambdaV4EnvDef) \/
  (flag = "--AwsLambdaV6"%string /\ env = cLambdaV6EnvDef) ->
  forallb (fun a => a =? "--dryRun") post = true ->
  exists st',
    parseOptions st = (Normal tt, st') /\
    environment (options st') = Some env /\
    dryRun (options st') =
      dryRun (options st) || existsb (String.eqb "--dryRun") (pre ++ post) /\
    fs st' = fs st /\ events st' = events st.
Proof.
  intros A Fpre Fl Fpost.
  assert (Dry : forall l o,
             dryRun (fold_left applyFlag l o) =
             dryRun o || existsb (String.eqb "--dryRun") l).
  { induction l as [|a l IH]; intros o; cbn [fold_left existsb];
      [now rewrite orb_false_r|].
    rewrite IH. unfold applyFlag. rewrite (String.eqb_sym "--dryRun" a).
    destruct (a =? "--dryRun"); cbn [dryRun orb]; [now rewrite orb_true_r|].
    destruct (a =? "--AwsLambdaV4"); [reflexivity|].
    destruct (a =? "--AwsLambdaV6"); reflexivity. }
  assert (Keep : forall l o,
             forallb (fun a => a =? "--dryRun") l = true ->
             environment (fold_left applyFlag l o) = environment o).
  { induction l as [|a l IH]; intros o F; simpl in *; [reflexivity|].
    apply andb_true_iff in F as [Fa Fl']. rewrite (IH _ Fl').
    unfold applyFlag. now rewrite Fa. }
  assert (Run : forallb isRunFlag post = true).
  { clear - Fpost. induction post as [|a l IH]; simpl in *; [reflexivity|].
    apply andb_true_iff in Fpost as [Fa Fl]. unfold isRunFlag at 1. rewrite Fa. simpl.
    now apply IH. }
  assert (Flag : isRunFlag flag = true /\
                 (flag =? "--dryRun") = false /\
                 forall o, environment (applyFlag o flag) = Some env /\
                           dryRun (applyFlag o flag) = dryRun o).
  { destruct Fl as [[-> ->] | [-> ->]]; repeat split. }
  destruct Flag as (Frun & Fnd & Fenv).
  assert (E : engineArgs (argv st) = true).
  { unfold engineArgs. rewrite A. apply andb_true_iff. split.
    - apply Nat.leb_le. cbn [length]. rewrite length_app. cbn [length]. lia.
    - cbn [skipn]. rewrite forallb_app, Fpre. cbn [forallb andb].
      now rewrite Frun, Run. }
  destruct (parseOptions_engine st E) as (st' & P & Hfs & _ & Hev & Ho).
  exists st'. split; [exact P|].
  rewrite A in Ho. cbn [skipn] in Ho. rewrite fold_left_app in Ho. simpl in Ho.
  rewrite Ho. split; [|split; [|split; assumption]].
  - rewrite (Keep post _ Fpost). apply Fenv.
  - rewrite Dry. destruct (Fenv (fold_left applyFlag pre (options st))) as [_ ->].
    rewrite Dry, existsb_app. now rewrite orb_assoc.
Qed.

Lemma last_environment_flag_wins_witness :
  exists st',
    parseOptions (setArgv ["node"; "pkgtailor.js"; "--AwsLambdaV4"; "--AwsLambdaV6"; "--dryRun"]
                          (sampleState true false)) = (Normal tt, st') /\
    environment (options st') = Some cLambdaV6EnvDef /\
    dryRun (options st') =
      dryRun (options (setArgv ["node"; "pkgtailor.js"; "--AwsLambdaV4"; "--AwsLambdaV6"; "--dryRun"]
                               (sampleState true false)))
      || existsb (String.eqb "--dryRun") (["--AwsLambdaV4"%string] ++ ["--dryRun"%string]) /\
    fs st' = fs (setArgv ["node"; "pkgtailor.js"; "--AwsLambdaV4"; "--AwsLambdaV6"; "--dryRun"]
                         (sampleState true false)) /\
    events st' = events (setArgv ["node"; "pkgtailor.js"; "--AwsLambdaV4"; "--AwsLambdaV6"; "--dryRun"]
                                 (sampleState true false)).
Proof.
  apply (last_environment_flag_wins
           (setArgv ["node"; "pkgtailor.js"; "--AwsLambdaV4"; "--AwsLambdaV6"; "--dryRun"]
                    (sampleState true false))
           "node" "pkgtailor.js" "--AwsLambdaV6" ["--AwsLambdaV4"%string] ["--dryRun"%string]
           cLambdaV6EnvDef).
  - reflexivity.
  - reflexivity.
  - right. split; reflexivity.
  - reflexivity.
Defined.

(** X5.  [lookupOption] finds an option under its exact name and nothing
    else: the result is an entry of the table whose name is the argument,
    and every entry of the table is found under its own name, so no entry
    hides another. *)
Theorem lookupOption_finds_exact_names (opt : string) (def : CmdLineDef) :
  lookupOption opt = Some def <-> In def cCmdLineOptionsDef /\ optionName def = opt.
Proof.
  unfold lookupOption. split.
  - intros H. apply find_some in H as [I E]. apply String.eqb_eq in E. now split.
  - intros [I <-]. unfold cCmdLineOptionsDef in *.
    repeat (destruct I as [<- | I]; [reflexivity|]). destruct I.
Qed.

(** X6.  What [writeStateFile] stores, [tryReadStateFile] reads back.
    After a write that returns, on a state file that was missing or
    readable before, the read returns the written state; the write has
    not touched the module folders. *)
Theorem state_file_round_trip (h : Host) (st st1 : State) (v : string) :
  writeStateFile h v st = (Normal tt, st1) ->
  (forall r, stateFile (fs st) = Some r -> fileReadable r = true) ->
  tryReadStateFile h st1 = (Normal v, st1) /\
  nestedModule (fs st1) = nestedModule (fs st) /\
  siblingModule (fs st1) = siblingModule (fs st).
Proof.
  intros H Rd.
  unfold writeStateFile, writeFileSync, bind, gets, modify, throw in H. cbv beta iota in H.
  rewrite samePath_refl in H.
  destruct (stateFile (fs st)) as [r|] eqn:S.
  - destruct (fileWritable r); [|discriminate].
    injection H as <-. split; [|split; reflexivity].
    apply (tryReadStateFile_ok h _
             {| fileReadable := fileReadable r; fileWritable := true; fileContent := v |});
      [reflexivity | exact (Rd r eq_refl) | reflexivity].
  - injection H as <-. split; [|split; reflexivity].
    apply (tryReadStateFile_ok h _
             {| fileReadable := true; fileWritable := true; fileContent := v |});
      reflexivity.
Qed.

Lemma state_file_round_trip_witness :
  tryReadStateFile posixHost (snd (writeStateFile posixHost cStateUndefined (sampleState true false)))
    = (Normal cStateUndefined,
       snd (writeStateFile posixHost cStateUndefined (sampleState true false))) /\
  nestedModule (fs (snd (writeStateFile posixHost cStateUndefined (sampleState true false))))
    = nestedModule (fs (sampleState true false)) /\
  siblingModule (fs (snd (writeStateFile posixHost cStateUndefined (sampleState true false))))
    = siblingModule (fs (sampleState true false)).
Proof.
  apply (state_file_round_trip posixHost (sampleState true false)
           (snd (writeStateFile posixHost cStateUndefined (sampleState true false)))
           cStateUndefined).
  - reflexivity.
  - intros r E. injection E as <-. reflexivity.
Defined.

(** X7.  What a deletion predicate selects.  A predicate is true on a path
    exactly when the path ends in [_] followed by two characters and
    [.node], the two characters being [4] and anything but the kept digit,
    or anything but [4] and a decimal digit; or when the path ends in
    [/lib/<name>] or [/linux-x86-32/<name>] with a file name.  The kept
    digit is 6 in the first environment and 8 in the second. *)
Theorem deletion_predicate_characterized (env : EnvDef) (K : ascii) (fn : string) :
  (env = cLambdaV4EnvDef /\ K = "6"%char) \/ (env = cLambdaV6EnvDef /\ K = "8"%char) ->
  (deleteFilePredicate env fn = true <->
   (exists pre c1 c2,
       fn = (pre ++ String "_" (String c1 (String c2 ".node")))%string /\
       ((c1 = "4"%char /\ c2 <> K) \/ (c1 <> "4"%char /\ isDigit c2 = true))) \/
   (exists pre nm,
       isFileName nm = true /\
       (fn = (pre ++ "/lib/" ++ nm)%string \/ fn = (pre ++ "/linux-x86-32/" ++ nm)%string))).
Proof.
  intros E.
  assert (P : deleteFilePredicate env fn =
              test_to_end (abiPattern K) fn || test_to_end c32BitPathPattern fn)
    by (destruct E as [[-> ->] | [-> ->]]; reflexivity).
  rewrite P, orb_true_iff, !test_to_end_iff. split.
  - intros [(pre & suf & -> & M) | (pre & suf & -> & M)].
    + left. apply abiPattern_words in M as (c1 & c2 & -> & C).
      exists pre, c1, c2. split; [reflexivity|]. now rewrite <- in_class_digits.
    + right. apply c32BitPathPattern_words in M as (nm & N & C).
      exists pre, nm. split; [exact N|]. destruct C as [-> | ->]; auto.
  - intros [(pre & c1 & c2 & -> & C) | (pre & nm & N & C)].
    + left. exists pre, (String "_" (String c1 (String c2 ".node"))).
      split; [reflexivity|]. apply abiPattern_words.
      exists c1, c2. split; [reflexivity|]. now rewrite in_class_digits.
    + right. destruct C as [-> | ->].
      * exists pre, ("/lib/" ++ nm)%string. split; [reflexivity|].
        now apply c32BitPathPattern_lib.
      * exists pre, ("/linux-x86-32/" ++ nm)%string. split; [reflexivity|].
        now apply c32BitPathPattern_linux32.
Qed.

(** The witness: the tag rule takes a letter after the [4]. *)
Lemma deletion_predicate_characterized_witness :
  deleteFilePredicate cLambdaV4EnvDef "addon_4x.node" = true.
Proof.
  apply (proj2 (deletion_predicate_characterized cLambdaV4EnvDef "6" "addon_4x.node"
                  (or_introl (conj eq_refl eq_refl)))).
  left. exists "addon"%string, "4"%char, "x"%char.
  split; [reflexivity|]. left. split; [reflexivity | discriminate].
Defined.

(** X8.  The two environments select the same files, those apart whose
    path ends in [_46.node] or [_48.node]. *)
Theorem environments_differ_on_kept_tags_only (fn : string) :
  deleteFilePredicate cLambdaV4EnvDef fn = deleteFilePredicate cLambdaV6EnvDef fn \/
  exists pre, fn = (pre ++ "_46.node")%string \/ fn = (pre ++ "_48.node")%string.
Proof.
  rewrite cLambdaV4EnvDef_predicate, cLambdaV6EnvDef_predicate.
  assert (Other : forall K K' : ascii,
             K <> K' ->
             test_to_end (abiPattern K) fn = true ->
             test_to_end (abiPattern K') fn = true \/
             exists pre, fn = (pre ++ String "_" (String "4" (String K' ".node")))%string).
  { intros K K' D T. apply test_to_end_iff in T as (pre & suf & -> & M).
    apply abiPattern_words in M as (c1 & c2 & -> & C).
    destruct (Ascii.eqb c1 "4") eqn:E1; [apply Ascii.eqb_eq in E1; subst c1|].
    - destruct (Ascii.eqb c2 K') eqn:E2; [apply Ascii.eqb_eq in E2; subst c2|].
      + right. now exists pre.
      + left. apply test_to_end_intro, abiPattern_words.
        exists "4"%char, c2. split; [reflexivity|]. left. split; [reflexivity|].
        intros ->. now rewrite Ascii.eqb_refl in E2.
    - left. apply test_to_end_intro, abiPattern_words.
      exists c1, c2. split; [reflexivity|]. right.
      destruct C as [[-> _] | C]; [now rewrite Ascii.eqb_refl in E1 | exact C]. }
  destruct (test_to_end (abiPattern "6") fn) eqn:T6;
    destruct (test_to_end (abiPattern "8") fn) eqn:T8; auto.
  - destruct (Other "6"%char "8"%char ltac:(discriminate) T6) as [T | (pre & ->)].
    + rewrite T in T8. discriminate.
    + right. exists pre. now right.
  - destruct (Other "8"%char "6"%char ltac:(discriminate) T8) as [T | (pre & ->)].
    + rewrite T in T6. discriminate.
    + right. exists pre. now left.
Qed.

(** X9.  The 32-bit path rule reads the folder that holds the file and
    nothing above it: on [<dir>/<name>] it fires exactly when [<dir>]
    ends in [/lib] or [/linux-x86-32].  A file in a folder below [lib] is
    not taken by this rule. *)
Theorem path_rule_reads_the_last_folder (dir nm : string) :
  isFileName nm = true ->
  (test_to_end c32BitPathPattern (dir ++ "/" ++ nm) = true <->
   exists pre, dir = (pre ++ "/lib")%string \/ dir = (pre ++ "/linux-x86-32")%string).
Proof.
  intros N. pose proof N as N'. unfold isFileName in N'.
  apply andb_true_iff in N' as [_ Ns].
  rewrite test_to_end_iff. split.
  - intros (pre & suf & E & M).
    apply c32BitPathPattern_words in M as (nm' & N' & C).
    unfold isFileName in N'. apply andb_true_iff in N' as [_ Ns'].
    exists pre. destruct C as [-> | ->]; [left | right].
    + change (pre ++ "/lib/" ++ nm')%string with (pre ++ ("/lib" ++ String "/" nm'))%string in E.
      rewrite <- (append_assoc pre "/lib" (String "/" nm')) in E.
      now destruct (split_at_last_slash _ _ _ _ Ns Ns' E).
    + change (pre ++ "/linux-x86-32/" ++ nm')%string
        with (pre ++ ("/linux-x86-32" ++ String "/" nm'))%string in E.
      rewrite <- (append_assoc pre "/linux-x86-32" (String "/" nm')) in E.
      now destruct (split_at_last_slash _ _ _ _ Ns Ns' E).
  - intros (pre & [-> | ->]).
    + exists pre, ("/lib/" ++ nm)%string. split.
      * now rewrite append_assoc.
      * now apply c32BitPathPattern_lib.
    + exists pre, ("/linux-x86-32/" ++ nm)%string. split.
      * now rewrite append_assoc.
      * now apply c32BitPathPattern_linux32.
Qed.

(** The witness: a file of the folder [/agent/lib]. *)
Lemma path_rule_reads_the_last_folder_witness :
  exists pre, "/agent/lib"%string = (pre ++ "/lib")%string \/
              "/agent/lib"%string = (pre ++ "/linux-x86-32")%string.
Proof.
  apply (proj1 (path_rule_reads_the_last_folder "/agent/lib" "addon_46.node" eq_refl)).
  vm_compute. reflexivity.
Defined.

(** X10.  What [scanFolder] returns for the entries of a folder.  When
    every directory below can be listed and [stat] answers for every
    entry, the result is the list of the regular files below the folder,
    each under the path that [path.join] builds from the folder name down,
    in the order of the listing with a directory's files in the place of
    the directory; directories and entries that are neither a file nor a
    directory are left out; on win32 each path is in lower case with
    forward slashes, elsewhere as joined.  In every other case the scan
    throws. *)
Theorem scan_lists_the_regular_files (h : Host) (folder : string) (es : list Entry) :
  if forallb scannable es then
    scanFolderEntries h folder es =
      inr (map (canonical (platform h)) (rawPaths (platform h) folder es))
  else exists x, scanFolderEntries h folder es = inl x.
Proof.
  unfold scanFolderEntries.
  pose proof (scanEntries_result h es folder) as R.
  destruct (forallb scannable es).
  - destruct R as (files & -> & M). now rewrite normalizeFiles_canonical, M.
  - destruct R as (x & ->). eauto.
Qed.

(** X11.  Where [locateDependencyModule] looks.  It returns the location
    below [node_modules] of the package whenever something is there, the
    location beside the package when only that one exists, and throws
    [Could not locate 'oneagent-dependency' module] when neither exists;
    it changes nothing.  This holds for every [__dirname]: the two
    locations and the state file are three different paths. *)
Theorem locate_prefers_the_nested_module (h : Host) (st : State) :
  locateDependencyModule h st =
  match nestedModule (fs st), siblingModule (fs st) with
  | Some _, _ => (Normal (nestedLocation h), st)
  | None, Some _ => (Normal (siblingLocation h), st)
  | None, None => (Thrown (Error "Could not locate 'oneagent-dependency' module"), st)
  end.
Proof. apply locateDependencyModule_eq. Qed.

(** X12.  No dependency module.  On the state NotTailored, with an
    environment requested and neither module location in place, the
    invocation prints [Error encountered: 'Could not locate
    'oneagent-dependency' module'] and the FAILED summary, exits with code
    0 and changes nothing: the state file still holds [untailored]. *)
Theorem missing_module_is_reported
  (h : Host) (f : FileSystem) (args : list string) (r : RegularFile) (env : EnvDef) :
  stateFile f = Some r -> fileReadable r = true -> fileWritable r = true ->
  fileContent r = cStateNotTailored ->
  nestedModule f = None -> siblingModule f = None ->
  engineArgs args = true ->
  environment (requested args) = Some env ->
  exists st',
    run h f args = (0%Z, st') /\
    fs st' = f /\
    events st' =
      [ ConsoleLog "Error encountered: 'Could not locate 'oneagent-dependency' module'";
        ConsoleLog (nl ++ (if dryRun (requested args) then "[DRY RUN] " else EmptyString)
                       ++ "Tailoring npm module for environment '" ++ name env ++ "': FAILED") ].
Proof.
  intros S R W C Nn Ns A Q.
  destruct (decision_table h f args r S R W A) as (st1 & Hfs & Hev & Ho & M).
  rewrite C, Q in M. cbn in M.
  assert (T : tailorModule h st1 =
              (Thrown (Error "Could not locate 'oneagent-dependency' module"), st1)).
  { unfold tailorModule, bind at 1, gets. cbv beta iota. rewrite Ho, Q.
    unfold bind. rewrite locateDependencyModule_eq, Hfs, Nn, Ns. reflexivity. }
  unfold tryCatch, bind in M. rewrite T in M.
  unfold printResult, bind, gets, console_log, modify in M. cbv beta iota in M.
  cbn [options emit] in M. rewrite Ho, Q in M.
  eexists. unfold run. rewrite M. split; [reflexivity|].
  cbn [fs events emit]. split; [exact Hfs|]. rewrite Hev. cbn [app].
  destruct (dryRun (requested args)); cbn; now rewrite append_assoc.
Qed.

Lemma missing_module_is_reported_witness :
  exists st',
    run posixHost
        {| stateFile := Some {| fileReadable := true; fileWritable := true;
                                fileContent := cStateNotTailored |};
           nestedModule := None; siblingModule := None |}
        ["node"; "pkgtailor.js"; "--AwsLambdaV6"] = (0%Z, st') /\
    fs st' = {| stateFile := Some {| fileReadable := true; fileWritable := true;
                                     fileContent := cStateNotTailored |};
                nestedModule := None; siblingModule := None |} /\
    events st' =
      [ ConsoleLog "Error encountered: 'Could not locate 'oneagent-dependency' module'";
        ConsoleLog (nl ++ (if dryRun (requested ["node"; "pkgtailor.js"; "--AwsLambdaV6"])
                           then "[DRY RUN] " else EmptyString)
                       ++ "Tailoring npm module for environment '"
                       ++ name cLambdaV6EnvDef ++ "': FAILED") ].
Proof.
  apply (missing_module_is_reported posixHost
           {| stateFile := Some {| fileReadable := true; fileWritable := true;
                                   fileContent := cStateNotTailored |};
              nestedModule := None; siblingModule := None |}
           ["node"; "pkgtailor.js"; "--AwsLambdaV6"]
           {| fileReadable := true; fileWritable := true;
              fileContent := cStateNotTailored |}
           cLambdaV6EnvDef); reflexivity.
Defined.

(** X13.  An unknown token.  When the state file holds anything but one
    of the four tokens (a token followed by a line break, say), an
    invocation with run flags prints the unknown-state error with the
    content as it is, exits with code 0 and changes nothing, whatever
    environment is requested. *)
Theorem unknown_state_is_reported
  (h : Host) (f : FileSystem) (args : list string) (r : RegularFile) :
  stateFile f = Some r -> fileReadable r = true -> fileWritable r = true ->
  ~ In (fileContent r) cStates ->
  engineArgs args = true ->
  exists st',
    run h f args = (0%Z, st') /\
    fs st' = f /\
    events st' =
      [ ConsoleLog ("ERROR: npm module is in an unknown tailoring state '" ++
                    fileContent r ++ "'") ].
Proof.
  intros S R W N A.
  destruct (decision_table h f args r S R W A) as (st1 & Hfs & Hev & Ho & M).
  assert (I : (indexOf cStates (Some (fileContent r)) <? 0)%Z = true).
  { unfold indexOf, cStates. cbn [indexOfFrom strictEquals].
    destruct (fileContent r =? cStateNotTailored) eqn:E1;
      [apply String.eqb_eq in E1; exfalso; apply N; rewrite E1; simpl; auto|].
    destruct (fileContent r =? cStateUndefined) eqn:E2;
      [apply String.eqb_eq in E2; exfalso; apply N; rewrite E2; simpl; auto|].
    destruct (fileContent r =? cStateLambdaWithNode4) eqn:E3;
      [apply String.eqb_eq in E3; exfalso; apply N; rewrite E3; simpl; auto|].
    destruct (fileContent r =? cStateLambdaWithNode6) eqn:E4;
      [apply String.eqb_eq in E4; exfalso; apply N; rewrite E4; simpl; auto|].
    reflexivity. }
  rewrite I in M. eexists. unfold run. rewrite M. split; [reflexivity|].
  cbn [fs events emit]. split; [exact Hfs|]. now rewrite Hev.
Qed.

Lemma unknown_state_is_reported_witness :
  exists st',
    run posixHost (sampleFs ("untailored" ++ nl) true)
        ["node"; "pkgtailor.js"; "--AwsLambdaV4"] = (0%Z, st') /\
    fs st' = sampleFs ("untailored" ++ nl) true /\
    events st' =
      [ ConsoleLog ("ERROR: npm module is in an unknown tailoring state '" ++
                    fileContent {| fileReadable := true; fileWritable := true;
                                   fileContent := "untailored" ++ nl |} ++ "'") ].
Proof.
  apply (unknown_state_is_reported posixHost (sampleFs ("untailored" ++ nl) true)
           ["node"; "pkgtailor.js"; "--AwsLambdaV4"]
           {| fileReadable := true; fileWritable := true;
              fileContent := "untailored" ++ nl |}); try reflexivity.
  simpl. intros [E | [E | [E | [E | []]]]]; discriminate.
Defined.

(** X14.  A conflict.  When the state file names an environment and the
    command line requests the other one, the invocation prints the
    conflict error, two lines that name the environment on file (without
    the closing quote) and the requested one, exits with code 0 and
    changes nothing. *)
Theorem conflict_is_reported
  (h : Host) (f : FileSystem) (args : list string) (r : RegularFile)
  (tailored env : EnvDef) :
  stateFile f = Some r -> fileReadable r = true -> fileWritable r = true ->
  In tailored environments -> fileContent r = name tailored ->
  engineArgs args = true ->
  environment (requested args) = Some env ->
  name env <> name tailored ->
  exists st',
    run h f args = (0%Z, st') /\
    fs st' = f /\
    events st' =
      [ ConsoleLog ("ERROR: The npm module has been already tailored for environment '" ++
                    name tailored);
        ConsoleLog ("Please uninstall and re-install @dynatrace/oneagent module " ++
                    "to tailor for environment '" ++ name env ++ "'") ].
Proof.
  intros S R W I C A Q N.
  destruct (decision_table h f args r S R W A) as (st1 & Hfs & Hev & Ho & M).
  rewrite C, Q in M.
  assert (D : (name tailored =? name env) = false)
    by (apply String.eqb_neq; congruence).
  rewrite D in M.
  assert (M' : main h (initialState f args) =
               (Normal tt,
                emit (ConsoleLog ("Please uninstall and re-install @dynatrace/oneagent module " ++
                                  "to tailor for environment '" ++ name env ++ "'"))
                  (emit (ConsoleLog ("ERROR: The npm module has been already tailored " ++
                                     "for environment '" ++ name tailored)) st1)))
    by (destruct I as [<- | [<- | []]]; exact M).
  eexists. unfold run. rewrite M'. split; [reflexivity|].
  cbn [fs events emit]. split; [exact Hfs|]. now rewrite Hev.
Qed.

Lemma conflict_is_reported_witness :
  exists st',
    run posixHost (sampleFs cStateLambdaWithNode4 true)
        ["node"; "pkgtailor.js"; "--AwsLambdaV6"] = (0%Z, st') /\
    fs st' = sampleFs cStateLambdaWithNode4 true /\
    events st' =
      [ ConsoleLog ("ERROR: The npm module has been already tailored for environment '" ++
                    name cLambdaV4EnvDef);
        ConsoleLog ("Please uninstall and re-install @dynatrace/oneagent module " ++
                    "to tailor for environment '" ++ name cLambdaV6EnvDef ++ "'") ].
Proof.
  apply (conflict_is_reported posixHost (sampleFs cStateLambdaWithNode4 true)
           ["node"; "pkgtailor.js"; "--AwsLambdaV6"]
           {| fileReadable := true; fileWritable := true;
              fileContent := cStateLambdaWithNode4 |}
           cLambdaV4EnvDef cLambdaV6EnvDef); try reflexivity.
  - simpl. auto.
  - discriminate.
Defined.

(** X15.  No environment.  On the state NotTailored, a command line of
    run flags without an environment flag ends in the report of [no
    environment for tailoring specified.] and the FAILED summary, with
    exit code 0; the module is not looked for and nothing is changed. *)
Theorem no_environment_is_reported
  (h : Host) (f : FileSystem) (args : list string) (r : RegularFile) :
  stateFile f = Some r -> fileReadable r = true -> fileWritable r = true ->
  fileContent r = cStateNotTailored ->
  engineArgs args = true ->
  environment (requested args) = None ->
  exists st',
    run h f args = (0%Z, st') /\
    fs st' = f /\
    events st' =
      [ ConsoleLog "Error encountered: 'no environment for tailoring specified.'";
        ConsoleLog (nl ++ (if dryRun (requested args) then "[DRY RUN] " else EmptyString)
                       ++ "Tailoring npm module: FAILED") ].
Proof.
  intros S R W C A Q.
  destruct (decision_table h f args r S R W A) as (st1 & Hfs & Hev & Ho & M).
  rewrite C, Q in M. cbn in M.
  unfold printResult, bind, gets, console_log, modify in M. cbv beta iota in M.
  cbn [options emit] in M. rewrite Ho, Q in M.
  eexists. unfold run. rewrite M. split; [reflexivity|].
  cbn [fs events emit]. split; [exact Hfs|]. now rewrite Hev.
Qed.

Lemma no_environment_is_reported_witness :
  exists st',
    run posixHost (sampleFs cStateNotTailored true)
        ["node"; "pkgtailor.js"; "--dryRun"] = (0%Z, st') /\
    fs st' = sampleFs cStateNotTailored true /\
    events st' =
      [ ConsoleLog "Error encountered: 'no environment for tailoring specified.'";
        ConsoleLog (nl ++ (if dryRun (requested ["node"; "pkgtailor.js"; "--dryRun"])
                           then "[DRY RUN] " else EmptyString)
                       ++ "Tailoring npm module: FAILED") ].
Proof.
  apply (no_environment_is_reported posixHost (sampleFs cStateNotTailored true)
           ["node"; "pkgtailor.js"; "--dryRun"]
           {| fileReadable := true; fileWritable := true;
              fileContent := cStateNotTailored |}); reflexivity.
Defined.

(** X16.  What a dry run prints.  Once the module is located and scanned,
    a dry run prints the heading with the name of the environment, the
    line [Dry run - following files will be deleted from npm module], then
    the candidates in the order of the scan, each after two blanks, and an
    empty line.  The access check of a candidate comes before its line:
    every candidate that is listed has passed its check for reading and
    writing, and the first candidate whose check throws ends the listing
    before its own line, the run throwing that error.  The file system is
    left as it was. *)
Theorem dry_run_lists_the_candidates
  (h : Host) (st st' : State) (c : Completion unit) (env : EnvDef)
  (loc : string) (allFiles : list string) :
  environment (options st) = Some env ->
  dryRun (options st) = true ->
  locateDependencyModule h st = (Normal loc, st) ->
  scanFolder h loc st = (Normal allFiles, st) ->
  tailorModule h st = (c, st') ->
  exists listed rest,
    filter (deleteFilePredicate env) allFiles = listed ++ rest /\
    Forall (fun fn => fst (accessSync h fn readWriteAccess st) = Normal tt) listed /\
    fs st' = fs st /\
    events st' =
      events st ++
      [ ConsoleLog (nl ++ "Tailoring npm module for environment '" ++ name env ++ "'");
        ConsoleLog "Dry run - following files will be deleted from npm module" ] ++
      map (fun fn => ConsoleLog ("  " ++ fn)) listed ++
      match rest with
      | [] => [ConsoleLog EmptyString]
      | _ :: _ => []
      end /\
    match rest with
    | [] => c = Normal tt
    | fn :: _ =>
        exists e, c = Thrown e /\
                  fst (accessSync h fn readWriteAccess st) = Thrown e
    end.
Proof.
  intros O D L Sc H.
  destruct (tailorModule_dry_exact h st st' c env loc allFiles O D L Sc H)
    as (listed & rest & E & Hfs & Hev & Hok & Hc).
  exists listed, rest. repeat split; assumption.
Qed.

(** The witness: the second candidate may not be written. *)
Lemma dry_run_lists_the_candidates_witness :
  exists listed rest,
    filter (deleteFilePredicate cLambdaV4EnvDef)
      (map (canonical Posix)
         (rawPaths Posix (siblingLocation posixHost)
            (rootEntries (Some (sampleModule false))))) = listed ++ rest /\
    Forall (fun fn => fst (accessSync posixHost fn readWriteAccess (sampleState false true))
                      = Normal tt) listed /\
    fs (snd (tailorModule posixHost (sampleState false true))) = fs (sampleState false true) /\
    events (snd (tailorModule posixHost (sampleState false true))) =
      events (sampleState false true) ++
      [ ConsoleLog (nl ++ "Tailoring npm module for environment '"
                       ++ name cLambdaV4EnvDef ++ "'");
        ConsoleLog "Dry run - following files will be deleted from npm module" ] ++
      map (fun fn => ConsoleLog ("  " ++ fn)) listed ++
      match rest with
      | [] => [ConsoleLog EmptyString]
      | _ :: _ => []
      end /\
    match rest with
    | [] => fst (tailorModule posixHost (sampleState false true)) = Normal tt
    | fn :: _ =>
        exists e, fst (tailorModule posixHost (sampleState false true)) = Thrown e /\
                  fst (accessSync posixHost fn readWriteAccess (sampleState false true))
                    = Thrown e
    end.
Proof.
  apply (dry_run_lists_the_candidates posixHost (sampleState false true)
           (snd (tailorModule posixHost (sampleState false true)))
           (fst (tailorModule posixHost (sampleState false true)))
           cLambdaV4EnvDef (siblingLocation posixHost)).
  - reflexivity.
  - reflexivity.
  - reflexivity.
  - reflexivity.
  - apply surjective_pairing.
Defined.

(** X17.  A dry run is a preview of the run.  On one file system and for
    one environment, when the dry run and the run that is not dry both
    return, the files the dry run has listed are the files the other run
    has unlinked, in the same order, between its two writes of the state
    file. *)
Theorem dry_run_previews_the_run
  (h : Host) (dry dry' real real' : State) (env : EnvDef) (r : RegularFile) :
  fs dry = fs real ->
  environment (options dry) = Some env -> environment (options real) = Some env ->
  dryRun (options dry) = true -> dryRun (options real) = false ->
  stateFile (fs real) = Some r -> fileWritable r = true ->
  tailorModule h dry = (Normal tt, dry') ->
  tailorModule h real = (Normal tt, real') ->
  exists candidates evs,
    events dry' =
      events dry ++
      [ ConsoleLog (nl ++ "Tailoring npm module for environment '" ++ name env ++ "'");
        ConsoleLog "Dry run - following files will be deleted from npm module" ] ++
      map (fun fn => ConsoleLog ("  " ++ fn)) candidates ++ [ConsoleLog EmptyString] /\
    events real' = events real ++ evs /\
    mutations evs =
      FileWritten (cStateFileName h) cStateUndefined
        :: map FileUnlinked candidates ++ [FileWritten (cStateFileName h) (name env)].
Proof.
  intros F Od Or Dd Dr S W Hd Hr.
  destruct (tailorModule_not_dry h real real' (Normal tt) env r Or Dr S W Hr)
    as (evs & Hev & [(_ & _ & e & C) | (loc & allFiles & L & Sc & [Ok | Failed])]).
  - discriminate.
  - destruct Ok as (_ & M & _).
    assert (Ld : locateDependencyModule h dry = (Normal loc, dry)).
    { rewrite locateDependencyModule_eq in *. rewrite F.
      destruct (nestedModule (fs real)); [|destruct (siblingModule (fs real))];
        try discriminate; injection L as <-; reflexivity. }
    assert (Scd : scanFolder h loc dry = (Normal allFiles, dry)).
    { rewrite (scanFolder_fs h loc dry real F), Sc. reflexivity. }
    destruct (tailorModule_dry_exact h dry dry' (Normal tt) env loc allFiles Od Dd Ld Scd Hd)
      as (listed & rest & E & _ & Hevd & _ & Hc).
    destruct rest as [|fn rest]; [|destruct Hc as (e & C & _); discriminate].
    rewrite app_nil_r in E. subst listed.
    exists (filter (deleteFilePredicate env) allFiles), evs.
    split; [exact Hevd|]. split; [exact Hev | exact M].
  - destruct Failed as (e & done & failed & rest & C & _). discriminate.
Qed.

Lemma dry_run_previews_the_run_witness :
  exists candidates evs,
    events (snd (tailorModule posixHost (sampleState true true))) =
      events (sampleState true true) ++
      [ ConsoleLog (nl ++ "Tailoring npm module for environment '"
                       ++ name cLambdaV4EnvDef ++ "'");
        ConsoleLog "Dry run - following files will be deleted from npm module" ] ++
      map (fun fn => ConsoleLog ("  " ++ fn)) candidates ++ [ConsoleLog EmptyString] /\
    events (snd (tailorModule posixHost (sampleState true false))) =
      events (sampleState true false) ++ evs /\
    mutations evs =
      FileWritten (cStateFileName posixHost) cStateUndefined
        :: map FileUnlinked candidates
        ++ [FileWritten (cStateFileName posixHost) (name cLambdaV4EnvDef)].
Proof.
  apply (dry_run_previews_the_run posixHost
           (sampleState true true) (snd (tailorModule posixHost (sampleState true true)))
           (sampleState true false) (snd (tailorModule posixHost (sampleState true false)))
           cLambdaV4EnvDef
           {| fileReadable := true; fileWritable := true;
              fileContent := cStateNotTailored |}).
  - reflexivity.
  - reflexivity.
  - reflexivity.
  - reflexivity.
  - reflexivity.
  - reflexivity.
  - reflexivity.
  - apply pair_of_fst. vm_compute. reflexivity.
  - apply pair_of_fst. vm_compute. reflexivity.
Defined.

(** X18.  Every unlink is announced.  Once the module is located and
    scanned, a run that is not dry prints the heading, writes Undefined,
    and then for each candidate in turn prints [deleting file '<path>']
    and unlinks it, in the file system as the earlier unlinks have left
    it.  The first candidate whose unlink throws ends the run with that
    error: its line is the last thing the run has done, the files before
    it are gone and nothing else is changed.  When no unlink throws, every
    candidate is gone and the last thing is the write of the environment's
    name. *)
Theorem every_unlink_is_announced
  (h : Host) (st st' : State) (c : Completion unit) (env : EnvDef) (r : RegularFile)
  (loc : string) (allFiles : list string) :
  environment (options st) = Some env ->
  dryRun (options st) = false ->
  stateFile (fs st) = Some r -> fileWritable r = true ->
  locateDependencyModule h st = (Normal loc, st) ->
  scanFolder h loc st = (Normal allFiles, st) ->
  tailorModule h st = (c, st') ->
  exists done rest,
    filter (deleteFilePredicate env) allFiles = done ++ rest /\
    events st' =
      events st ++
      [ ConsoleLog (nl ++ "Tailoring npm module for environment '" ++ name env ++ "'");
        FileWritten (cStateFileName h) cStateUndefined ] ++
      flat_map (fun fn => [ConsoleLog ("  deleting file '" ++ fn ++ "'"); FileUnlinked fn])
               done ++
      match rest with
      | [] => [FileWritten (cStateFileName h) (name env)]
      | fn :: _ => [ConsoleLog ("  deleting file '" ++ fn ++ "'")]
      end /\
    fst (forEach (unlinkSync h) done (snd (writeStateFile h cStateUndefined st))) = Normal tt /\
    match rest with
    | [] =>
        c = Normal tt /\
        fs st' =
          fs (snd (writeStateFile h (name env)
                     (snd (forEach (unlinkSync h) done
                             (snd (writeStateFile h cStateUndefined st))))))
    | fn :: _ =>
        exists e,
          c = Thrown e /\
          fst (unlinkSync h fn
                 (snd (forEach (unlinkSync h) done
                         (snd (writeStateFile h cStateUndefined st))))) = Thrown e /\
          fs st' =
            fs (snd (forEach (unlinkSync h) done
                       (snd (writeStateFile h cStateUndefined st))))
    end.
Proof.
  intros O D S W L Sc H.
  destruct (tailorModule_not_dry_tied h st st' c env r loc allFiles O D S W L Sc H)
    as (done & rest & E & Hev & Hn & Hc).
  exists done, rest. split; [exact E|]. split; [exact Hev|]. split; [exact Hn|].
  destruct rest as [|fn rest].
  - destruct Hc as (C & F & _). now split.
  - destruct Hc as (e & C & U & F & _). exists e. repeat split; assumption.
Qed.

(** The witness: the second of three unlinks is refused. *)
Lemma every_unlink_is_announced_witness :
  exists done rest,
    filter (deleteFilePredicate cLambdaV4EnvDef)
      (map (canonical Posix)
         (rawPaths Posix (siblingLocation posixHost)
            (rootEntries (Some (sampleModule false))))) = done ++ rest /\
    events (snd (tailorModule posixHost (sampleState false false))) =
      events (sampleState false false) ++
      [ ConsoleLog (nl ++ "Tailoring npm module for environment '"
                       ++ name cLambdaV4EnvDef ++ "'");
        FileWritten (cStateFileName posixHost) cStateUndefined ] ++
      flat_map (fun fn => [ConsoleLog ("  deleting file '" ++ fn ++ "'"); FileUnlinked fn])
               done ++
      match rest with
      | [] => [FileWritten (cStateFileName posixHost) (name cLambdaV4EnvDef)]
      | fn :: _ => [ConsoleLog ("  deleting file '" ++ fn ++ "'")]
      end /\
    fst (forEach (unlinkSync posixHost) done
           (snd (writeStateFile posixHost cStateUndefined (sampleState false false)))) =
      Normal tt /\
    match rest with
    | [] =>
        fst (tailorModule posixHost (sampleState false false)) = Normal tt /\
        fs (snd (tailorModule posixHost (sampleState false false))) =
          fs (snd (writeStateFile posixHost (name cLambdaV4EnvDef)
                     (snd (forEach (unlinkSync posixHost) done
                             (snd (writeStateFile posixHost cStateUndefined
                                     (sampleState false false)))))))
    | fn :: _ =>
        exists e,
          fst (tailorModule posixHost (sampleState false false)) = Thrown e /\
          fst (unlinkSync posixHost fn
                 (snd (forEach (unlinkSync posixHost) done
                         (snd (writeStateFile posixHost cStateUndefined
                                 (sampleState false false)))))) = Thrown e /\
          fs (snd (tailorModule posixHost (sampleState false false))) =
            fs (snd (forEach (unlinkSync posixHost) done
                       (snd (writeStateFile posixHost cStateUndefined
                               (sampleState false false)))))
    end.
Proof.
  apply (every_unlink_is_announced posixHost (sampleState false false)
           (snd (tailorModule posixHost (sampleState false false)))
           (fst (tailorModule posixHost (sampleState false false)))
           cLambdaV4EnvDef
           {| fileReadable := true; fileWritable := true;
              fileContent := cStateNotTailored |}
           (siblingLocation posixHost)).
  - reflexivity.
  - reflexivity.
  - reflexivity.
  - reflexivity.
  - reflexivity.
  - reflexivity.
  - apply surjective_pairing.
Defined.

(** X19.  [--dryRun] keeps every file.  An invocation with [--dryRun]
    among its flags leaves the file system as it found it: the state file
    and every file of the module, whatever the state file holds or lacks,
    whatever the other flags are and wherever [--dryRun] stands among
    them. *)
Theorem dry_run_keeps_every_file (h : Host) (f : FileSystem) (args : list string) :
  In "--dryRun"%string (skipn 2 args) ->
  fs (snd (run h f args)) = f.
Proof.
  intros I.
  destruct (stateAccessible f) eqn:Acc.
  - destruct (firstOther (flagsOf args)) as [a|] eqn:F.
    + destruct (stateAccessible_inv f Acc) as (r & S & R & W).
      pose proof (main_after_parse h f args r S R W) as M. rewrite F in M.
      destruct M as (st' & E & Hfs & _). unfold run. rewrite E. exact Hfs.
    + apply dry_invocation_changes_nothing; [exact Acc | | exact I].
      apply flagsOf_engineArgs; [|exact F].
      intros E. rewrite E in I. destruct I.
  - unfold run, main, tryCatch, bind.
    rewrite (tryReadStateFile_fails h (initialState f args) Acc). reflexivity.
Qed.

Lemma dry_run_keeps_every_file_witness :
  fs (snd (run posixHost (sampleFs cStateNotTailored true)
             ["node"; "pkgtailor.js"; "--AwsLambdaV6"; "--dryRun"])) =
    sampleFs cStateNotTailored true.
Proof.
  apply (dry_run_keeps_every_file posixHost (sampleFs cStateNotTailored true)
           ["node"; "pkgtailor.js"; "--AwsLambdaV6"; "--dryRun"]).
  simpl. auto.
Defined.

(** X20.  The summary tells the state of the module.  On the state
    NotTailored, an invocation that is not dry and requests an environment
    ends with exit code 0 and the summary as its last line.  After
    SUCCEEDED the state file holds the name of the environment.  After
    FAILED, which follows the line of the error, either nothing has been
    changed or the state file holds Undefined. *)
Theorem verdict_tells_the_state
  (h : Host) (f : FileSystem) (args : list string) (r : RegularFile) (env : EnvDef) :
  stateFile f = Some r -> fileReadable r = true -> fileWritable r = true ->
  fileContent r = cStateNotTailored ->
  engineArgs args = true ->
  environment (requested args) = Some env ->
  dryRun (requested args) = false ->
  exists st' evs,
    run h f args = (0%Z, st') /\
    ((events st' =
        evs ++ [ConsoleLog (nl ++ "Tailoring npm module for environment '"
                               ++ name env ++ "': SUCCEEDED")] /\
      persisted (fs st') = Some (name env)) \/
     (exists e,
         events st' =
           evs ++ [ ConsoleLog ("Error encountered: '" ++ message e ++ "'");
                    ConsoleLog (nl ++ "Tailoring npm module for environment '"
                                   ++ name env ++ "': FAILED") ] /\
         (fs st' = f \/ persisted (fs st') = Some cStateUndefined))).
Proof.
  intros S R W C A Q D.
  destruct (decision_table h f args r S R W A) as (st1 & Hfs & Hev & Ho & M).
  rewrite C, Q in M. cbn in M.
  unfold run. rewrite M. unfold tryCatch, bind.
  destruct (tailorModule h st1) as [c s1] eqn:T.
  assert (O1 : options s1 = requested args).
  { rewrite <- Ho. pose proof (keeps_tailorModule h st1) as K. rewrite T in K. exact K. }
  assert (E1 : environment (options st1) = Some env) by now rewrite Ho.
  assert (D1 : dryRun (options st1) = false) by now rewrite Ho.
  rewrite <- Hfs in S.
  destruct (tailorModule_not_dry h st1 s1 c env r E1 D1 S W T)
    as (evs & Hevs & [(_ & F & e & ->) | (loc & allFiles & _ & _ & [Ok | Failed])]).
  - unfold printResult, bind, gets, console_log, modify. cbv beta iota.
    cbn [options emit]. rewrite O1, Q, D.
    eexists. exists (events s1). split; [reflexivity|]. right. exists e.
    cbn [events emit fs]. split; [|left; congruence].
    rewrite <- app_assoc. cbn. now rewrite append_assoc.
  - destruct Ok as (-> & _ & P).
    unfold printResult, bind, gets, console_log, modify, ret. cbv beta iota.
    cbn [options emit]. rewrite O1, Q, D.
    eexists. exists (events s1). split; [reflexivity|]. left.
    cbn [events emit fs]. split; [|unfold persisted; now rewrite P].
    cbn. now rewrite append_assoc.
  - destruct Failed as (e & done & failed & rest & -> & _ & _ & P).
    unfold printResult, bind, gets, console_log, modify. cbv beta iota.
    cbn [options emit]. rewrite O1, Q, D.
    eexists. exists (events s1). split; [reflexivity|]. right. exists e.
    cbn [events emit fs]. split; [|right; unfold persisted; now rewrite P].
    rewrite <- app_assoc. cbn. now rewrite append_assoc.
Qed.

(** The witness: the environment of Node.js 4 on a module whose files can
    all be unlinked. *)
Lemma verdict_tells_the_state_witness :
  exists st' evs,
    run posixHost (sampleFs cStateNotTailored true)
        ["node"; "pkgtailor.js"; "--AwsLambdaV4"] = (0%Z, st') /\
    ((events st' =
        evs ++ [ConsoleLog (nl ++ "Tailoring npm module for environment '"
                               ++ name cLambdaV4EnvDef ++ "': SUCCEEDED")] /\
      persisted (fs st') = Some (name cLambdaV4EnvDef)) \/
     (exists e,
         events st' =
           evs ++ [ ConsoleLog ("Error encountered: '" ++ message e ++ "'");
                    ConsoleLog (nl ++ "Tailoring npm module for environment '"
                                   ++ name cLambdaV4EnvDef ++ "': FAILED") ] /\
         (fs st' = sampleFs cStateNotTailored true \/
          persisted (fs st') = Some cStateUndefined))).
Proof.
  apply (verdict_tells_the_state posixHost (sampleFs cStateNotTailored true)
           ["node"; "pkgtailor.js"; "--AwsLambdaV4"]
           {| fileReadable := true; fileWritable := true;
              fileContent := cStateNotTailored |}
           cLambdaV4EnvDef); reflexivity.
Defined.
